(** * Helsen IA dashboard front end (script.js, auth.js)

    A shallow embedding of the parts of the browser script that carry logic:
    the QR/status normaliser of the WhatsApp panel, the product list and its
    price rendering, the cents/reais converters, the session keys kept in
    local storage, the bounded chat history and the status poll.

    Conventions of the embedding.
    - A JavaScript string is a [string]: a sequence of code units, of which
      the first 256 (Latin-1) are represented.  The fixed texts of alerts
      and chat bubbles are written as they stand in the source file.
    - A JavaScript number is a [Num]: NaN, an infinity, or an exact decimal
      [mant * 10^expo].  The code only divides and multiplies by 100 and
      rounds, which exact decimals are closed under; binary64 agrees with
      the exact result on the ranges the theorems state.
    - A value read from a JSON body is a [JSValue]; an object is the list of
      its own properties in the order [Object.keys] enumerates them.
    - Built-ins whose result the code only passes along ([JSON.stringify],
      [String], [encodeURIComponent], ...) are the fields of [Builtins]. *)

From Stdlib Require Import ZArith Lia List String Ascii Bool.
From stdpp Require Import base gmap strings.
Import ListNotations.
Local Open Scope string_scope.

(* ================================================================== *)
(** ** Strings *)

Module Str.

Definition code (c : ascii) : N := N_of_ascii c.

(** WhiteSpace and LineTerminator code units below 256. *)
Definition isWhiteSpace (c : ascii) : bool :=
  let n := code c in
  ((9 <=? n) && (n <=? 13) || (n =? 32) || (n =? 160))%N.

Fixpoint trimStart (s : string) : string :=
  match s with
  | EmptyString => EmptyString
  | String c r => if isWhiteSpace c then trimStart r else s
  end.

Fixpoint trimEnd (s : string) : string :=
  match s with
  | EmptyString => EmptyString
  | String c r =>
      match trimEnd r with
      | EmptyString => if isWhiteSpace c then EmptyString else String c EmptyString
      | r' => String c r'
      end
  end.

(** [s.trim()] *)
Definition trim (s : string) : string := trimEnd (trimStart s).

Definition lowerChar (c : ascii) : ascii :=
  let n := code c in
  if ((65 <=? n) && (n <=? 90)
      || (192 <=? n) && (n <=? 222) && negb (n =? 215))%N
  then ascii_of_N (n + 32) else c.

(** [s.toLowerCase()] *)
Fixpoint toLowerCase (s : string) : string :=
  match s with
  | EmptyString => EmptyString
  | String c r => String (lowerChar c) (toLowerCase r)
  end.

(** [s.startsWith(p)] *)
Definition startsWith (s p : string) : bool := String.prefix p s.

(** [s.includes(p)] *)
Fixpoint includes (s p : string) : bool :=
  String.prefix p s ||
  match s with
  | EmptyString => false
  | String _ r => includes r p
  end.

(** [s.replace(a, b)] for one-character strings: the first occurrence only. *)
Fixpoint replaceFirst (a b : ascii) (s : string) : string :=
  match s with
  | EmptyString => EmptyString
  | String c r => if Ascii.eqb c a then String b r else String c (replaceFirst a b r)
  end.

(** [s.replace(/a/g, '')]: every occurrence of the character is dropped. *)
Fixpoint removeAll (a : ascii) (s : string) : string :=
  match s with
  | EmptyString => EmptyString
  | String c r => if Ascii.eqb c a then removeAll a r else String c (removeAll a r)
  end.

End Str.

(* ================================================================== *)
(** ** Numbers and JSON values *)

(** A finite number [mant * 10^expo]. *)
Record Dec := mkDec { mant : Z; expo : Z }.

Inductive Num :=
| NaN
| Infinity (negative : bool)
| Fin (d : Dec).

(** The number an integer literal denotes. *)
Definition int (z : Z) : Num := Fin (mkDec z 0).

#[local] Unset Elimination Schemes.
Inductive JSValue :=
| JUndefined
| JNull
| JBool (b : bool)
| JNum (n : Num)
| JString (s : string)
| JArray (items : list JSValue)
| JObject (fields : list (string * JSValue)).
#[local] Set Elimination Schemes.

(** Induction over a value and, through arrays and objects, over every
    value nested in it. *)
Section JSValue_nested_induction.
Variable P : JSValue -> Prop.
Hypothesis Hundefined : P JUndefined.
Hypothesis Hnull : P JNull.
Hypothesis Hbool : forall b, P (JBool b).
Hypothesis Hnum : forall n, P (JNum n).
Hypothesis Hstring : forall s, P (JString s).
Hypothesis Harray : forall xs, Forall P xs -> P (JArray xs).
Hypothesis Hobject :
  forall fs, Forall (fun kv => P (snd kv)) fs -> P (JObject fs).

Fixpoint JSValue_nested_ind (v : JSValue) : P v :=
  match v with
  | JUndefined => Hundefined
  | JNull => Hnull
  | JBool b => Hbool b
  | JNum n => Hnum n
  | JString s => Hstring s
  | JArray xs =>
      Harray xs
        ((fix all (l : list JSValue) : Forall P l :=
            match l with
            | [] => List.Forall_nil _
            | x :: r => List.Forall_cons _ x r (JSValue_nested_ind x) (all r)
            end) xs)
  | JObject fs =>
      Hobject fs
        ((fix all (l : list (string * JSValue))
            : Forall (fun kv => P (snd kv)) l :=
            match l with
            | [] => List.Forall_nil _
            | kv :: r => List.Forall_cons _ kv r (JSValue_nested_ind (snd kv)) (all r)
            end) fs)
  end.
End JSValue_nested_induction.

(** Built-ins of the host that the script calls and whose result it does
    not inspect.  [None] from [JSON_stringify] stands for a throw. *)
Class Builtins := {
  JSON_stringify : JSValue -> option string;
  ToString : JSValue -> string;
  ToNumber : JSValue -> Num;
  NumberToString : Num -> string;
  encodeURIComponent : JSValue -> string
}.

(** A host to run the definitions on in examples: it renders every object
    as [{}] and leaves strings as they are. *)
Definition sampleHost : Builtins :=
  {| JSON_stringify := fun _ => Some "{}";
     ToString := fun v => match v with JString s => s | _ => "" end;
     ToNumber := fun v => match v with JNum n => n | _ => NaN end;
     NumberToString := fun _ => "";
     encodeURIComponent := fun v => match v with JString s => s | _ => "" end |}.

Module JS.

Definition isZero (n : Num) : bool :=
  match n with
  | Fin d => (mant d =? 0)%Z
  | _ => false
  end.

(** ToBoolean: what [if (v)], [!v], [a || b] and [a && b] test. *)
Definition truthy (v : JSValue) : bool :=
  match v with
  | JUndefined | JNull => false
  | JBool b => b
  | JNum NaN => false
  | JNum n => negb (isZero n)
  | JString s => negb (s =? "")
  | JArray _ | JObject _ => true
  end.

(** [a || b] *)
Definition or (a b : JSValue) : JSValue := if truthy a then a else b.

(** [a && b] *)
Definition and (a b : JSValue) : JSValue := if truthy a then b else a.

(** [typeof v === 'object'] together with [v] being truthy. *)
Definition isObject (v : JSValue) : bool :=
  match v with
  | JArray _ | JObject _ => true
  | _ => false
  end.

Fixpoint assoc (k : string) (fs : list (string * JSValue)) : JSValue :=
  match fs with
  | [] => JUndefined
  | (k', v) :: r => if k =? k' then v else assoc k r
  end.

(** [v[k]] for a property name [k] that is neither an array index nor the
    name of a built-in member (every key the script reads is such a name).
    Reading a property of [null] or [undefined] throws: see [member]. *)
Definition get (v : JSValue) (k : string) : JSValue :=
  match v with
  | JObject fs => assoc k fs
  | _ => JUndefined
  end.

(** [v.k] with the TypeError of a [null] or [undefined] receiver as [None]. *)
Definition member (v : JSValue) (k : string) : option JSValue :=
  match v with
  | JUndefined | JNull => None
  | _ => Some (get v k)
  end.

(** [v === true] and [v === false] *)
Definition isTrue (v : JSValue) : bool :=
  match v with JBool true => true | _ => false end.

Definition isFalse (v : JSValue) : bool :=
  match v with JBool false => true | _ => false end.

(** [v[0]] *)
Definition at0 (v : JSValue) : JSValue :=
  match v with
  | JArray (x :: _) => x
  | JObject fs => assoc "0" fs
  | JString (String c _) => JString (String c EmptyString)
  | _ => JUndefined
  end.

(** The values [Object.keys(v).map(k => v[k])] of an object or array. *)
Definition ownValues (v : JSValue) : list JSValue :=
  match v with
  | JObject fs => map snd fs
  | JArray xs => xs
  | _ => []
  end.

(** [xs.slice(-n)] for [1 <= n]: the last [n] elements, all of them when
    there are fewer.  ([xs.slice(-0)] is the whole array; the widget is
    built with [maxHistory = 20], and what is stated for other values
    assumes [1 <= maxHistory].) *)
Definition sliceLast {A : Type} (n : nat) (xs : list A) : list A :=
  drop (length xs - n) xs.

End JS.

(** What [await fetch(url)] settles to: a rejection, or a response with its
    [ok] flag, status, body text and the value [res.json()] parses from it
    ([None] when the body is not JSON). *)
Inductive FetchResult :=
| NetworkError
| Response (ok : bool) (status : nat) (text : string) (json : option JSValue).

(* ================================================================== *)
(** ** QR extraction and status classification (script.js, 102-134) *)

Module QR.
Import JS.

Definition keys : list string :=
  ["qrcode"; "qrCode"; "qr_code"; "qrbase64"; "qrBase64"; "code";
   "imageUrl"; "image_url"; "dataUrl"; "data_url"].

(** [typeof v === 'string' && v.length > 5] *)
Definition qrString (v : JSValue) : option string :=
  match v with
  | JString s => if (5 <? String.length s)%nat then Some s else None
  | _ => None
  end.

(** The first loop of [extractQrFrom]: [for (const k of keys)]. *)
Fixpoint directHit (obj : JSValue) (ks : list string) : option string :=
  match ks with
  | [] => None
  | k :: r =>
      match qrString (get obj k) with
      | Some s => Some s
      | None => directHit obj r
      end
  end.

(** The first result of [f] over a list, as a [for] loop with an early
    [return] computes it. *)
Fixpoint firstSome {A B : Type} (f : A -> option B) (l : list A) : option B :=
  match l with
  | [] => None
  | x :: r =>
      match f x with
      | Some y => Some y
      | None => firstSome f r
      end
  end.

(** [extractQrFrom(obj)]; [None] is the [null] result. *)
Fixpoint extractQrFrom (obj : JSValue) : option string :=
  match obj with
  | JObject fs =>
      match directHit obj keys with
      | Some s => Some s
      | None =>
          (fix scan (l : list (string * JSValue)) : option string :=
             match l with
             | [] => None
             | (_, v) :: r =>
                 match (if isObject v then extractQrFrom v else None) with
                 | Some s => Some s
                 | None => scan r
                 end
             end) fs
      end
  | JArray xs =>
      match directHit obj keys with
      | Some s => Some s
      | None =>
          (fix scan (l : list JSValue) : option string :=
             match l with
             | [] => None
             | v :: r =>
                 match (if isObject v then extractQrFrom v else None) with
                 | Some s => Some s
                 | None => scan r
                 end
             end) xs
      end
  | _ => None
  end.

(** The search as the specification words it: the keys on the object
    itself, then on the objects one level below it, and no deeper. *)
Definition oneLevelSearch (obj : JSValue) : option string :=
  if isObject obj then
    match directHit obj keys with
    | Some s => Some s
    | None =>
        firstSome (fun v => if isObject v then directHit v keys else None)
          (ownValues obj)
    end
  else None.

(** Every string of more than 5 characters that sits under one of the keys
    directly on [obj], in the order of [keys]. *)
Definition directHits (obj : JSValue) : list string :=
  omap (fun k => qrString (get obj k)) keys.

(** Every such string anywhere in [obj], in the order of a depth-first walk
    that reads an object's own keys before it descends into its values. *)
Fixpoint allHits (obj : JSValue) : list string :=
  match obj with
  | JObject fs =>
      (directHits obj ++
       (fix go (l : list (string * JSValue)) : list string :=
          match l with
          | [] => []
          | (_, v) :: r => (allHits v ++ go r)%list
          end) fs)%list
  | JArray xs =>
      (directHits obj ++
       (fix go (l : list JSValue) : list string :=
          match l with
          | [] => []
          | v :: r => (allHits v ++ go r)%list
          end) xs)%list
  | _ => []
  end.

(** [Within sub obj]: [sub] is [obj] or a value nested in it at any depth. *)
Inductive Within : JSValue -> JSValue -> Prop :=
| Within_self obj : Within obj obj
| Within_child sub c obj :
    In c (ownValues obj) -> Within sub c -> Within sub obj.

(** A body that holds its QR string two levels below the top. *)
Definition deepBody : JSValue :=
  JObject [("data", JObject [("instance", JObject [("qrcode", JString "2@abcdef")])])].

(** [friendlyState(raw)] *)
Definition friendlyState `{Builtins} (raw : JSValue) : string :=
  match raw with
  | JString s =>
      let low := Str.toLowerCase s in
      if low =? "connected" then "connected"
      else if Str.includes low "wait" || Str.includes low "qr" then "waiting-qr"
      else s
  | JArray _ | JObject _ =>
      if isTrue (get raw "connected") && isTrue (get raw "loggedIn")
      then "connected"
      else if isTrue (get raw "connected") && isFalse (get raw "loggedIn")
      then "waiting-qr"
      else match JSON_stringify raw with
           | Some s => s
           | None => "connecting"
           end
  | _ => "connecting"
  end.

End QR.

(* ================================================================== *)
(** ** Numbers: rounding, [toFixed(2)], [parseFloat] and the cents/reais
       converters (script.js 973-986) *)

Module Number.
Import JS.

Definition isNaN (n : Num) : bool :=
  match n with NaN => true | _ => false end.

(** [n < 0] *)
Definition negative (n : Num) : bool :=
  match n with
  | NaN => false
  | Infinity neg => neg
  | Fin d => (mant d <? 0)%Z
  end.

(** [n * 100] and [n / 100] *)
Definition times100 (n : Num) : Num :=
  match n with
  | Fin d => Fin (mkDec (mant d) (expo d + 2))
  | other => other
  end.

Definition div100 (n : Num) : Num :=
  match n with
  | Fin d => Fin (mkDec (mant d) (expo d - 2))
  | other => other
  end.

(** The integer nearest to [m * 10^e], the larger one of two: floor(x + 1/2). *)
Definition roundHalfUp (m e : Z) : Z :=
  if (0 <=? e)%Z then (m * 10 ^ e)%Z
  else ((2 * m + 10 ^ (- e)) / (2 * 10 ^ (- e)))%Z.

(** [Math.round(n)] *)
Definition Math_round (n : Num) : Num :=
  match n with
  | Fin d => int (roundHalfUp (mant d) (expo d))
  | other => other
  end.

(** The operand of [/] and of [isNaN] as a number. *)
Definition toNum `{Builtins} (v : JSValue) : Num :=
  match v with
  | JNum n => n
  | _ => ToNumber v
  end.

(** [String(v)] *)
Definition toStr `{Builtins} (v : JSValue) : string :=
  match v with
  | JString s => s
  | _ => ToString v
  end.

Definition digitChar (d : Z) : ascii := ascii_of_N (48 + Z.to_N d).

Definition digitVal (c : ascii) : option Z :=
  let n := N_of_ascii c in
  if ((48 <=? n) && (n <=? 57))%N then Some (Z.of_N n - 48)%Z else None.

Fixpoint digitsFuel (fuel : nat) (n : Z) (acc : string) : string :=
  let acc' := String (digitChar (n mod 10)) acc in
  match fuel with
  | O => acc'
  | S f => if (n <? 10)%Z then acc' else digitsFuel f (n / 10) acc'
  end.

(** The decimal digits of a non-negative integer, ["0"] for zero. *)
Definition digits (n : Z) : string := digitsFuel (Z.to_nat (Z.log2 n)) n "".

Fixpoint zeros (k : nat) : string :=
  match k with
  | O => ""
  | S k' => String "0" (zeros k')
  end.

(** Whether [|m * 10^e| >= 10^21]. *)
Definition atLeast1e21 (d : Dec) : bool :=
  if (0 <=? expo d)%Z then (10 ^ 21 <=? Z.abs (mant d) * 10 ^ expo d)%Z
  else (10 ^ 21 * 10 ^ (- expo d) <=? Z.abs (mant d))%Z.

(** [n.toFixed(2)] *)
Definition toFixed2 `{Builtins} (n : Num) : string :=
  match n with
  | NaN => "NaN"
  | Infinity neg => if neg then "-Infinity" else "Infinity"
  | Fin d =>
      let s := if (mant d <? 0)%Z then "-" else "" in
      if atLeast1e21 d then s ++ NumberToString (Fin (mkDec (Z.abs (mant d)) (expo d)))
      else
        let n := roundHalfUp (Z.abs (mant d)) (expo d + 2) in
        let m := digits n in
        let k := String.length m in
        let m := if (k <=? 2)%nat then zeros (3 - k) ++ m else m in
        let k := String.length m in
        s ++ substring 0 (k - 2) m ++ "." ++ substring (k - 2) 2 m
  end.

(** The longest run of decimal digits at the head of [s], read onto [acc];
    with it the number of digits read and the rest of the string. *)
Fixpoint scanDigits (s : string) (acc : Z) (count : nat) : Z * nat * string :=
  match s with
  | EmptyString => (acc, count, s)
  | String c r =>
      match digitVal c with
      | Some d => scanDigits r (acc * 10 + d)%Z (S count)
      | None => (acc, count, s)
      end
  end.

(** An optional sign at the head of [s]: whether it is a minus, and the rest. *)
Definition stripSign (s : string) : bool * string :=
  match s with
  | String c t =>
      if Ascii.eqb c "-" then (true, t)
      else if Ascii.eqb c "+" then (false, t)
      else (false, s)
  | EmptyString => (false, s)
  end.

(** The value of an ExponentPart at the head of [s], [0] when there is none. *)
Definition scanExponent (s : string) : Z :=
  match s with
  | String c r =>
      if (Ascii.eqb c "e" || Ascii.eqb c "E")%bool then
        let '(neg, r') := stripSign r in
        let '(v, cnt, _) := scanDigits r' 0 0 in
        if (cnt =? 0)%nat then 0%Z else if neg then (- v)%Z else v
      else 0%Z
  | EmptyString => 0%Z
  end.

(** [parseFloat(s)]: the longest prefix of the string, after leading white
    space, that is a decimal literal; NaN when there is none.  The value is
    the exact decimal: it is the script's double where that decimal is one,
    and differs from it where the double rounds or overflows (["1e400"] is
    [Infinity] in the script), so what is stated of values is stated on
    ranges where they agree. *)
Definition parseFloat (s : string) : Num :=
  let s := Str.trimStart s in
  let '(neg, s) := stripSign s in
  if String.prefix "Infinity" s then Infinity neg
  else
    let '(ip, ni, r1) := scanDigits s 0 0 in
    let '(m, nf, r2) :=
      match r1 with
      | String c t => if Ascii.eqb c "." then scanDigits t ip 0 else (ip, 0%nat, r1)
      | EmptyString => (ip, 0%nat, r1)
      end in
    if (ni + nf =? 0)%nat then NaN
    else
      Fin (mkDec (if neg then - m else m)%Z (scanExponent r2 - Z.of_nat nf)).

(** [centsToReais(cents)] *)
Definition centsToReais `{Builtins} (cents : JSValue) : string :=
  if negb (truthy cents) || isNaN (toNum cents) then "0,00"
  else Str.replaceFirst "." "," (toFixed2 (div100 (toNum cents))).

(** [reaisToCents(value)] *)
Definition reaisToCents `{Builtins} (value : JSValue) : Num :=
  match value with
  | JNull | JUndefined => int 0
  | _ =>
      let str := Str.trim (toStr value) in
      if str =? "" then int 0
      else
        let str := Str.replaceFirst "," "." (Str.removeAll "." str) in
        let num := parseFloat str in
        if isNaN num || negative num then int 0
        else Math_round (times100 num)
  end.

(** Whether every character of [s] is a decimal digit. *)
Fixpoint allDigits (s : string) : bool :=
  match s with
  | EmptyString => true
  | String c r =>
      match digitVal c with
      | Some _ => allDigits r
      | None => false
      end
  end.

(** Cents over a hundred written with two decimals, as the specification
    has it: the whole part, a point, then the tens and the units of the
    cents. *)
Definition twoDecimals (c : Z) : string :=
  (if (c <? 0)%Z then "-" else "") ++
  digits (Z.abs c / 100) ++ "." ++
  String (digitChar (Z.abs c mod 100 / 10))
    (String (digitChar (Z.abs c mod 10)) "").

End Number.

(* ================================================================== *)
(** ** Session keys in local storage (script.js 180-186, 709-718, 1206-1219;
       auth.js 110-153, 183, 244) *)

Module Session.
Import JS Number.

(** The page's storage and the address it shows. *)
Record Browser := mkBrowser {
  localStorage : gmap string string;
  href : string
}.

Definition removeItem (k : string) (ls : gmap string string) : gmap string string :=
  delete k ls.

Definition setItem (k v : string) (ls : gmap string string) : gmap string string :=
  <[k := v]> ls.

(** [logout()] *)
Definition logout (b : Browser) : Browser :=
  let ls := removeItem "token" (localStorage b) in
  let ls := removeItem "org_id" ls in
  let ls := removeItem "flow_id" ls in
  let ls := removeItem "user_name" ls in
  mkBrowser ls "login.html".

(** [extractToken(data)] for a [data] that is not [null]. *)
Definition extractToken (data : JSValue) : JSValue :=
  let inner (o : JSValue) :=
    JS.or (get o "token") (JS.or (get o "jwt") (get o "access_token")) in
  JS.or (get data "token")
    (JS.or (get data "jwt")
       (JS.or (get data "access_token")
          (JS.or (JS.and (get data "data") (inner (get data "data")))
             (JS.or (JS.and (get data "user") (inner (get data "user")))
                JNull)))).

Definition extractOrg (data : JSValue) : JSValue :=
  JS.or (get data "org_id")
    (JS.or (get data "orgId")
       (JS.or (JS.and (get data "user")
                 (JS.or (get (get data "user") "org_id") (get (get data "user") "orgId")))
          (JString "1"))).

Definition extractFlow (data : JSValue) : JSValue :=
  JS.or (get data "flow_id")
    (JS.or (get data "flowId")
       (JS.or (JS.and (get data "user")
                 (JS.or (get (get data "user") "flow_id") (get (get data "user") "flowId")))
          (JString "1"))).

Definition extractName (d : JSValue) : JSValue :=
  JS.or (get d "name")
    (JS.or (get d "username")
       (JS.or (JS.and (get d "user")
                 (JS.or (get (get d "user") "name")
                    (JS.or (get (get d "user") "username") (get (get d "user") "email"))))
          (JString ""))).

Definition extractTax (d : JSValue) : JSValue :=
  JS.or (get d "tax_id")
    (JS.or (get d "taxId")
       (JS.or (JS.and (get d "user")
                 (JS.or (get (get d "user") "tax_id") (get (get d "user") "taxId")))
          (JString ""))).

(** [saveAuthData(data)]; [None] when it throws, which it does before the
    first write: on a [null] body and on a body without a token. *)
Definition saveAuthData `{Builtins} (data : JSValue) (ls : gmap string string)
  : option (gmap string string) :=
  match member data "token" with
  | None => None
  | Some _ =>
      let token := extractToken data in
      if negb (truthy token) then None
      else
        let ls := setItem "token" (toStr token) ls in
        let ls := setItem "org_id" (toStr (extractOrg data)) ls in
        let ls := setItem "flow_id" (toStr (extractFlow data)) ls in
        let userName := extractName data in
        let ls := if truthy userName then setItem "user_name" (toStr userName) ls else ls in
        let tax := extractTax data in
        let ls := if truthy tax then setItem "tax_id" (toStr tax) ls else ls in
        Some ls
  end.

(** [persistWhatsAppInstance()] on the current instance and token. *)
Definition persistWhatsAppInstance `{Builtins} (inst tok : JSValue)
    (ls : gmap string string) : gmap string string :=
  let ls := if truthy inst then setItem "wa_instance" (toStr inst) ls else ls in
  if truthy tok then setItem "wa_token" (toStr tok) ls else ls.

(** The operations of the two scripts that write to local storage. *)
Inductive Op :=
| Logout
| SaveAuthData (data : JSValue)
| RememberEmail (email : string)
| PersistWhatsAppInstance (inst tok : JSValue)
| SaveAgentConfig (config : string).

Definition exec `{Builtins} (op : Op) (b : Browser) : Browser :=
  match op with
  | Logout => logout b
  | SaveAuthData data =>
      match saveAuthData data (localStorage b) with
      | Some ls => mkBrowser ls (href b)
      | None => b
      end
  | RememberEmail email =>
      mkBrowser (setItem "remember_email" email (localStorage b)) (href b)
  | PersistWhatsAppInstance inst tok =>
      mkBrowser (persistWhatsAppInstance inst tok (localStorage b)) (href b)
  | SaveAgentConfig config =>
      mkBrowser (setItem "agentConfig" config (localStorage b)) (href b)
  end.

(** The keys of the session credentials. *)
Definition sessionKeys : list string := ["token"; "org_id"; "flow_id"; "user_name"].

(** A signed-in page that also remembers a WhatsApp instance token. *)
Definition sampleBrowser : Browser :=
  mkBrowser (list_to_map [("token", "t0"); ("org_id", "7"); ("wa_token", "w0")])
    "index.html".

End Session.

(* ================================================================== *)
(** ** The chat widget (script.js 1238-1580) *)

Module Chatbot.
Import JS.

Record File := mkFile { fileName : string; fileType : string }.

(** An entry of [this.history]: [{ role, content, ts }]. *)
Record Entry := mkEntry { role : string; content : JSValue; ts : Z }.

Inductive Bubble :=
| TextBubble (text : JSValue) (sender : string)
| ImageBubble (src : JSValue) (sender : string).

(** The two requests the widget sends, with the history each carries. *)
Inductive Request :=
| ChatRequest (message : string) (sent : list (string * JSValue))
| VisionRequest (file : File) (sent : list Entry).

(** The fields of a [Chatbot], the parts of the page it writes to (the input
    box, the message list, the attachment preview, the send button) and the
    requests it has sent that have not settled yet. *)
Record Widget := mkWidget {
  isOpen : bool;
  isTyping : bool;
  pendingImageFile : option File;
  history : list Entry;
  maxHistory : nat;
  input : string;
  messages : list Bubble;
  previewShown : bool;
  sendDisabled : bool;
  inFlight : list Request;
  productReloads : nat
}.

(** [new Chatbot()] on a page with an empty input box. *)
Definition constructor : Widget :=
  mkWidget false false None [] 20 "" [] false false [] 0.

Definition setHistory (h : list Entry) (w : Widget) : Widget :=
  mkWidget (isOpen w) (isTyping w) (pendingImageFile w) h (maxHistory w)
    (input w) (messages w) (previewShown w) (sendDisabled w) (inFlight w)
    (productReloads w).

Definition setInput (s : string) (w : Widget) : Widget :=
  mkWidget (isOpen w) (isTyping w) (pendingImageFile w) (history w) (maxHistory w)
    s (messages w) (previewShown w) (sendDisabled w) (inFlight w)
    (productReloads w).

Definition setPendingImage (f : option File) (shown : bool) (w : Widget) : Widget :=
  mkWidget (isOpen w) (isTyping w) f (history w) (maxHistory w)
    (input w) (messages w) shown (sendDisabled w) (inFlight w)
    (productReloads w).

Definition setInFlight (rs : list Request) (w : Widget) : Widget :=
  mkWidget (isOpen w) (isTyping w) (pendingImageFile w) (history w) (maxHistory w)
    (input w) (messages w) (previewShown w) (sendDisabled w) rs
    (productReloads w).

(** [toggleChat()] *)
Definition toggleChat (w : Widget) : Widget :=
  mkWidget (negb (isOpen w)) (isTyping w) (pendingImageFile w) (history w)
    (maxHistory w) (input w) (messages w) (previewShown w) (sendDisabled w)
    (inFlight w) (productReloads w).

(** [_pushHistory(role, content)] when [Date.now()] is [now]. *)
Definition _pushHistory (role : string) (content : JSValue) (now : Z)
    (w : Widget) : Widget :=
  let h := (history w ++ [mkEntry role content now])%list in
  if (maxHistory w <? length h)%nat
  then setHistory (sliceLast (maxHistory w) h) w
  else setHistory h w.

(** [clearMemory()] *)
Definition clearMemory (w : Widget) : Widget := setHistory [] w.

(** [addMessage(text, sender)] and [addImageBubble(src, sender)] *)
Definition addBubble (b : Bubble) (w : Widget) : Widget :=
  mkWidget (isOpen w) (isTyping w) (pendingImageFile w) (history w) (maxHistory w)
    (input w) (messages w ++ [b])%list (previewShown w) (sendDisabled w)
    (inFlight w) (productReloads w).

(** [showTypingIndicator()] *)
Definition showTypingIndicator (w : Widget) : Widget :=
  if isTyping w then w
  else mkWidget (isOpen w) true (pendingImageFile w) (history w) (maxHistory w)
         (input w) (messages w) (previewShown w) true (inFlight w)
         (productReloads w).

(** [hideTypingIndicator()] *)
Definition hideTypingIndicator (w : Widget) : Widget :=
  mkWidget (isOpen w) false (pendingImageFile w) (history w) (maxHistory w)
    (input w) (messages w) (previewShown w) false (inFlight w)
    (productReloads w).

(** The call [fetchProducts()] a chat reply can trigger. *)
Definition reloadProducts (w : Widget) : Widget :=
  mkWidget (isOpen w) (isTyping w) (pendingImageFile w) (history w) (maxHistory w)
    (input w) (messages w) (previewShown w) (sendDisabled w) (inFlight w)
    (S (productReloads w)).

(** [fetch(...)]: the request leaves and is awaited. *)
Definition fetch (r : Request) (w : Widget) : Widget :=
  setInFlight (inFlight w ++ [r])%list w.

(** [this.history.slice(-this.maxHistory).map(({role, content}) => ({role, content}))] *)
Definition normalizedHistory (w : Widget) : list (string * JSValue) :=
  map (fun e => (role e, content e)) (sliceLast (maxHistory w) (history w)).

(** [sendMessage()] up to its first [await]: everything it does before the
    request it sends, if any, is in flight. *)
Definition sendMessage (now : Z) (w : Widget) : Widget :=
  let message := Str.trim (input w) in
  if isTyping w then w
  else
    let hasPendingImage := match pendingImageFile w with Some _ => true | None => false end in
    if (message =? "") && negb hasPendingImage then w
    else
      let w1 :=
        if negb (message =? "")
        then _pushHistory "user" (JString message) now
               (addBubble (TextBubble (JString message) "user") w)
        else w in
      let w2 := showTypingIndicator (setInput "" w1) in
      match pendingImageFile w2 with
      | Some file =>
          let w3 := setPendingImage None false w2 in
          fetch (VisionRequest file (sliceLast (maxHistory w3) (history w3))) w3
      | None => fetch (ChatRequest message (normalizedHistory w2)) w2
      end.

(** The text shown for a reply: the first truthy of [reply], [output],
    [message], [text], [content] and [choices[0].message.content], or the
    default. *)
Definition replyText (data : JSValue) (default : string) : JSValue :=
  let choices := get data "choices" in
  let deep :=
    JS.and choices
      (JS.and (at0 choices)
         (JS.and (get (at0 choices) "message")
            (get (get (at0 choices) "message") "content"))) in
  JS.or (JS.and data
           (JS.or (get data "reply")
              (JS.or (get data "output")
                 (JS.or (get data "message")
                    (JS.or (get data "text")
                       (JS.or (get data "content") deep))))))
    (JString default).

(** The rest of [sendMessage()] (and of [sendImageFile()]) once the request
    at the head of [inFlight] settles as [r], when [Date.now()] is [now]. *)
Definition settle (r : FetchResult) (now : Z) (w : Widget) : Widget :=
  match inFlight w with
  | [] => w
  | ChatRequest _ _ :: rest =>
      let w := setInFlight rest w in
      match r with
      | Response true _ _ (Some data) =>
          let w := hideTypingIndicator w in
          let w := if truthy (JS.and data (get data "product")) then reloadProducts w else w in
          let text := replyText data "OK." in
          _pushHistory "assistant" text now (addBubble (TextBubble text "bot") w)
      | _ =>
          let w := hideTypingIndicator w in
          let w := addBubble
                     (TextBubble
                        (JString "Desculpe, ocorreu um erro. Tente novamente em alguns instantes.")
                        "bot") w in
          _pushHistory "assistant" (JString "[erro]") now w
      end
  | VisionRequest _ _ :: rest =>
      let w := setInFlight rest w in
      match r with
      | Response true _ _ (Some data) =>
          let w := hideTypingIndicator w in
          let w := if truthy (JS.and data (get data "image_url"))
                   then addBubble (ImageBubble (get data "image_url") "bot") w else w in
          let text := replyText data "Imagem recebida." in
          _pushHistory "assistant" text now (addBubble (TextBubble text "bot") w)
      | _ =>
          let w := hideTypingIndicator w in
          let w := addBubble (TextBubble (JString "Erro ao analisar a imagem.") "bot") w in
          _pushHistory "assistant" (JString "[erro imagem]") now w
      end
  end.

(** The [change] handler of the image input.  The blob address of the
    bubble is represented by the name of the file. *)
Definition attachImage (file : File) (w : Widget) : Widget :=
  if negb (fileType file =? "") && Str.startsWith (fileType file) "image/"
  then addBubble (ImageBubble (JString (fileName file)) "user")
         (setPendingImage (Some file) true w)
  else addBubble (TextBubble (JString "Arquivo inválido. Selecione uma imagem.") "bot") w.

(** What can happen to the widget: the user types, presses send, picks or
    removes an image, clears the memory, opens or closes the window; a
    request settles. *)
Inductive Event :=
| Typed (s : string)
| Send (now : Z)
| Settled (r : FetchResult) (now : Z)
| Attach (file : File)
| RemoveAttachment
| ClearMemory
| Toggle.

Definition step (w : Widget) (e : Event) : Widget :=
  match e with
  | Typed s => setInput s w
  | Send now => sendMessage now w
  | Settled r now => settle r now w
  | Attach file => attachImage file w
  | RemoveAttachment => setPendingImage None false w
  | ClearMemory => clearMemory w
  | Toggle => toggleChat w
  end.

Definition run (es : list Event) : Widget := fold_left step es constructor.

(** A sequence of calls of [_pushHistory], each with its clock reading. *)
Definition pushAll (es : list Entry) (w : Widget) : Widget :=
  fold_left (fun w e => _pushHistory (role e) (content e) (ts e) w) es w.

(** The history holds at most [maxHistory = 20] entries. *)
Definition historyBounded (w : Widget) : Prop :=
  maxHistory w = 20%nat /\ (length (history w) <= 20)%nat.

(** At most one request is awaited, and one is awaited only while the
    typing flag is set. *)
Definition oneInFlight (w : Widget) : Prop :=
  (length (inFlight w) <= 1)%nat /\ (isTyping w = false -> inFlight w = []).

End Chatbot.

(* ================================================================== *)
(** ** The product list (script.js 417-454, 937-971) *)

Module Products.
Import JS Number.

(** An element of the module-level [products] array. *)
Record Product := mkProduct {
  id : JSValue;
  name : JSValue;
  description : JSValue;
  category : JSValue;
  price : Num;
  priceCents : JSValue;
  stock : JSValue;
  status : JSValue;
  imageRaw : JSValue;
  image : JSValue
}.

(** [p.price_cents ? (p.price_cents / 100) : 0] *)
Definition priceOf `{Builtins} (cents : JSValue) : Num :=
  if truthy cents then div100 (toNum cents) else int 0.

(** The [img] computed from [raw = p.image_url || p.image_base64]. *)
Definition imageOf `{Builtins} (base : string) (raw : JSValue) : JSValue :=
  if truthy raw then
    let lower := Str.toLowerCase (toStr raw) in
    if Str.startsWith lower "http" || Str.startsWith lower "data:" then raw
    else if Str.startsWith lower "/" then JString (base ++ toStr raw)
    else JString ("data:image/png;base64," ++ toStr raw)
  else JNull.

(** The callback of [.map(p => ...)] in [fetchProducts]; [None] when it
    throws, which it does on an item that is [null]. [base] is BACKEND_BASE. *)
Definition toProduct `{Builtins} (base : string) (p : JSValue) : option Product :=
  match member p "price_cents" with
  | None => None
  | Some cents =>
      let raw := JS.or (get p "image_url") (get p "image_base64") in
      Some (mkProduct
              (get p "id")
              (get p "title")
              (JS.or (get p "slug") (JString ""))
              (JS.or (get p "category") (JString "Sem categoria"))
              (priceOf cents)
              (JS.or cents (JNum (int 0)))
              (JS.or (get p "stock") (JNum (int 0)))
              (JS.or (get p "status") (JString "active"))
              (JS.or raw (JString ""))
              (imageOf base raw))
  end.






(** An item priced at 12.50 and one that carries no price. *)
Definition pricedItem : JSValue :=
  JObject [("id", JNum (int 1)); ("title", JString "Caneca"); ("price_cents", JNum (int 1250))].


End Products.

(* ================================================================== *)
(** ** The WhatsApp panel: instance, status poll and QR display
       (script.js 136-317, 1628-1642) *)

Module WhatsApp.
Import JS QR.

(** The requests of the panel. *)
Inductive Endpoint := CreateEP | StatusEP | QrEP | QrcodeEP.

(** The address each request goes to, for the current instance and token. *)
Definition url `{Builtins} (base : string) (inst tok : JSValue) (ep : Endpoint) : string :=
  match ep with
  | CreateEP => base ++ "/api/wa/instances"
  | StatusEP => base ++ "/api/wa/instances/" ++ encodeURIComponent inst
                  ++ "/status?token=" ++ encodeURIComponent tok
  | QrEP => base ++ "/api/wa/instances/" ++ encodeURIComponent inst
              ++ "/qr?token=" ++ encodeURIComponent tok
  | QrcodeEP => base ++ "/api/wa/instances/" ++ encodeURIComponent inst
                  ++ "/qrcode?token=" ++ encodeURIComponent tok
  end.

(** What the QR area shows: nothing, the image element, or the drawer. *)
Inductive QrDisplay :=
| QrHidden
| QrImage (src : string)
| QrDrawn (text : string).

(** An [alert(...)]: its fixed text and, when the script appends
    [err.message], that message ([None] for a message of the runtime). *)
Inductive Alert :=
| AlertText (text : string)
| AlertFailure (prefix : string) (message : option string).

(** The module-level variables of the panel, the intervals that are
    running (handle and period in ms), the parts of the page the panel
    writes to, and the requests it has sent. *)
Record Page := mkPage {
  waCurrentInstance : JSValue;
  waCurrentToken : JSValue;
  waPollInterval : option positive;
  timers : list (positive * nat);
  nextHandle : positive;
  storage : gmap string string;
  statusText : JSValue;
  qr : QrDisplay;
  alerts : list Alert;
  consoleLines : nat;
  requests : list Endpoint
}.

(** A freshly loaded page over the given local storage. *)
Definition load (ls : gmap string string) : Page :=
  mkPage JNull JNull None [] 1%positive ls JUndefined QrHidden [] 0 [].

Definition setInstance (inst tok : JSValue) (p : Page) : Page :=
  mkPage inst tok (waPollInterval p) (timers p) (nextHandle p) (storage p)
    (statusText p) (qr p) (alerts p) (consoleLines p) (requests p).

Definition setStorage (ls : gmap string string) (p : Page) : Page :=
  mkPage (waCurrentInstance p) (waCurrentToken p) (waPollInterval p) (timers p)
    (nextHandle p) ls (statusText p) (qr p) (alerts p) (consoleLines p) (requests p).

Definition setStatusText (s : JSValue) (p : Page) : Page :=
  mkPage (waCurrentInstance p) (waCurrentToken p) (waPollInterval p) (timers p)
    (nextHandle p) (storage p) s (qr p) (alerts p) (consoleLines p) (requests p).

Definition setQr (q : QrDisplay) (p : Page) : Page :=
  mkPage (waCurrentInstance p) (waCurrentToken p) (waPollInterval p) (timers p)
    (nextHandle p) (storage p) (statusText p) q (alerts p) (consoleLines p) (requests p).

(** [alert(a)] *)
Definition alert (a : Alert) (p : Page) : Page :=
  mkPage (waCurrentInstance p) (waCurrentToken p) (waPollInterval p) (timers p)
    (nextHandle p) (storage p) (statusText p) (qr p) (alerts p ++ [a])%list
    (consoleLines p) (requests p).

(** [console.error(...)] and [console.warn(...)] *)
Definition logLine (p : Page) : Page :=
  mkPage (waCurrentInstance p) (waCurrentToken p) (waPollInterval p) (timers p)
    (nextHandle p) (storage p) (statusText p) (qr p) (alerts p)
    (S (consoleLines p)) (requests p).

(** [fetch(url ep)]: the request is sent. *)
Definition send (ep : Endpoint) (p : Page) : Page :=
  mkPage (waCurrentInstance p) (waCurrentToken p) (waPollInterval p) (timers p)
    (nextHandle p) (storage p) (statusText p) (qr p) (alerts p)
    (consoleLines p) (requests p ++ [ep])%list.

(** [clearInterval(h)] *)
Definition clearInterval (h : positive) (p : Page) : Page :=
  mkPage (waCurrentInstance p) (waCurrentToken p) (waPollInterval p)
    (List.filter (fun t => negb (Pos.eqb (fst t) h)) (timers p))
    (nextHandle p) (storage p) (statusText p) (qr p) (alerts p)
    (consoleLines p) (requests p).

(** [if (waPollInterval) clearInterval(waPollInterval)] *)
Definition clearPoll (p : Page) : Page :=
  match waPollInterval p with
  | Some h => clearInterval h p
  | None => p
  end.

(** [waPollInterval = setInterval(updateWhatsAppStatus, ms)] *)
Definition startPoll (ms : nat) (p : Page) : Page :=
  mkPage (waCurrentInstance p) (waCurrentToken p) (Some (nextHandle p))
    (timers p ++ [(nextHandle p, ms)])%list
    (Pos.succ (nextHandle p)) (storage p) (statusText p) (qr p) (alerts p)
    (consoleLines p) (requests p).

(** [waPollInterval = null] *)
Definition forgetPoll (p : Page) : Page :=
  mkPage (waCurrentInstance p) (waCurrentToken p) None (timers p)
    (nextHandle p) (storage p) (statusText p) (qr p) (alerts p)
    (consoleLines p) (requests p).

(** [renderQr(qr)] on a page that has the image element and the drawer,
    for a text that can be drawn ([Live.renderQr] has the QRCode library and
    its error). *)
Definition renderQr (q : option string) (p : Page) : Page :=
  match q with
  | None => setQr QrHidden p
  | Some s =>
      if s =? "" then setQr QrHidden p
      else if Str.startsWith s "data:image" then setQr (QrImage s) p
      else setQr (QrDrawn s) p
  end.

(** [a || b] on results of [extractQrFrom]. *)
Definition orElse (a b : option string) : option string :=
  match a with
  | Some s => Some s
  | None => b
  end.

(** One turn of the loop of [tryFetchQrFallback]: the QR string of a
    response, if it is OK and holds one. A body that does not parse counts
    as [{}]; a rejected request is caught. *)
Definition qrOfFallback (r : FetchResult) : option string :=
  match r with
  | Response true _ _ (Some j) => extractQrFrom j
  | _ => None
  end.

(** The loop [for (const url of urlCandidates)]: the result and the
    requests it sent, in order. *)
Fixpoint tryCandidates (net : Endpoint -> FetchResult) (cands : list Endpoint)
  : option string * list Endpoint :=
  match cands with
  | [] => (None, [])
  | ep :: rest =>
      match qrOfFallback (net ep) with
      | Some s => (Some s, [ep])
      | None =>
          let '(found, sent) := tryCandidates net rest in
          (found, ep :: sent)
      end
  end.

(** [tryFetchQrFallback()] *)
Definition tryFetchQrFallback (net : Endpoint -> FetchResult) (p : Page)
  : option string * Page :=
  if negb (truthy (waCurrentInstance p)) || negb (truthy (waCurrentToken p))
  then (None, p)
  else
    let '(found, sent) := tryCandidates net [QrEP; QrcodeEP] in
    (found, fold_left (fun p ep => send ep p) sent p).

(** [o && (o.status || o.state)] *)
Definition statusOf (o : JSValue) : JSValue :=
  JS.and o (JS.or (get o "status") (get o "state")).

(** The [rawState] read from the body of a status response. *)
Definition rawStateOf (data : JSValue) : JSValue :=
  JS.or (get data "status")
    (JS.or (get data "state")
       (JS.or (statusOf (get data "instance"))
          (JS.or (statusOf (get data "connect"))
             (statusOf (get data "session"))))).

(** The [connected] test of [updateWhatsAppStatus]. *)
Definition isConnected (rawState : JSValue) : bool :=
  match rawState with
  | JString s => Str.toLowerCase s =? "connected"
  | _ =>
      truthy rawState && isTrue (get rawState "connected")
      && negb (isFalse (get rawState "loggedIn"))
  end.

(** [extractQrFrom(data) || extractQrFrom(data.connect || {}) ||
     extractQrFrom(data.session || {})] *)
Definition qrFromStatus (data : JSValue) : option string :=
  orElse (extractQrFrom data)
    (orElse (extractQrFrom (JS.or (get data "connect") (JObject [])))
       (extractQrFrom (JS.or (get data "session") (JObject [])))).

(** [updateWhatsAppStatus()] from its call to its end, when the requests it
    sends settle as [net] says and no other event is handled while it
    awaits them ([Live] has the function between its awaits). *)
Definition updateWhatsAppStatus `{Builtins} (net : Endpoint -> FetchResult)
    (p : Page) : Page :=
  if negb (truthy (waCurrentInstance p)) || negb (truthy (waCurrentToken p)) then p
  else
    let p := send StatusEP p in
    match net StatusEP with
    | NetworkError => logLine p
    | Response false _ _ _ => logLine p
    | Response true _ _ None => logLine p
    | Response true _ _ (Some data) =>
        match member data "status" with
        | None => logLine p
        | Some _ =>
            let rawState := rawStateOf data in
            let stateStr := friendlyState rawState in
            let p := setStatusText (JString stateStr) p in
            if isConnected rawState then renderQr None (clearPoll p)
            else
              match qrFromStatus data with
              | Some s => renderQr (Some s) p
              | None =>
                  if stateStr =? "waiting-qr" then
                    let '(found, p) := tryFetchQrFallback net p in
                    renderQr found p
                  else renderQr None p
              end
        end
    end.

(** The part of [createWhatsAppInstance] that follows a parsed response. *)
Definition instanceCreated `{Builtins} (net : Endpoint -> FetchResult)
    (name : string) (data : JSValue) (p : Page) : Page :=
  let inst := JS.or (get data "instanceId")
                (JS.or (get data "instance") (JS.or (get data "name") (JString name))) in
  let p := setInstance inst (get data "token") p in
  let c := JS.or (get data "connect") (JObject []) in
  let rawState :=
    JS.or (get c "status")
      (JS.or (get c "state")
         (JS.or (get data "status") (JS.or (get data "state") (JString "connecting")))) in
  let p := setStatusText (JString (friendlyState rawState)) p in
  let p := renderQr (orElse (extractQrFrom c) (extractQrFrom data)) p in
  let p := setStorage
             (Session.persistWhatsAppInstance (waCurrentInstance p) (waCurrentToken p)
                (storage p)) p in
  let p := clearPoll p in
  let p := updateWhatsAppStatus net p in
  startPoll 4000 p.

(** [createWhatsAppInstance()] with [name] in the name field, from its call
    to its end: every [await] of it is taken in turn, and no other event is
    handled while it awaits ([Live] has the function between its awaits). *)
Definition createWhatsAppInstance `{Builtins} (net : Endpoint -> FetchResult)
    (name : string) (p : Page) : Page :=
  let name := Str.trim name in
  if name =? "" then alert (AlertText "Informe um nome para a instância.") p
  else
    let p := send CreateEP p in
    match net CreateEP with
    | NetworkError =>
        alert (AlertFailure "Falha ao criar instância: " None) (logLine p)
    | Response false status text _ =>
        let message :=
          if (status =? 401)%nat
          then "Não autorizado (401). Verifique as variáveis do Uazapi no backend."
          else if text =? "" then "Erro ao criar instância" else text in
        alert (AlertFailure "Falha ao criar instância: " (Some message)) (logLine p)
    | Response true _ _ None =>
        alert (AlertFailure "Falha ao criar instância: " None) (logLine p)
    | Response true _ _ (Some data) =>
        match member data "instanceId" with
        | None => alert (AlertFailure "Falha ao criar instância: " None) (logLine p)
        | Some _ => instanceCreated net name data p
        end
    end.

(** [restoreWhatsAppInstance()].  Its call of [updateWhatsAppStatus] is not
    awaited: the request leaves at once, and what follows the response runs
    after the interval has been set. *)
Definition restoreWhatsAppInstance `{Builtins} (net : Endpoint -> FetchResult)
    (p : Page) : Page :=
  match storage p !! "wa_instance", storage p !! "wa_token" with
  | Some inst, Some tok =>
      if negb (inst =? "") && negb (tok =? "") then
        let p := setInstance (JString inst) (JString tok) p in
        let p := clearPoll p in
        let p := startPoll 4000 p in
        updateWhatsAppStatus net p
      else p
  | _, _ => p
  end.

(** The [visibilitychange] handler, for [document.hidden] true and false. *)
Definition visibilityChange (hidden : bool) (p : Page) : Page :=
  if hidden then
    match waPollInterval p with
    | Some h => forgetPoll (clearInterval h p)
    | None => p
    end
  else if truthy (waCurrentInstance p) && truthy (waCurrentToken p)
          && match waPollInterval p with None => true | Some _ => false end
       then startPoll 4000 p
       else p.

(** Whether the status request settles as an OK response that
    [updateWhatsAppStatus] classifies as connected. *)
Definition statusConnected (net : Endpoint -> FetchResult) : bool :=
  match net StatusEP with
  | Response true _ _ (Some data) =>
      match member data "status" with
      | Some _ => isConnected (rawStateOf data)
      | None => false
      end
  | _ => false
  end.

(** Every interval that is running is the one [waPollInterval] names. *)
Definition pollOwned (p : Page) : Prop :=
  forall t, In t (timers p) -> waPollInterval p = Some (fst t).

(** A backend on which the instance is connected from the first status on. *)
Definition connectedNet (ep : Endpoint) : FetchResult :=
  match ep with
  | CreateEP =>
      Response true 200 ""
        (Some (JObject [("instance", JString "loja"); ("token", JString "tk-1")]))
  | StatusEP => Response true 200 "" (Some (JObject [("status", JString "connected")]))
  | _ => Response false 404 "" None
  end.

(** A backend that waits for the QR scan and has no QR to offer anywhere. *)
Definition waitingNet (ep : Endpoint) : FetchResult :=
  match ep with
  | StatusEP => Response true 200 "" (Some (JObject [("status", JString "waiting")]))
  | QrEP => Response false 404 "" None
  | _ => Response true 200 "" (Some (JObject [("note", JString "sem qr")]))
  end.

(** A page that holds an instance and shows a QR code. *)
Definition pairingPage : Page :=
  mkPage (JString "loja") (JString "tk-1") (Some 1%positive) [(1%positive, 4000%nat)]
    2%positive ∅ (JString "waiting-qr") (QrDrawn "2@abcdef") [] 0 [].


End WhatsApp.
(* ================================================================== *)
(** ** A backend for the examples of the WhatsApp panel *)

Module Panel.
Import JS WhatsApp.

(** A backend that is down. *)
Definition downNet (ep : Endpoint) : FetchResult := NetworkError.

End Panel.

(* ================================================================== *)
(** ** The WhatsApp panel between its awaits (script.js 79-100, 137-174,
       187-321, 1629-1642)

    The functions of [WhatsApp] run a handler from its call to its end, as
    it runs when no other event is handled while it awaits its requests.
    Here every handler runs only to its next [await]; what follows the
    [await] runs when the awaited request settles, and other events may be
    handled in between, so that handlers overlap.  A function that awaits a
    call which has ended goes on in the same turn of the event loop, before
    any other event is handled. *)

Module Live.
Import JS QR WhatsApp.

(** The [QRCode] global: undefined, or the library with the texts its
    [toCanvas] can encode (it answers through its callback at once). *)
Inductive Library :=
| NoLibrary
| QRCodeLibrary (encodes : string -> bool).

(** [drawQrInto(drawer, text)] for a text that is not empty: without the
    library the text itself is shown in the drawer; with it the canvas is,
    or, on an error, a console line is written and the drawer is hidden. *)
Definition drawQrInto (lib : Library) (text : string) (p : Page) : Page :=
  match lib with
  | NoLibrary => setQr (QrDrawn text) p
  | QRCodeLibrary encodes =>
      if encodes text then setQr (QrDrawn text) p
      else setQr QrHidden (logLine p)
  end.

(** [renderQr(qr)] on a page that has the image element and the drawer. *)
Definition renderQr (lib : Library) (q : option string) (p : Page) : Page :=
  match q with
  | None => setQr QrHidden p
  | Some s =>
      if s =? "" then setQr QrHidden p
      else if Str.startsWith s "data:image" then setQr (QrImage s) p
      else drawQrInto lib s p
  end.

(** Whether drawing a text fails, and what [renderQr] leaves on the page
    for a QR string: the image for a [data:image] address, the drawer for
    another text, nothing when drawing the text fails. *)
Definition drawFails (lib : Library) (s : string) : bool :=
  match lib with
  | NoLibrary => false
  | QRCodeLibrary encodes => negb (encodes s)
  end.

Definition shown (lib : Library) (s : string) : QrDisplay :=
  if Str.startsWith s "data:image" then QrImage s
  else if drawFails lib s then QrHidden else QrDrawn s.

(** What goes on when a call of [updateWhatsAppStatus] ends: nothing (the
    call was an interval tick, or was not awaited), or the rest of
    [createWhatsAppInstance], which sets the interval. *)
Inductive After :=
| Nothing
| SetInterval.

(** A function that is waiting at an [await]: [createWhatsAppInstance] for
    the answer of its request; [updateWhatsAppStatus] for the status, or,
    inside [tryFetchQrFallback], for the first or the second candidate.  A
    response and the reading of its body count as one wait: the functions
    touch nothing between the two. *)
Inductive Task :=
| CreateAwaits (name : string)
| StatusAwaits (k : After)
| QrAwaits (k : After)
| QrcodeAwaits (k : After).

(** The page and the functions that are waiting. *)
Record World := mkWorld {
  page : Page;
  pending : list Task
}.

Definition onPage (f : Page -> Page) (w : World) : World :=
  mkWorld (f (page w)) (pending w).

(** [await]: the function waits; the handler returns. *)
Definition await (t : Task) (w : World) : World :=
  mkWorld (page w) (pending w ++ [t])%list.

(** The end of a call of [updateWhatsAppStatus]; after it, for
    [createWhatsAppInstance], [waPollInterval = setInterval(..., 4000)]. *)
Definition finish (k : After) (w : World) : World :=
  match k with
  | Nothing => w
  | SetInterval => onPage (startPoll 4000) w
  end.

(** [updateWhatsAppStatus()] up to its first [await]. *)
Definition updateWhatsAppStatus (k : After) (w : World) : World :=
  if negb (truthy (waCurrentInstance (page w))) || negb (truthy (waCurrentToken (page w)))
  then finish k w
  else await (StatusAwaits k) (onPage (send StatusEP) w).

(** [renderQr(await tryFetchQrFallback())] up to its first [await]. *)
Definition fallbackStarted (lib : Library) (k : After) (w : World) : World :=
  if negb (truthy (waCurrentInstance (page w))) || negb (truthy (waCurrentToken (page w)))
  then finish k (onPage (renderQr lib None) w)
  else await (QrAwaits k) (onPage (send QrEP) w).

(** [updateWhatsAppStatus] from the answer [r] of its status request on. *)
Definition statusSettled `{Builtins} (lib : Library) (r : FetchResult) (k : After)
    (w : World) : World :=
  match r with
  | Response true _ _ (Some data) =>
      match member data "status" with
      | None => finish k (onPage logLine w)
      | Some _ =>
          let rawState := rawStateOf data in
          let stateStr := friendlyState rawState in
          let w := onPage (setStatusText (JString stateStr)) w in
          if isConnected rawState
          then finish k (onPage (fun p => renderQr lib None (clearPoll p)) w)
          else
            match qrFromStatus data with
            | Some s => finish k (onPage (renderQr lib (Some s)) w)
            | None =>
                if stateStr =? "waiting-qr" then fallbackStarted lib k w
                else finish k (onPage (renderQr lib None) w)
            end
      end
  | _ => finish k (onPage logLine w)
  end.

(** [tryFetchQrFallback] from the answer of its first candidate on. *)
Definition qrSettled (lib : Library) (r : FetchResult) (k : After) (w : World) : World :=
  match qrOfFallback r with
  | Some s => finish k (onPage (renderQr lib (Some s)) w)
  | None => await (QrcodeAwaits k) (onPage (send QrcodeEP) w)
  end.

(** [tryFetchQrFallback] from the answer of its second candidate on. *)
Definition qrcodeSettled (lib : Library) (r : FetchResult) (k : After) (w : World)
  : World :=
  finish k (onPage (renderQr lib (qrOfFallback r)) w).

(** [createWhatsAppInstance()] up to its first [await]. *)
Definition createWhatsAppInstance (name : string) (w : World) : World :=
  let name := Str.trim name in
  if name =? "" then onPage (alert (AlertText "Informe um nome para a instância.")) w
  else await (CreateAwaits name) (onPage (send CreateEP) w).

(** What [createWhatsAppInstance] does with a parsed answer before it calls
    [updateWhatsAppStatus]. *)
Definition instanceAssigned `{Builtins} (lib : Library) (name : string) (data : JSValue)
    (p : Page) : Page :=
  let inst := JS.or (get data "instanceId")
                (JS.or (get data "instance") (JS.or (get data "name") (JString name))) in
  let p := setInstance inst (get data "token") p in
  let c := JS.or (get data "connect") (JObject []) in
  let rawState :=
    JS.or (get c "status")
      (JS.or (get c "state")
         (JS.or (get data "status") (JS.or (get data "state") (JString "connecting")))) in
  let p := setStatusText (JString (friendlyState rawState)) p in
  let p := renderQr lib (orElse (extractQrFrom c) (extractQrFrom data)) p in
  let p := setStorage
             (Session.persistWhatsAppInstance (waCurrentInstance p) (waCurrentToken p)
                (storage p)) p in
  clearPoll p.

(** [createWhatsAppInstance] from the answer [r] of its request on, up to
    its next [await]. *)
Definition createSettled `{Builtins} (lib : Library) (r : FetchResult) (name : string)
    (w : World) : World :=
  match r with
  | NetworkError =>
      onPage (fun p => alert (AlertFailure "Falha ao criar instância: " None) (logLine p)) w
  | Response false status text _ =>
      let message :=
        if (status =? 401)%nat
        then "Não autorizado (401). Verifique as variáveis do Uazapi no backend."
        else if text =? "" then "Erro ao criar instância" else text in
      onPage (fun p => alert (AlertFailure "Falha ao criar instância: " (Some message))
                         (logLine p)) w
  | Response true _ _ None =>
      onPage (fun p => alert (AlertFailure "Falha ao criar instância: " None) (logLine p)) w
  | Response true _ _ (Some data) =>
      match member data "instanceId" with
      | None =>
          onPage (fun p => alert (AlertFailure "Falha ao criar instância: " None)
                             (logLine p)) w
      | Some _ =>
          updateWhatsAppStatus SetInterval (onPage (instanceAssigned lib name data) w)
      end
  end.

(** [restoreWhatsAppInstance()]: its call of [updateWhatsAppStatus] is not
    awaited, so it returns at its first [await] and the interval is set
    before the status arrives. *)
Definition restoreWhatsAppInstance (w : World) : World :=
  match storage (page w) !! "wa_instance", storage (page w) !! "wa_token" with
  | Some inst, Some tok =>
      if negb (inst =? "") && negb (tok =? "") then
        let w := onPage (fun p => clearPoll (setInstance (JString inst) (JString tok) p)) w in
        let w := updateWhatsAppStatus Nothing w in
        onPage (startPoll 4000) w
      else w
  | _, _ => w
  end.

(** What is handled, one at a time: a click on the create button with the
    name field as it is, the restore at page load, a tick of the interval
    [h], a call of [updateWhatsAppStatus] from elsewhere (the test message),
    the document hidden or shown, the page unloaded, and the settling of
    the request the [i]-th waiting function awaits. *)
Inductive Event :=
| Click (name : string)
| Restore
| Tick (h : positive)
| OtherPoll
| Visibility (hidden : bool)
| Unload
| Settle (i : nat) (r : FetchResult).

Definition running (h : positive) (p : Page) : bool :=
  existsb (fun t => Pos.eqb (fst t) h) (timers p).

Definition step `{Builtins} (lib : Library) (w : World) (e : Event) : World :=
  match e with
  | Click name => createWhatsAppInstance name w
  | Restore => restoreWhatsAppInstance w
  | Tick h => if running h (page w) then updateWhatsAppStatus Nothing w else w
  | OtherPoll => updateWhatsAppStatus Nothing w
  | Visibility hidden => onPage (visibilityChange hidden) w
  | Unload => onPage clearPoll w
  | Settle i r =>
      match pending w !! i with
      | None => w
      | Some t =>
          let w := mkWorld (page w) (delete i (pending w)) in
          match t with
          | CreateAwaits name => createSettled lib r name w
          | StatusAwaits k => statusSettled lib r k w
          | QrAwaits k => qrSettled lib r k w
          | QrcodeAwaits k => qrcodeSettled lib r k w
          end
      end
  end.

(** A freshly loaded page over the storage [ls], nothing waiting. *)
Definition fresh (ls : gmap string string) : World := mkWorld (load ls) [].

Definition run `{Builtins} (lib : Library) (ls : gmap string string) (es : list Event)
  : World :=
  fold_left (step lib) es (fresh ls).

(** A creation by itself: the click, then the requests of the creation
    settling as [net] says, with no other event in between.  The waiting
    function of the creation is the last one, at index [length (pending w)]. *)
Definition creationAlone (net : Endpoint -> FetchResult) (name : string) (w : World)
  : list Event :=
  let n := length (pending w) in
  [Click name; Settle n (net CreateEP); Settle n (net StatusEP);
   Settle n (net QrEP); Settle n (net QrcodeEP)].

(** No interval runs, or exactly one does: the one the page holds, with a
    period of 4000 ms. *)
Definition oneInterval (p : Page) : Prop :=
  timers p = [] \/
  exists h, timers p = [(h, 4000%nat)] /\ waPollInterval p = Some h.

(** Whether a creation is under way: clicked and not yet at its end. *)
Definition ofCreation (t : Task) : bool :=
  match t with
  | CreateAwaits _ => true
  | StatusAwaits SetInterval | QrAwaits SetInterval | QrcodeAwaits SetInterval => true
  | _ => false
  end.

Definition creating (w : World) : bool := existsb ofCreation (pending w).

(** Whether a function waits inside the status call a creation awaits. *)
Definition awaitsInterval (t : Task) : bool :=
  match t with
  | StatusAwaits SetInterval | QrAwaits SetInterval | QrcodeAwaits SetInterval => true
  | _ => false
  end.

(** What the page may be after a step of a status call, compared with the
    page before: the handle counter and the handle held are as they were,
    and the intervals are as they were or the one held has been cleared. *)
Definition polled (p q : Page) : Prop :=
  nextHandle q = nextHandle p /\
  waPollInterval q = waPollInterval p /\
  waCurrentInstance q = waCurrentInstance p /\
  waCurrentToken q = waCurrentToken p /\
  (timers q = timers p \/ timers q = timers (clearPoll p)).

(** What holds of the panel as long as its creations are not disturbed: at
    most one interval runs, at most one creation is under way, and no
    interval runs while a creation awaits its status call. *)
Definition calm (w : World) : Prop :=
  oneInterval (page w) /\
  (length (List.filter ofCreation (pending w)) <= 1)%nat /\
  (existsb awaitsInterval (pending w) = true -> timers (page w) = []).




(** The events that may set or forget an interval. *)
Definition disturbs (e : Event) : bool :=
  match e with
  | Click _ | Restore | Visibility _ => true
  | _ => false
  end.

(** No click, restore or visibility change is handled while a creation is
    under way. *)
Fixpoint undisturbed `{Builtins} (lib : Library) (w : World) (es : list Event) : Prop :=
  match es with
  | [] => True
  | e :: rest =>
      (creating w = true -> disturbs e = false) /\ undisturbed lib (step lib w e) rest
  end.

(** A creation whose answer names the instance and its token. *)
Definition createdNet (ep : Endpoint) : FetchResult :=
  match ep with
  | CreateEP =>
      Response true 200 ""
        (Some (JObject [("instance", JString "loja"); ("token", JString "tk-1")]))
  | StatusEP => Response true 200 "" (Some (JObject [("status", JString "qr")]))
  | _ => NetworkError
  end.

(** A creation during whose status call the document is hidden and shown
    again, and two creations clicked one after the other before the first
    answer. *)
Definition shownWhileCreating : list Event :=
  [Click "loja"; Settle 0 (createdNet CreateEP);
   Visibility true; Visibility false;
   Settle 0 (createdNet StatusEP); Settle 0 (createdNet QrEP);
   Settle 0 (createdNet QrcodeEP)].

Definition clickedTwice : list Event :=
  [Click "loja"; Click "loja";
   Settle 0 (createdNet CreateEP); Settle 0 (createdNet CreateEP);
   Settle 0 (createdNet StatusEP); Settle 0 (createdNet StatusEP);
   Settle 0 (createdNet QrEP); Settle 0 (createdNet QrEP);
   Settle 0 (createdNet QrcodeEP); Settle 0 (createdNet QrcodeEP)].

(** A library that can encode no text. *)
Definition brokenLibrary : Library := QRCodeLibrary (fun _ => false).

End Live.

(* ================================================================== *)
(** ** Lists of event names and the webhook form (script.js 51-55, 324-375) *)

Module Util.

(** The characters of the class [[,; ]]. *)
Definition isSeparator (c : ascii) : bool :=
  (Ascii.eqb c "," || Ascii.eqb c ";" || Ascii.eqb c " ")%bool.

(** [str.split(/[,; ]+/)] from a position on: [piece] is the text read since
    the last separator run, [inSep] tells that the last character was a
    separator.  A run of separators ends one piece; the text after the last
    run, empty or not, is the last piece. *)
Fixpoint splitFrom (s piece : string) (inSep : bool) : list string :=
  match s with
  | EmptyString => [piece]
  | String c r =>
      if isSeparator c then
        if inSep then splitFrom r "" true else piece :: splitFrom r "" true
      else splitFrom r (piece ++ String c "") false
  end.

Definition splitSeparators (s : string) : list string := splitFrom s "" false.

(** [parseList(str, def)] *)
Definition parseList (str : JSValue) (def : list string) : list string :=
  match str with
  | JString s =>
      if s =? "" then def
      else
        let parts :=
          List.filter (fun x => negb (x =? "")) (map Str.trim (splitSeparators s)) in
        match parts with
        | [] => def
        | _ => parts
        end
  | _ => def
  end.

(** Whether no character of [s] is a separator. *)
Fixpoint noSeparator (s : string) : bool :=
  match s with
  | EmptyString => true
  | String c r => negb (isSeparator c) && noSeparator r
  end.

(** [ts.join(",")] *)
Fixpoint joinComma (ts : list string) : string :=
  match ts with
  | [] => ""
  | [t] => t
  | t :: r => t ++ "," ++ joinComma r
  end.

End Util.

Module Webhook.
Import JS WhatsApp.

(** The three fields of the webhook form. *)
Record Form := mkForm {
  urlField : string;
  eventsField : string;
  excludeField : string
}.




End Webhook.

(* ================================================================== *)
(** ** Request headers and the login page (script.js 24-44, 1406-1421;
       auth.js 33-62, 88-153, 168-313) *)

Module Auth.
Import JS Number Session.

(** The headers the dashboard builds from local storage:
    [Content-Type], [X-Org-ID] and [X-Flow-ID] (["1"] when nothing is
    stored), and [Authorization] when a token is stored. *)
Definition requestHeaders (ls : gmap string string) : gmap string string :=
  let stored (k : string) :=
    match ls !! k with
    | Some v => if v =? "" then "1" else v
    | None => "1"
    end in
  let h := <["X-Flow-ID" := stored "flow_id"]>
             (<["X-Org-ID" := stored "org_id"]>
                (<["Content-Type" := "application/json"]> ∅)) in
  match ls !! "token" with
  | Some t => if t =? "" then h else <["Authorization" := "Bearer " ++ t]> h
  | None => h
  end.

(** How a call fails: with an error made by the script, whose message is
    known, or with an error of the runtime (a rejected [fetch], an abort, a
    TypeError), whose message is the runtime's. *)
Inductive Failure :=
| Message (m : string)
| RuntimeError.

(** What an [await] gives: a value or a throw. *)
Inductive Outcome (A : Type) :=
| Returns (a : A)
| Throws (e : Failure).
Arguments Returns {A} a.
Arguments Throws {A} e.

(** [fetchJson(url, ...)]: [parseJSON] of the response.  The [json] of a
    response is what [JSON.parse] makes of its text; the message of
    [new Error(m)] is [String(m)]. *)
Definition fetchJson `{Builtins} (r : FetchResult) : Outcome JSValue :=
  match r with
  | NetworkError => Throws RuntimeError
  | Response ok status text json =>
      let data :=
        if text =? "" then JObject []
        else match json with
             | Some d => d
             | None => JObject [("message", JString text)]
             end in
      if ok then Returns data
      else match member data "message" with
           | None => Throws RuntimeError
           | Some _ =>
               Throws (Message (toStr (JS.or (get data "message")
                                  (JS.or (get data "error")
                                     (JString ("HTTP " ++ digits (Z.of_nat status)))))))
           end
  end.

(** Whether [extractToken(data)] returns a truthy token; it throws on
    [null], which the callers catch. *)
Definition hasToken (data : JSValue) : bool :=
  match member data "token" with
  | None => false
  | Some _ => truthy (extractToken data)
  end.

(** The address [tryAuthEndpoints] makes of a path. *)
Definition endpointUrl (base prefix p : string) : string :=
  if Str.startsWith p "http" then p
  else if Str.startsWith p "/" then base ++ p
  else base ++ prefix ++ p.

(** A request of the login page: its address and its JSON body. *)
Record Request := mkRequest { address : string; body : JSValue }.

(** [tryAuthEndpoints(paths, payload, headers)] when the [n]-th request of
    the page settles as [net n], [sent] requests having been sent before:
    the data of the first answer that carries a token ([None] when the
    function throws), and the requests it sent. *)
Fixpoint tryAuthEndpoints `{Builtins} (base prefix : string) (net : nat -> FetchResult)
    (payload : JSValue) (sent : nat) (paths : list string)
  : option JSValue * list Request :=
  match paths with
  | [] => (None, [])
  | p :: rest =>
      let req := mkRequest (endpointUrl base prefix p) payload in
      match fetchJson (net sent) with
      | Returns data =>
          if hasToken data then (Some data, [req])
          else let '(found, reqs) := tryAuthEndpoints base prefix net payload (S sent) rest in
               (found, req :: reqs)
      | Throws _ =>
          let '(found, reqs) := tryAuthEndpoints base prefix net payload (S sent) rest in
          (found, req :: reqs)
      end
  end.

Definition loginPaths (prefix : string) : list string :=
  [prefix ++ "/auth/login"; prefix ++ "/login"; prefix ++ "/users/login";
   prefix ++ "/sessions"; "/api/auth/login"; "/api/login"].

Definition registerPaths (prefix : string) : list string :=
  [prefix ++ "/auth/register"; prefix ++ "/register"; prefix ++ "/users";
   prefix ++ "/signup"; "/api/auth/register"; "/api/register"].

(** Whether the [n]-th answer is one [tryAuthEndpoints] returns. *)
Definition answersToken `{Builtins} (r : FetchResult) : bool :=
  match fetchJson r with
  | Returns data => hasToken data
  | Throws _ => false
  end.

(** What the error box shows: a text, or the message of a runtime error. *)
Inductive Shown :=
| ShownText (text : string)
| ShownRuntime.

(** The login page: its storage, its address, the error box, which of the
    two forms is shown, and the requests sent. *)
Record LoginPage := mkLoginPage {
  store : gmap string string;
  location : string;
  errorBox : option Shown;
  loginFormShown : bool;
  sent : list Request
}.

(** [showError(msg)] *)
Definition showError (msg : string) (p : LoginPage) : LoginPage :=
  mkLoginPage (store p) (location p)
    (Some (ShownText (if msg =? "" then "Erro inesperado." else msg)))
    (loginFormShown p) (sent p).

(** [showErrorOriginal(err.message || fallback)] *)
Definition showFailure (e : Failure) (fallback : string) (p : LoginPage) : LoginPage :=
  match e with
  | Message m => showError (if m =? "" then fallback else m) p
  | RuntimeError =>
      mkLoginPage (store p) (location p) (Some ShownRuntime) (loginFormShown p) (sent p)
  end.

Definition addRequests (reqs : list Request) (p : LoginPage) : LoginPage :=
  mkLoginPage (store p) (location p) (errorBox p) (loginFormShown p)
    (sent p ++ reqs)%list.

Definition setStore (ls : gmap string string) (p : LoginPage) : LoginPage :=
  mkLoginPage ls (location p) (errorBox p) (loginFormShown p) (sent p).

Definition navigate (to : string) (p : LoginPage) : LoginPage :=
  mkLoginPage (store p) to (errorBox p) (loginFormShown p) (sent p).

Definition clearError (p : LoginPage) : LoginPage :=
  mkLoginPage (store p) (location p) None (loginFormShown p) (sent p).

(** The register form gives way to the login form. *)
Definition showLoginForm (p : LoginPage) : LoginPage :=
  mkLoginPage (store p) (location p) (errorBox p) true (sent p).

(** How [saveAuthData(data)] throws. *)
Definition saveFailure (data : JSValue) : Failure :=
  match member data "token" with
  | None => RuntimeError
  | Some _ => Message "Resposta sem token"
  end.

Definition loginPayload (email password : string) : JSValue :=
  JObject [("email", JString email); ("password", JString password)].

(** [handleLogin(e)] for a submit not handled before, with the two fields
    as given. *)
Definition handleLogin `{Builtins} (base prefix : string) (net : nat -> FetchResult)
    (emailField password : string) (p : LoginPage) : LoginPage :=
  let p := clearError p in
  let email := Str.trim emailField in
  if (email =? "") || (password =? "")
  then showError "Preencha email e senha." p
  else
    let payload := loginPayload email password in
    let '(found, reqs) :=
      tryAuthEndpoints base prefix net payload (length (sent p)) (loginPaths prefix) in
    let p := addRequests reqs p in
    let saved :=
      match found with
      | Some data => saveAuthData data (store p)
      | None => None
      end in
    match saved with
    | Some ls =>
        navigate "index.html" (setStore (setItem "remember_email" email ls) p)
    | None =>
        let r := net (length (sent p)) in
        let p := addRequests [mkRequest (base ++ prefix ++ "/auth/login") payload] p in
        match fetchJson r with
        | Throws e => showFailure e "Falha no login." p
        | Returns data =>
            match saveAuthData data (store p) with
            | None => showFailure (saveFailure data) "Falha no login." p
            | Some ls =>
                navigate "index.html" (setStore (setItem "remember_email" email ls) p)
            end
        end
    end.

(** [rawTax.replace(/\D/g, '')] *)
Fixpoint digitsOnly (s : string) : string :=
  match s with
  | EmptyString => EmptyString
  | String c r =>
      match digitVal c with
      | Some _ => String c (digitsOnly r)
      | None => digitsOnly r
      end
  end.

Definition registerPayload (name email password taxDigits : string) : JSValue :=
  JObject [("name", JString name); ("email", JString email);
           ("password", JString password); ("tax_id", JString taxDigits)].

(** [handleRegister(e)] for a submit not handled before, with the four
    fields as given. *)
Definition handleRegister `{Builtins} (base prefix : string) (net : nat -> FetchResult)
    (nameField emailField password taxField : string) (p : LoginPage) : LoginPage :=
  let p := clearError p in
  let name := Str.trim nameField in
  let email := Str.trim emailField in
  let taxDigits := digitsOnly (Str.trim taxField) in
  if (name =? "") || (email =? "") || (password =? "") || (taxDigits =? "")
  then showError "Preencha todos os campos do cadastro." p
  else if negb (String.length taxDigits =? 11)%nat && negb (String.length taxDigits =? 14)%nat
  then showError "CPF/CNPJ inválido. Informe um número com 11 ou 14 dígitos." p
  else
    let payload := registerPayload name email password taxDigits in
    let '(found, reqs) :=
      tryAuthEndpoints base prefix net payload (length (sent p)) (registerPaths prefix) in
    let p := addRequests reqs p in
    let saved :=
      match found with
      | Some data => saveAuthData data (store p)
      | None => None
      end in
    match saved with
    | Some ls => navigate "index.html" (setStore ls p)
    | None =>
        let r := net (length (sent p)) in
        let p := addRequests [mkRequest (base ++ prefix ++ "/auth/register") payload] p in
        match fetchJson r with
        | Throws e => showFailure e "Falha no cadastro." p
        | Returns data =>
            match member data "token" with
            | None => showFailure RuntimeError "Falha no cadastro." p
            | Some _ =>
                if truthy (extractToken data) then
                  match saveAuthData data (store p) with
                  | Some ls => navigate "index.html" (setStore ls p)
                  | None => showFailure (saveFailure data) "Falha no cadastro." p
                  end
                else showLoginForm p
            end
        end
    end.

(** The login page as it is first shown, over the given storage. *)
Definition loginPage (ls : gmap string string) : LoginPage :=
  mkLoginPage ls "login.html" None true [].

(** The body of an answer that carries a token and an organisation. *)
Definition tokenAnswer : JSValue :=
  JObject [("token", JString "jwt-1"); ("org_id", JString "7")].

(** A backend whose first login route answers with that body. *)
Definition acceptingNet (n : nat) : FetchResult :=
  Response true 200 "{...}" (Some tokenAnswer).

(** A backend that refuses every login. *)
Definition refusingNet (n : nat) : FetchResult :=
  Response false 401 "{...}" (Some (JObject [("message", JString "Credenciais inválidas")])).

End Auth.

(* ================================================================== *)
(** ** Editing a product (script.js 989-1033) *)

Module Edit.
Import JS Number Products.

(** The text [openEditProduct] writes to the price field of the dialog:
    [product.price.toFixed(2)], the price of a listed product never being
    [null]. *)
Definition editPriceText `{Builtins} (p : Product) : string := toFixed2 (price p).

(** The body of the request [updateProductOnBackend] sends, as
    [JSON.stringify] writes it. *)
Record Update := mkUpdate {
  title : string;
  slug : string;
  category : string;
  price_cents : JSValue
}.

(** [payload.price_cents]: the cents when they are a number that is not
    NaN, [null] otherwise. *)
Definition payloadPrice (priceCents : Num) : JSValue :=
  if isNaN priceCents then JNull else JNum priceCents.

(** What [JSON.stringify] writes for a value of the payload: a number that
    is not finite is written [null]. *)
Definition stringified (v : JSValue) : JSValue :=
  match v with
  | JNum (Fin _) => v
  | JNum _ => JNull
  | _ => v
  end.

(** [saveEditProduct()] over the fields of the dialog: the body of the
    request it sends, [None] when it sends none. *)
Definition saveEditProduct `{Builtins} (nameField priceField categoryField : string)
  : option Update :=
  let name := Str.trim nameField in
  let priceStr := Str.trim priceField in
  let category := Str.trim categoryField in
  let priceCents := reaisToCents (JString priceStr) in
  if name =? "" then None
  else Some (mkUpdate name "" category (stringified (payloadPrice priceCents))).

End Edit.

(* ================================================================== *)
(** ** The tabs of the agent form (script.js 10-11, 720-737) *)

Module Tabs.
Import JS.
Local Open Scope Z_scope.

Definition tabs : list string := ["perfil"; "comportamento"; "conversa-ativacao"].

(** [tabs[i]] *)
Definition tabAt (i : Z) : JSValue :=
  if i <? 0 then JUndefined
  else match nth_error tabs (Z.to_nat i) with
       | Some t => JString t
       | None => JUndefined
       end.

Fixpoint indexFrom (xs : list string) (x : string) (i : Z) : Z :=
  match xs with
  | [] => -1
  | y :: r => if (y =? x)%string then i else indexFrom r x (i + 1)
  end.

(** [tabs.indexOf(tabId)] *)
Definition indexOf (tabId : JSValue) : Z :=
  match tabId with
  | JString s => indexFrom tabs s 0
  | _ => -1
  end.

(** [currentTab] and the two properties [updateNavigationButtons] sets:
    whether the "previous" buttons are disabled and the "next" buttons
    hidden. *)
Record Form := mkForm {
  currentTab : Z;
  previousDisabled : bool;
  nextHidden : bool
}.

(** The form as the script loads: [currentTab = 0], the buttons as the
    page has them. *)
Definition initial (previousDisabled nextHidden : bool) : Form :=
  mkForm 0 previousDisabled nextHidden.

(** [navigateToTab(tabId)] *)
Definition navigateToTab (tabId : JSValue) (f : Form) : Form :=
  let c := indexOf tabId in
  mkForm c (c =? 0) (c =? Z.of_nat (length tabs) - 1).

(** [nextTab()] *)
Definition nextTab (f : Form) : Form :=
  if currentTab f <? Z.of_nat (length tabs) - 1
  then navigateToTab (tabAt (currentTab f + 1)) f
  else f.

(** [previousTab()] *)
Definition previousTab (f : Form) : Form :=
  if 0 <? currentTab f
  then navigateToTab (tabAt (currentTab f - 1)) f
  else f.

Inductive Event :=
| Next
| Previous
| Navigate (tabId : JSValue).

Definition step (f : Form) (e : Event) : Form :=
  match e with
  | Next => nextTab f
  | Previous => previousTab f
  | Navigate tabId => navigateToTab tabId f
  end.

(** Whether an event names a tab that exists. *)
Definition known (e : Event) : Prop :=
  match e with
  | Navigate tabId => exists t, tabId = JString t /\ In t tabs
  | _ => True
  end.

End Tabs.

(* ================================================================== *)
(** ** The test message of the WhatsApp panel (script.js 378-411) *)

Module TestMessage.
Import JS WhatsApp.

(** The body of the request. *)
Record Body := mkBody {
  token : JSValue;
  to : string;
  text : string
}.

(** [/disconnected/i.test(t)] *)
Definition saysDisconnected (t : string) : bool :=
  Str.includes (Str.toLowerCase t) "disconnected".

(** [sendWhatsAppTest()] over the number field and the message field
    ([None] when the page has no message field), when the request, if one
    is sent, settles as [r] and the requests of the status poll that may
    follow settle as [net]: the page afterwards and the body sent. *)
Definition sendWhatsAppTest `{Builtins} (net : Endpoint -> FetchResult) (r : FetchResult)
    (numberField : string) (messageField : option string) (p : Page)
  : Page * option Body :=
  if negb (truthy (waCurrentInstance p)) || negb (truthy (waCurrentToken p))
  then (alert (AlertText "Crie uma instância primeiro.") p, None)
  else
    let to := Str.trim numberField in
    let text := match messageField with Some m => Str.trim m | None => "" end in
    if (to =? "") || (text =? "")
    then (alert (AlertText "Informe o número e a mensagem.") p, None)
    else
      let body := mkBody (waCurrentToken p) to text in
      match r with
      | NetworkError =>
          (alert (AlertFailure "Falha ao enviar mensagem: " None) (logLine p), Some body)
      | Response false status t _ =>
          if (status =? 503)%nat && saysDisconnected t
          then (updateWhatsAppStatus net
                  (alert (AlertText
                     "WhatsApp desconectado. Escaneie o QR code para conectar e tente novamente.")
                     p),
                Some body)
          else (alert (AlertFailure "Falha ao enviar mensagem: "
                         (Some (if t =? "" then "Erro ao enviar mensagem" else t)))
                  (logLine p),
                Some body)
      | Response true _ _ _ =>
          (alert (AlertText "Mensagem enviada!") p, Some body)
      end.

End TestMessage.

(* ================================================================== *)
(** ** The API base shim (api-base-shim.js) *)

Module ApiShim.

(** [/^https?:\/\//i.test(url)] *)
Definition isAbsolute (url : string) : bool :=
  let l := Str.toLowerCase url in
  Str.startsWith l "http://" || Str.startsWith l "https://".

(** [s.replace(/^\/+/, "")] *)
Fixpoint stripSlashes (s : string) : string :=
  match s with
  | String c r => if Ascii.eqb c "/" then stripSlashes r else s
  | EmptyString => s
  end.

(** [s.replace(/\/+$/, "")] *)
Fixpoint stripTrailingSlashes (s : string) : string :=
  match s with
  | EmptyString => EmptyString
  | String c r =>
      match stripTrailingSlashes r with
      | EmptyString => if Ascii.eqb c "/" then EmptyString else String c EmptyString
      | r' => String c r'
      end
  end.

(** Whether four characters are [api/], the letters in either case. *)
Definition isApi (a p i s : ascii) : bool :=
  Ascii.eqb (Str.lowerChar a) "a" && Ascii.eqb (Str.lowerChar p) "p" &&
  Ascii.eqb (Str.lowerChar i) "i" && Ascii.eqb s "/".

(** What follows a leading [api/]. *)
Definition afterApi (s : string) : option string :=
  match s with
  | String a (String p (String i (String sl r))) =>
      if isApi a p i sl then Some r else None
  | _ => None
  end.

(** What follows the longest leading run of [api/]. *)
Fixpoint afterApis (s : string) : string :=
  match s with
  | String a (String p (String i (String sl r))) =>
      if isApi a p i sl then afterApis r else s
  | _ => s
  end.

(** [normalizeApiPath(p)]: the leading slashes go, and a leading run
    matched by [/^(api\/)+/i] becomes one [api/]. *)
Definition normalizeApiPath (p : string) : string :=
  let p := stripSlashes p in
  match afterApi p with
  | Some r => "api/" ++ afterApis r
  | None => p
  end.

(** A character of the class [[a-z0-9.-]], letters in either case. *)
Definition hostChar (c : ascii) : bool :=
  let n := N_of_ascii (Str.lowerChar c) in
  ((97 <=? n) && (n <=? 122) || (48 <=? n) && (n <=? 57) || (n =? 46) || (n =? 45))%N.

(** [/^[a-z0-9.-]+\.railway\.app\//i.test(url)], from a position before
    which only characters of the class were read, [seen] telling that there
    was one. *)
Fixpoint railwayFrom (s : string) (seen : bool) : bool :=
  (seen && Str.startsWith (Str.toLowerCase s) ".railway.app/") ||
  match s with
  | String c r => hostChar c && railwayFrom r true
  | EmptyString => false
  end.

Definition isRailwayHost (url : string) : bool := railwayFrom url false.

(** [/^\/?api\//i.test(candidate)] *)
Definition startsApiPath (candidate : string) : bool :=
  match afterApi candidate with
  | Some _ => true
  | None =>
      match candidate with
      | String c r =>
          Ascii.eqb c "/" && match afterApi r with Some _ => true | None => false end
      | EmptyString => false
      end
  end.

(** The address the wrapped [fetch] asks for, given the address it is
    called with (a string). *)
Definition rewrite (base url : string) : string :=
  if isAbsolute url then url
  else if isRailwayHost url then "https://" ++ stripSlashes url
  else
    let candidate := Str.trim url in
    if startsApiPath candidate
    then base ++ "/" ++ normalizeApiPath (stripSlashes candidate)
    else url.

(** The address the wrapped [XMLHttpRequest.prototype.open] passes on. *)
Definition rewriteOpen (base url : string) : string :=
  if isAbsolute url then url
  else if isRailwayHost url then "https://" ++ stripSlashes url
  else if startsApiPath url
  then base ++ "/" ++ normalizeApiPath (stripSlashes url)
  else url.

(** [BACKEND_BASE], from [window.__BACKEND_BASE__] ([None] when it is not a
    string). *)
Definition backendBase (configured : option string) : string :=
  let fallback := "https://plataforma-pac-lead-backend-production.up.railway.app" in
  let raw :=
    match configured with
    | Some s => if Str.trim s =? "" then fallback else Str.trim s
    | None => fallback
    end in
  let raw := if isAbsolute raw then raw else "https://" ++ raw in
  stripTrailingSlashes raw.

End ApiShim.

(* ================================================================== *)
(** * Properties *)

(** ** Strings *)

Lemma append_cons (c : ascii) (a b : string) :
  String c a ++ b = String c (a ++ b).
Proof. reflexivity. Qed.

Lemma prefix_spec (p s : string) :
  String.prefix p s = true <-> exists b, s = p ++ b.
Proof.
  revert s; induction p as [|c p IH]; intros s.
  - split; [intros _; exists s; reflexivity | now destruct s].
  - destruct s as [|d s]; simpl.
    + split; [discriminate | intros [b Hb]; discriminate].
    + destruct (Ascii.ascii_dec c d) as [->|Hne].
      * rewrite IH. split; intros [b Hb]; exists b;
          rewrite ?append_cons in *; congruence.
      * split; [discriminate | intros [b Hb]; rewrite append_cons in Hb; congruence].
Qed.

Lemma includes_spec (s p : string) :
  Str.includes s p = true <-> exists a b, s = a ++ p ++ b.
Proof.
  induction s as [|c s IH]; cbn [Str.includes].
  - rewrite orb_false_r, prefix_spec. split.
    + intros [b Hb]. exists "", b. exact Hb.
    + intros [[|c a] [b Hb]]; [exists b; exact Hb | discriminate].
  - rewrite orb_true_iff, prefix_spec, IH. split.
    + intros [[b Hb] | [a [b Hb]]].
      * exists "", b. exact Hb.
      * exists (String c a), b. rewrite append_cons. congruence.
    + intros [[|d a] [b Hb]].
      * left. exists b. exact Hb.
      * right. exists a, b. rewrite append_cons in Hb. congruence.
Qed.

(** ** QR extraction *)

Section QRFacts.
Import JS QR.

Lemma directHit_primitive (obj : JSValue) (ks : list string) :
  (forall fs, obj <> JObject fs) -> directHit obj ks = None.
Proof.
  intros Hno. induction ks as [|k ks IH]; simpl; [reflexivity|].
  destruct obj; simpl; try exact IH. now destruct (Hno fields).
Qed.

Lemma extractQrFrom_unfold (obj : JSValue) :
  extractQrFrom obj =
  if isObject obj then
    match directHit obj keys with
    | Some s => Some s
    | None =>
        firstSome (fun v => if isObject v then extractQrFrom v else None)
          (ownValues obj)
    end
  else None.
Proof.
  destruct obj as [| | | | |xs|fs]; try reflexivity.
  - change (extractQrFrom (JArray xs)) with
      (match directHit (JArray xs) keys with
       | Some s => Some s
       | None =>
           (fix scan (l : list JSValue) : option string :=
              match l with
              | [] => None
              | v :: r =>
                  match (if isObject v then extractQrFrom v else None) with
                  | Some s => Some s
                  | None => scan r
                  end
              end) xs
       end).
    cbn [isObject ownValues]. destruct (directHit (JArray xs) keys); [reflexivity|].
    induction xs as [|x xs IH]; [reflexivity|]. cbn [firstSome].
    destruct (if isObject x then extractQrFrom x else None); [reflexivity|exact IH].
  - change (extractQrFrom (JObject fs)) with
      (match directHit (JObject fs) keys with
       | Some s => Some s
       | None =>
           (fix scan (l : list (string * JSValue)) : option string :=
              match l with
              | [] => None
              | (_, v) :: r =>
                  match (if isObject v then extractQrFrom v else None) with
                  | Some s => Some s
                  | None => scan r
                  end
              end) fs
       end).
    cbn [isObject ownValues]. destruct (directHit (JObject fs) keys); [reflexivity|].
    induction fs as [|[k x] fs IH]; [reflexivity|]. cbn [firstSome map snd].
    destruct (if isObject x then extractQrFrom x else None); [reflexivity|exact IH].
Qed.

Lemma extractQrFrom_primitive (obj : JSValue) :
  isObject obj = false -> extractQrFrom obj = None.
Proof. intros Hp. rewrite extractQrFrom_unfold, Hp. reflexivity. Qed.

Lemma JSValue_ownValues_ind (P : JSValue -> Prop) :
  (forall obj, Forall P (ownValues obj) -> P obj) -> forall obj, P obj.
Proof.
  intros step. induction obj as [| | | | |xs IH|fs IH] using JSValue_nested_ind;
    apply step; simpl;
    try constructor; [exact IH|].
  induction IH; simpl; constructor; assumption.
Qed.

Lemma allHits_unfold (obj : JSValue) :
  allHits obj =
  if isObject obj
  then (directHits obj ++ flat_map allHits (ownValues obj))%list
  else [].
Proof.
  destruct obj as [| | | | |xs|fs]; try reflexivity.
  change (allHits (JObject fs)) with
      (directHits (JObject fs) ++
       (fix go (l : list (string * JSValue)) : list string :=
          match l with
          | [] => []
          | (_, v) :: r => (allHits v ++ go r)%list
          end) fs)%list.
  cbn [isObject ownValues]. f_equal.
  induction fs as [|[k x] fs IH]; [reflexivity|].
  cbn [flat_map map snd]. now rewrite IH.
Qed.

Lemma head_app_first {A : Type} (a b : list A) :
  head (a ++ b) = match head a with Some x => Some x | None => head b end.
Proof. destruct a; reflexivity. Qed.

Lemma head_directHits (obj : JSValue) :
  head (directHits obj) = directHit obj keys.
Proof.
  unfold directHits. induction keys as [|k ks IH]; [reflexivity|].
  cbn [omap list_omap directHit].
  destruct (qrString (get obj k)); [reflexivity|exact IH].
Qed.

Lemma directHit_sound (obj : JSValue) (ks : list string) (s : string) :
  directHit obj ks = Some s ->
  exists k, In k ks /\ get obj k = JString s /\ (5 < String.length s)%nat.
Proof.
  induction ks as [|k ks IH]; cbn [directHit]; [discriminate|].
  destruct (qrString (get obj k)) as [s'|] eqn:Hq.
  - intros [= ->]. exists k. split; [now left|].
    unfold qrString in Hq. destruct (get obj k); try discriminate.
    destruct (5 <? String.length s0)%nat eqn:Hlen; [|discriminate].
    injection Hq as ->. split; [reflexivity|]. now apply Nat.ltb_lt.
  - intros Hr. destruct (IH Hr) as (k' & Hin & Hget). exists k'.
    split; [now right|exact Hget].
Qed.

Lemma firstSome_None {A B : Type} (f : A -> option B) (l : list A) :
  firstSome f l = None <-> forall x, In x l -> f x = None.
Proof.
  induction l as [|y l IH]; cbn [firstSome].
  - split; [intros _ x []|reflexivity].
  - destruct (f y) eqn:Hy.
    + split; [discriminate|]. intros Hall.
      rewrite <- Hy. apply Hall. now left.
    + rewrite IH. split.
      * intros Hall x [<-|Hin]; [exact Hy|now apply Hall].
      * intros Hall x Hin. apply Hall. now right.
Qed.

Lemma firstSome_Some {A B : Type} (f : A -> option B) (l : list A) (y : B) :
  firstSome f l = Some y -> exists x, In x l /\ f x = Some y.
Proof.
  induction l as [|x l IH]; cbn [firstSome]; [discriminate|].
  destruct (f x) eqn:Hx.
  - intros [= ->]. exists x. split; [now left|exact Hx].
  - intros Hr. destruct (IH Hr) as (x' & Hin & Hfx). exists x'.
    split; [now right|exact Hfx].
Qed.

Lemma extractQrFrom_head (obj : JSValue) :
  extractQrFrom obj = head (allHits obj).
Proof.
  induction obj as [obj IH] using JSValue_ownValues_ind.
  rewrite extractQrFrom_unfold, allHits_unfold.
  destruct (isObject obj); [|reflexivity].
  rewrite head_app_first, head_directHits.
  destruct (directHit obj keys); [reflexivity|].
  induction IH as [|x l Hx _ IHl]; [reflexivity|].
  cbn [firstSome flat_map]. rewrite head_app_first, <- Hx, <- IHl.
  destruct (isObject x) eqn:Hobj; [reflexivity|].
  now rewrite (extractQrFrom_primitive x Hobj).
Qed.

Lemma extractQrFrom_sound (obj : JSValue) (s : string) :
  extractQrFrom obj = Some s ->
  exists sub k, Within sub obj /\ In k keys /\
                get sub k = JString s /\ (5 < String.length s)%nat.
Proof.
  revert s. induction obj as [obj IH] using JSValue_ownValues_ind. intros s.
  rewrite extractQrFrom_unfold. destruct (isObject obj); [|discriminate].
  destruct (directHit obj keys) as [s'|] eqn:Hd.
  - intros [= ->]. destruct (directHit_sound _ _ _ Hd) as (k & Hk).
    exists obj, k. split; [constructor|exact Hk].
  - intros Hf. apply firstSome_Some in Hf as (c & Hin & Hc).
    destruct (isObject c); [|discriminate].
    rewrite Forall_forall in IH.
    destruct (IH c (proj2 (list_elem_of_In _ _) Hin) s Hc) as (sub & k & Hw & Hk).
    exists sub, k. split; [|exact Hk]. now apply Within_child with c.
Qed.

Lemma extractQrFrom_None (obj : JSValue) :
  extractQrFrom obj = None <->
  forall sub, Within sub obj -> directHit sub keys = None.
Proof.
  split.
  - intros Hnone sub Hw. induction Hw as [obj|sub c obj Hin _ IH].
    + rewrite extractQrFrom_unfold in Hnone.
      destruct obj;
        try (apply directHit_primitive; intros fs0 Heq; discriminate Heq).
      cbn [isObject] in Hnone. now destruct (directHit (JObject fields) keys).
    + apply IH. rewrite extractQrFrom_unfold in Hnone.
      destruct (isObject obj) eqn:Hobj;
        [|destruct obj; try discriminate; now destruct Hin].
      destruct (directHit obj keys); [discriminate|].
      rewrite firstSome_None in Hnone. specialize (Hnone c Hin).
      destruct (isObject c) eqn:Hc; [exact Hnone|].
      now apply extractQrFrom_primitive.
  - induction obj as [obj IH] using JSValue_ownValues_ind. intros Hall.
    rewrite extractQrFrom_unfold. destruct (isObject obj); [|reflexivity].
    rewrite (Hall obj (Within_self obj)). apply firstSome_None.
    intros c Hin. rewrite Forall_forall in IH.
    rewrite (IH c (proj2 (list_elem_of_In _ _) Hin)); [now destruct (isObject c)|].
    intros sub Hw. apply Hall. now apply Within_child with c.
Qed.

(** C1, as stated, fails: the body [{data: {instance: {qrcode: "2@abcdef"}}}]
    has no qualifying string on the object or one level below it, and
    [extractQrFrom] nevertheless returns the string two levels down. *)
Lemma extractQrFrom_deeper_than_one_level :
  oneLevelSearch deepBody = None /\
  extractQrFrom deepBody = Some "2@abcdef".
Proof. split; reflexivity. Qed.

(** C1, amended: [extractQrFrom] searches the fixed keys on the object and
    then, depth first in key order, in every object or array nested in it at
    any depth; it returns the first string of more than 5 characters found
    under one of the keys, that string does sit under such a key somewhere in
    the body, and the result is null exactly when no value at any depth holds
    such a string under one of the keys. *)
Theorem extractQrFrom_any_depth (obj : JSValue) :
  extractQrFrom obj = head (allHits obj) /\
  (forall s, extractQrFrom obj = Some s ->
     exists sub k, Within sub obj /\ In k keys /\
                   get sub k = JString s /\ (5 < String.length s)%nat) /\
  (extractQrFrom obj = None <->
     forall sub, Within sub obj -> directHit sub keys = None).
Proof.
  split; [apply extractQrFrom_head|].
  split; [apply extractQrFrom_sound|apply extractQrFrom_None].
Qed.

Lemma extractQrFrom_any_depth_witness :
  extractQrFrom deepBody = head (allHits deepBody) /\
  exists sub k, Within sub deepBody /\ In k keys /\
                get sub k = JString "2@abcdef" /\ (5 < String.length "2@abcdef")%nat.
Proof.
  split; [apply (extractQrFrom_any_depth deepBody)|].
  apply (proj1 (proj2 (extractQrFrom_any_depth deepBody))). reflexivity.
Defined.

End QRFacts.

(** ** Status classification *)

Section FriendlyState.
Import JS QR.
Context `{Builtins}.

Lemma connected_has_no_wait_or_qr (a b : string) :
  "connected" <> a ++ "wait" ++ b /\ "connected" <> a ++ "qr" ++ b.
Proof.
  split; intros Heq.
  - assert (Hinc : Str.includes "connected" "wait" = true)
      by (apply includes_spec; exists a, b; exact Heq).
    discriminate Hinc.
  - assert (Hinc : Str.includes "connected" "qr" = true)
      by (apply includes_spec; exists a, b; exact Heq).
    discriminate Hinc.
Qed.

(** C2: a string that is "connected" up to case is classified "connected";
    a string whose lowercase form contains "wait" or "qr" is classified
    "waiting-qr"; any other string is returned unchanged; an object with
    [connected === true] is classified "connected" when [loggedIn === true]
    and "waiting-qr" when [loggedIn === false]; every other input yields
    "connecting" or the JSON rendering of the input. *)
Theorem friendlyState_classifies (raw : JSValue) :
  (forall s, raw = JString s -> Str.toLowerCase s = "connected" ->
     friendlyState raw = "connected") /\
  (forall s a b, raw = JString s ->
     Str.toLowerCase s = a ++ "wait" ++ b \/ Str.toLowerCase s = a ++ "qr" ++ b ->
     friendlyState raw = "waiting-qr") /\
  (forall s, raw = JString s -> Str.toLowerCase s <> "connected" ->
     (forall a b, Str.toLowerCase s <> a ++ "wait" ++ b) ->
     (forall a b, Str.toLowerCase s <> a ++ "qr" ++ b) ->
     friendlyState raw = s) /\
  (forall fs, raw = JObject fs ->
     get raw "connected" = JBool true -> get raw "loggedIn" = JBool true ->
     friendlyState raw = "connected") /\
  (forall fs, raw = JObject fs ->
     get raw "connected" = JBool true -> get raw "loggedIn" = JBool false ->
     friendlyState raw = "waiting-qr") /\
  ((forall s, raw <> JString s) ->
   ~ (get raw "connected" = JBool true /\
      exists b, get raw "loggedIn" = JBool b) ->
   friendlyState raw = "connecting" \/
   JSON_stringify raw = Some (friendlyState raw)).
Proof.
  repeat split.
  - intros s -> Hlow. cbn [friendlyState]. cbv zeta. now rewrite Hlow.
  - intros s a b -> Hsub. cbn [friendlyState]. cbv zeta.
    destruct (Str.toLowerCase s =? "connected") eqn:Hc.
    + apply String.eqb_eq in Hc. rewrite Hc in Hsub.
      destruct (connected_has_no_wait_or_qr a b) as [Hw Hq].
      now destruct Hsub.
    + assert (Hor : Str.includes (Str.toLowerCase s) "wait"
                    || Str.includes (Str.toLowerCase s) "qr" = true).
      { apply orb_true_iff.
        destruct Hsub as [Hs|Hs]; [left|right];
          apply includes_spec; exists a, b; exact Hs. }
      now rewrite Hor.
  - intros s -> Hc Hw Hq. cbn [friendlyState]. cbv zeta.
    apply String.eqb_neq in Hc. rewrite Hc.
    destruct (Str.includes (Str.toLowerCase s) "wait") eqn:Hiw.
    { apply includes_spec in Hiw as (a & b & Hab). now destruct (Hw a b). }
    destruct (Str.includes (Str.toLowerCase s) "qr") eqn:Hiq.
    { apply includes_spec in Hiq as (a & b & Hab). now destruct (Hq a b). }
    reflexivity.
  - intros fs -> Hc Hl. cbn [friendlyState]. now rewrite Hc, Hl.
  - intros fs -> Hc Hl. cbn [friendlyState]. now rewrite Hc, Hl.
  - intros Hns Hno. destruct raw as [| | | |s|xs|fs]; cbn [friendlyState];
      try (now left).
    + now destruct (Hns s).
    + cbn [get isTrue andb].
      destruct (JSON_stringify (JArray xs)); [now right|now left].
    + destruct (isTrue (get (JObject fs) "connected")) eqn:Hc.
      * destruct (get (JObject fs) "connected") as [| |[|]| | | |] eqn:Hgc;
          try discriminate Hc.
        destruct (get (JObject fs) "loggedIn") as [| |b| | | |] eqn:Hgl;
          try (cbn [isTrue isFalse andb];
               destruct (JSON_stringify (JObject fs)); [now right|now left]).
        destruct Hno. split; [reflexivity|now exists b].
      * cbn [andb]. destruct (JSON_stringify (JObject fs)); [now right|now left].
Qed.

End FriendlyState.

Section FriendlyStateExamples.
Import JS QR.

Lemma friendlyState_classifies_witness :
  @friendlyState sampleHost (JString "CONNECTED") = "connected" /\
  @friendlyState sampleHost (JString "Waiting") = "waiting-qr" /\
  @friendlyState sampleHost (JString "open") = "open" /\
  @friendlyState sampleHost
    (JObject [("connected", JBool true); ("loggedIn", JBool false)]) = "waiting-qr" /\
  (@friendlyState sampleHost (JObject [("connected", JBool false)]) = "connecting" \/
   @JSON_stringify sampleHost (JObject [("connected", JBool false)]) =
   Some (@friendlyState sampleHost (JObject [("connected", JBool false)]))).
Proof.
  split; [|split; [|split; [|split]]].
  - apply (proj1 (@friendlyState_classifies sampleHost (JString "CONNECTED")) "CONNECTED");
      reflexivity.
  - apply (proj1 (proj2 (@friendlyState_classifies sampleHost (JString "Waiting")))
             "Waiting" "" "ing"); [reflexivity|left; reflexivity].
  - apply (proj1 (proj2 (proj2 (@friendlyState_classifies sampleHost (JString "open"))))
             "open"); [reflexivity|discriminate| |].
    + intros a b Heq.
      assert (Hinc : Str.includes "open" "wait" = true)
        by (apply includes_spec; exists a, b; exact Heq).
      discriminate Hinc.
    + intros a b Heq.
      assert (Hinc : Str.includes "open" "qr" = true)
        by (apply includes_spec; exists a, b; exact Heq).
      discriminate Hinc.
  - apply (proj1 (proj2 (proj2 (proj2 (proj2
             (@friendlyState_classifies sampleHost
                (JObject [("connected", JBool true); ("loggedIn", JBool false)]))))))
             [("connected", JBool true); ("loggedIn", JBool false)]);
      reflexivity.
  - apply (proj2 (proj2 (proj2 (proj2 (proj2
             (@friendlyState_classifies sampleHost (JObject [("connected", JBool false)]))))))).
    + intros s Heq; discriminate Heq.
    + intros [Hc _]. discriminate Hc.
Defined.

End FriendlyStateExamples.

(** ** Numbers *)

Section NumberFacts.
Import JS Number.
Local Open Scope Z_scope.

Lemma append_assoc (a b c : string) : (a ++ b) ++ c = a ++ (b ++ c).
Proof. induction a as [|x a IH]; [reflexivity|]. now rewrite !append_cons, IH. Qed.

Lemma append_length (a b : string) :
  String.length (a ++ b) = (String.length a + String.length b)%nat.
Proof. induction a as [|x a IH]; [reflexivity|]. rewrite append_cons. cbn. now rewrite IH. Qed.

Lemma substring_head (a b : string) :
  substring 0 (String.length a) (a ++ b) = a.
Proof. induction a as [|x a IH]; [now destruct b|]. rewrite append_cons. cbn. now rewrite IH. Qed.

Lemma substring_whole (b : string) : substring 0 (String.length b) b = b.
Proof. induction b as [|x b IH]; [reflexivity|]. cbn. now rewrite IH. Qed.

Lemma substring_tail (a b : string) :
  substring (String.length a) (String.length b) (a ++ b) = b.
Proof.
  induction a as [|x a IH]; [apply substring_whole|].
  rewrite append_cons. cbn. exact IH.
Qed.

(** *** Decimal digits *)

Ltac digit_cases d :=
  let H := fresh in
  assert (H : d = 0 \/ d = 1 \/ d = 2 \/ d = 3 \/ d = 4 \/ d = 5 \/
              d = 6 \/ d = 7 \/ d = 8 \/ d = 9) by lia;
  repeat destruct H as [H|H]; subst d.

Lemma digitVal_digitChar (d : Z) : 0 <= d <= 9 -> digitVal (digitChar d) = Some d.
Proof. intros Hd. digit_cases d; reflexivity. Qed.

Lemma digitVal_range (c : ascii) (d : Z) :
  digitVal c = Some d -> 0 <= d <= 9 /\ c = digitChar d.
Proof.
  unfold digitVal. cbv zeta.
  destruct ((48 <=? N_of_ascii c) && (N_of_ascii c <=? 57))%N eqn:Hr; [|discriminate].
  intros [= <-]. apply andb_true_iff in Hr as [Hlo Hhi].
  apply N.leb_le in Hlo, Hhi. split; [lia|].
  unfold digitChar.
  replace (48 + Z.to_N (Z.of_N (N_of_ascii c) - 48))%N with (N_of_ascii c) by lia.
  now rewrite ascii_N_embedding.
Qed.

Lemma log2_div10 (n : Z) : 10 <= n -> Z.log2 (n / 10) <= Z.log2 n - 1.
Proof.
  intros Hn. assert (Hq : 1 <= n / 10) by (apply Z.div_le_lower_bound; lia).
  assert (Hle : 2 * (n / 10) <= n).
  { pose proof (Z.mul_div_le n 10). lia. }
  apply Z.log2_le_mono in Hle. rewrite Z.log2_double in Hle by lia. lia.
Qed.

Lemma digitsFuel_acc (f : nat) (n : Z) (acc : string) :
  digitsFuel f n acc = digitsFuel f n "" ++ acc.
Proof.
  revert n acc. induction f as [|f IH]; intros n acc; cbn [digitsFuel]; cbv zeta.
  - reflexivity.
  - destruct (n <? 10); [reflexivity|].
    rewrite (IH _ (String _ acc)), (IH _ (String _ "")).
    now rewrite append_assoc.
Qed.

Lemma digitsFuel_enough (f1 f2 : nat) (n : Z) :
  0 <= n -> Z.log2 n <= Z.of_nat f1 -> Z.log2 n <= Z.of_nat f2 ->
  digitsFuel f1 n "" = digitsFuel f2 n "".
Proof.
  revert f2 n. induction f1 as [|f1 IH]; intros f2 n Hn H1 H2.
  - assert (Hs : n < 2).
    { destruct (Z.lt_ge_cases n 2) as [|Hge]; [assumption|].
      apply Z.log2_le_mono in Hge. change (Z.log2 2) with 1 in Hge. lia. }
    destruct f2 as [|f2]; cbn [digitsFuel]; cbv zeta; [reflexivity|].
    now replace (n <? 10) with true by (symmetry; apply Z.ltb_lt; lia).
  - cbn [digitsFuel]; cbv zeta. destruct (n <? 10) eqn:Hlt.
    + destruct f2 as [|f2]; cbn [digitsFuel]; cbv zeta; [reflexivity|now rewrite Hlt].
    + apply Z.ltb_ge in Hlt. pose proof (log2_div10 n Hlt) as Hl.
      assert (Hq : 0 <= n / 10) by (apply Z.div_pos; lia).
      destruct f2 as [|f2].
      * assert (Hge : 8 <= n) by lia. apply Z.log2_le_mono in Hge.
        change (Z.log2 8) with 3 in Hge. lia.
      * cbn [digitsFuel]; cbv zeta.
        replace (n <? 10) with false by (symmetry; apply Z.ltb_ge; lia).
        rewrite (digitsFuel_acc f1), (digitsFuel_acc f2).
        f_equal. apply IH; lia.
Qed.

Lemma digits_small (n : Z) :
  0 <= n < 10 -> digits n = String (digitChar n) "".
Proof.
  intros Hn. unfold digits.
  rewrite (digitsFuel_enough _ 3 n) by
    (try lia; assert (Hl : Z.log2 n <= Z.log2 9) by (apply Z.log2_le_mono; lia);
     change (Z.log2 9) with 3 in Hl; pose proof (Z.log2_nonneg n); lia).
  cbn [digitsFuel]; cbv zeta.
  replace (n <? 10) with true by (symmetry; apply Z.ltb_lt; lia).
  now rewrite Z.mod_small by lia.
Qed.

Lemma digits_step (n : Z) :
  10 <= n -> digits n = digits (n / 10) ++ String (digitChar (n mod 10)) "".
Proof.
  intros Hn. unfold digits.
  pose proof (log2_div10 n Hn) as Hl. pose proof (Z.log2_nonneg (n / 10)) as Hp.
  assert (Hq : 0 <= n / 10) by (apply Z.div_pos; lia).
  destruct (Z.to_nat (Z.log2 n)) as [|f] eqn:Hf; [lia|].
  cbn [digitsFuel]; cbv zeta.
  replace (n <? 10) with false by (symmetry; apply Z.ltb_ge; lia).
  rewrite digitsFuel_acc. f_equal.
  apply digitsFuel_enough; lia.
Qed.

(** Induction on a non-negative integer through its decimal digits. *)
Lemma digits_ind (P : Z -> Prop) :
  (forall n, 0 <= n < 10 -> P n) ->
  (forall n, 10 <= n -> P (n / 10) -> P n) ->
  forall n, 0 <= n -> P n.
Proof.
  intros Hsmall Hstep n Hn.
  apply (Z_lt_induction (fun m => 0 <= m -> P m)); [|exact Hn|exact Hn].
  intros m IH Hm. destruct (Z.lt_ge_cases m 10) as [Hlt|Hge].
  - apply Hsmall; lia.
  - assert (Hq : 0 <= m / 10) by (apply Z.div_pos; lia).
    apply Hstep; [exact Hge|]. apply IH; [|exact Hq]. split; [exact Hq|].
    apply Z.div_lt_upper_bound; lia.
Qed.

Lemma digits_first (n : Z) :
  0 <= n -> exists d r, 0 <= d <= 9 /\ digits n = String (digitChar d) r.
Proof.
  intros Hn. pattern n. apply digits_ind; [| |exact Hn].
  - intros m Hm. exists m, "". split; [lia|now apply digits_small].
  - intros m Hm (d & r & Hd & Hr). rewrite (digits_step m Hm), Hr.
    exists d, (r ++ String (digitChar (m mod 10)) ""). split; [exact Hd|reflexivity].
Qed.

Lemma allDigits_app (a b : string) :
  allDigits (a ++ b) = allDigits a && allDigits b.
Proof.
  induction a as [|x a IH]; [reflexivity|]. rewrite append_cons. cbn [allDigits].
  now destruct (digitVal x).
Qed.

Lemma digits_allDigits (n : Z) : 0 <= n -> allDigits (digits n) = true.
Proof.
  intros Hn. pattern n. apply digits_ind; [| |exact Hn].
  - intros m Hm. rewrite digits_small by lia. cbn [allDigits].
    now rewrite digitVal_digitChar by lia.
  - intros m Hm IH. rewrite (digits_step m Hm), allDigits_app, IH. cbn [allDigits andb].
    rewrite digitVal_digitChar; [reflexivity|].
    pose proof (Z.mod_pos_bound m 10). lia.
Qed.

Lemma scanDigits_digits (n : Z) :
  0 <= n ->
  forall rest acc cnt,
    scanDigits (digits n ++ rest) acc cnt =
    scanDigits rest (acc * 10 ^ Z.of_nat (String.length (digits n)) + n)
      (cnt + String.length (digits n)).
Proof.
  intros Hn. pattern n. apply digits_ind; [| |exact Hn].
  - intros m Hm rest acc cnt. rewrite digits_small by lia.
    rewrite append_cons. cbn [scanDigits String.length append].
    rewrite digitVal_digitChar by lia.
    change (Z.of_nat 1) with 1. f_equal; lia.
  - intros m Hm IH rest acc cnt. rewrite (digits_step m Hm).
    rewrite append_assoc, IH, append_length, append_cons.
    cbn [scanDigits String.length append].
    assert (Hr : 0 <= m mod 10 < 10) by (apply Z.mod_pos_bound; lia).
    rewrite digitVal_digitChar by lia.
    rewrite Nat2Z.inj_add, Z.pow_add_r by lia. change (Z.of_nat 1) with 1.
    pose proof (Z.div_mod m 10).
    set (p := 10 ^ Z.of_nat (String.length (digits (m / 10)))).
    f_equal; lia.
Qed.

(** *** [toFixed(2)] of a whole number of cents *)

Lemma mod100_tens (a : Z) : 0 <= a -> a / 10 mod 10 = a mod 100 / 10.
Proof. intros Ha. Z.div_mod_to_equations. lia. Qed.

Lemma digits_cents (a : Z) :
  100 <= a ->
  digits a = digits (a / 100) ++
             String (digitChar (a mod 100 / 10)) (String (digitChar (a mod 10)) "").
Proof.
  intros Ha. rewrite (digits_step a) by lia.
  assert (Hq : 10 <= a / 10) by (apply Z.div_le_lower_bound; lia).
  rewrite (digits_step (a / 10) Hq), Z.div_div, mod100_tens by lia.
  now rewrite append_assoc.
Qed.

Lemma toFixed2_cents `{Builtins} (c : Z) :
  Z.abs c < 10 ^ 23 -> toFixed2 (div100 (int c)) = twoDecimals c.
Proof.
  intros Hc. unfold toFixed2, div100, int, twoDecimals, atLeast1e21, roundHalfUp.
  cbn [mant expo]. change (0 - 2) with (-2). change (-2 + 2) with 0.
  change (0 <=? -2) with false. change (0 <=? 0) with true. cbv iota zeta.
  replace (10 ^ 21 * 10 ^ (- -2) <=? Z.abs c) with false
    by (symmetry; apply Z.leb_gt; change (10 ^ 21 * 10 ^ (- -2)) with (10 ^ 23); lia).
  rewrite Z.pow_0_r, Z.mul_1_r.
  f_equal. set (a := Z.abs c) in *. assert (Ha : 0 <= a) by (subst a; lia).
  clearbody a. clear c Hc.
  destruct (Z.lt_ge_cases a 10) as [H1|H1];
    [|destruct (Z.lt_ge_cases a 100) as [H2|H2]].
  - rewrite (digits_small a) by lia.
    rewrite (Z.div_small a 100), (Z.mod_small a 100), (Z.div_small a 10),
      (Z.mod_small a 10) by lia.
    reflexivity.
  - rewrite (digits_step a H1), (digits_small (a / 10))
      by (split; [apply Z.div_pos|apply Z.div_lt_upper_bound]; lia).
    rewrite (Z.div_small a 100), (Z.mod_small a 100) by lia.
    reflexivity.
  - rewrite (digits_cents a H2).
    set (D := digits (a / 100)).
    set (t := String (digitChar (a mod 100 / 10)) (String (digitChar (a mod 10)) "")).
    rewrite append_length. change (String.length t) with 2%nat.
    replace (String.length D + 2 <=? 2)%nat with false.
    2:{ symmetry. apply Nat.leb_gt.
        assert (Hq : 0 <= a / 100) by (apply Z.div_pos; lia).
        destruct (digits_first (a / 100) Hq) as (d & r & _ & Hr).
        subst D. rewrite Hr. cbn. lia. }
    cbv iota. rewrite append_length. change (String.length t) with 2%nat.
    replace (String.length D + 2 - 2)%nat with (String.length D) by lia.
    rewrite substring_head.
    change 2%nat with (String.length t) at 1. now rewrite substring_tail.
Qed.

(** *** Reading back what [centsToReais] writes *)

Lemma digit_not_special (d : Z) :
  0 <= d <= 9 ->
  Str.isWhiteSpace (digitChar d) = false /\
  Ascii.eqb (digitChar d) "." = false /\
  Ascii.eqb (digitChar d) "," = false /\
  Ascii.eqb (digitChar d) "-" = false /\
  Ascii.eqb (digitChar d) "+" = false /\
  (forall r, String.prefix "Infinity" (String (digitChar d) r) = false).
Proof. intros Hd. digit_cases d; repeat split. Qed.

Lemma allDigits_head (c : ascii) (r : string) :
  allDigits (String c r) = true ->
  exists d, 0 <= d <= 9 /\ c = digitChar d /\ allDigits r = true.
Proof.
  cbn [allDigits]. destruct (digitVal c) as [d|] eqn:Hd; [|discriminate].
  intros Hr. apply digitVal_range in Hd as [Hd ->]. now exists d.
Qed.

Lemma removeAll_digits (a : string) :
  allDigits a = true -> Str.removeAll "." a = a.
Proof.
  induction a as [|c a IH]; [reflexivity|]. intros Ha.
  apply allDigits_head in Ha as (d & Hd & -> & Hr). cbn [Str.removeAll].
  destruct (digit_not_special d Hd) as (_ & -> & _). now rewrite IH.
Qed.

Lemma removeAll_app (x : ascii) (a b : string) :
  Str.removeAll x (a ++ b) = Str.removeAll x a ++ Str.removeAll x b.
Proof.
  induction a as [|c a IH]; [reflexivity|]. rewrite append_cons. cbn [Str.removeAll].
  destruct (Ascii.eqb c x); [exact IH|]. now rewrite append_cons, IH.
Qed.

Lemma replaceFirst_after_digits (x y : ascii) (a b : string) :
  allDigits a = true -> digitVal x = None ->
  Str.replaceFirst x y (a ++ String x b) = a ++ String y b.
Proof.
  intros Ha Hx. induction a as [|c a IH].
  - change (Str.replaceFirst x y (String x b) = String y b).
    cbn [Str.replaceFirst]. now rewrite Ascii.eqb_refl.
  - apply allDigits_head in Ha as (d & Hd & -> & Hr).
    rewrite !append_cons. cbn [Str.replaceFirst].
    destruct (Ascii.eqb (digitChar d) x) eqn:Heq.
    + apply Ascii.eqb_eq in Heq. subst x.
      rewrite digitVal_digitChar in Hx by exact Hd. discriminate.
    + now rewrite IH.
Qed.

Lemma trimEnd_keeps (a : string) (c : ascii) :
  Str.isWhiteSpace c = false ->
  Str.trimEnd (a ++ String c "") = a ++ String c "".
Proof.
  intros Hc. induction a as [|x a IH].
  - change (Str.trimEnd (String c "") = String c "").
    cbn [Str.trimEnd]. now rewrite Hc.
  - rewrite append_cons. cbn [Str.trimEnd]. rewrite IH.
    now destruct a.
Qed.

(** The text [centsToReais] produces for a positive whole number of cents:
    the digits of the reais, a comma, and the two digits of the centavos. *)
Lemma centsToReais_text `{Builtins} (c : Z) :
  0 < c < 10 ^ 23 ->
  centsToReais (JNum (int c)) =
  digits (c / 100) ++
  String "," (String (digitChar (c mod 100 / 10)) (String (digitChar (c mod 10)) "")).
Proof.
  intros Hc. unfold centsToReais.
  replace (truthy (JNum (int c))) with true
    by (cbn; symmetry; apply negb_true_iff, Z.eqb_neq; lia).
  cbn [negb orb toNum isNaN int].
  rewrite (toFixed2_cents c) by lia. unfold twoDecimals.
  replace (c <? 0) with false by (symmetry; apply Z.ltb_ge; lia).
  rewrite Z.abs_eq by lia. cbn [append].
  apply replaceFirst_after_digits; [|reflexivity].
  apply digits_allDigits, Z.div_pos; lia.
Qed.

Lemma parseFloat_two_decimals (n d1 d0 : Z) :
  0 <= n -> 0 <= d1 <= 9 -> 0 <= d0 <= 9 ->
  parseFloat (digits n ++ String "." (String (digitChar d1) (String (digitChar d0) "")))
  = Fin (mkDec (n * 100 + d1 * 10 + d0) (-2)).
Proof.
  intros Hn H1 H0.
  set (rest := String "." (String (digitChar d1) (String (digitChar d0) ""))).
  destruct (digits_first n Hn) as (d & r & Hd & Hr).
  destruct (digit_not_special d Hd) as (Hws & _ & _ & Hminus & Hplus & Hinf).
  unfold parseFloat. cbv zeta.
  assert (Htrim : Str.trimStart (digits n ++ rest) = digits n ++ rest).
  { rewrite Hr, append_cons. cbn [Str.trimStart]. now rewrite Hws. }
  assert (Hsign : stripSign (digits n ++ rest) = (false, digits n ++ rest)).
  { rewrite Hr, append_cons. cbn [stripSign]. now rewrite Hminus, Hplus. }
  assert (Hnoinf : String.prefix "Infinity" (digits n ++ rest) = false).
  { rewrite Hr, append_cons. apply Hinf. }
  rewrite Htrim, Hsign, Hnoinf, (scanDigits_digits n Hn).
  subst rest. cbn [scanDigits]. change (digitVal ".") with (@None Z). cbv iota.
  change (Ascii.eqb "." ".") with true. cbv iota.
  cbn [scanDigits]. rewrite !digitVal_digitChar by assumption.
  replace (0 + String.length (digits n) + 2 =? 0)%nat with false
    by (symmetry; apply Nat.eqb_neq; lia).
  cbn [scanExponent]. change (0 - Z.of_nat 2) with (-2).
  f_equal. f_equal. lia.
Qed.

(** Converting a whole number of cents to text and back gives the number
    again.  The bound keeps the doubles of the script exact. *)
Lemma reaisToCents_centsToReais `{Builtins} (c : Z) :
  0 <= c < 10 ^ 15 ->
  reaisToCents (JString (centsToReais (JNum (int c)))) = int c.
Proof.
  intros Hc. destruct (Z.eq_dec c 0) as [->|Hnz]; [reflexivity|].
  assert (H23 : 10 ^ 15 < 10 ^ 23) by reflexivity.
  rewrite centsToReais_text by lia.
  set (D := digits (c / 100)).
  set (d1 := c mod 100 / 10). set (d0 := c mod 10).
  assert (Hq : 0 <= c / 100) by (apply Z.div_pos; lia).
  assert (Hd1 : 0 <= d1 <= 9) by (subst d1; Z.div_mod_to_equations; lia).
  assert (Hd0 : 0 <= d0 <= 9) by (subst d0; Z.div_mod_to_equations; lia).
  assert (HD : allDigits D = true) by (apply digits_allDigits; exact Hq).
  destruct (digits_first (c / 100) Hq) as (d & r & Hd & Hr). fold D in Hr.
  destruct (digit_not_special d Hd) as (Hws & _).
  destruct (digit_not_special d0 Hd0) as (Hws0 & Hdot0 & _).
  destruct (digit_not_special d1 Hd1) as (_ & Hdot1 & _).
  unfold reaisToCents. cbn [toStr]. cbv zeta.
  assert (Htrim : Str.trim (D ++ String "," (String (digitChar d1) (String (digitChar d0) "")))
                  = D ++ String "," (String (digitChar d1) (String (digitChar d0) ""))).
  { unfold Str.trim.
    replace (Str.trimStart (D ++ String "," (String (digitChar d1) (String (digitChar d0) ""))))
      with (D ++ String "," (String (digitChar d1) (String (digitChar d0) "")))
      by (rewrite Hr, append_cons; cbn [Str.trimStart]; now rewrite Hws).
    change (D ++ String "," (String (digitChar d1) (String (digitChar d0) "")))
      with (D ++ (String "," (String (digitChar d1) "") ++ String (digitChar d0) "")).
    rewrite <- append_assoc. now apply trimEnd_keeps. }
  rewrite Htrim.
  replace (D ++ String "," (String (digitChar d1) (String (digitChar d0) "")) =? "")%string
    with false by (rewrite Hr; reflexivity).
  rewrite removeAll_app, (removeAll_digits D HD).
  cbn [Str.removeAll]. change (Ascii.eqb "," ".") with false. cbv iota.
  rewrite Hdot1, Hdot0.
  rewrite (replaceFirst_after_digits "," "." D _ HD eq_refl).
  subst D. rewrite (parseFloat_two_decimals (c / 100) d1 d0 Hq Hd1 Hd0).
  cbn [isNaN negative mant expo orb times100 Math_round].
  replace (c / 100 * 100 + d1 * 10 + d0) with c
    by (subst d1 d0; Z.div_mod_to_equations; lia).
  replace (c <? 0) with false by (symmetry; apply Z.ltb_ge; lia).
  unfold roundHalfUp. change (-2 + 2) with 0. change (0 <=? 0) with true.
  cbv iota. now rewrite Z.pow_0_r, Z.mul_1_r.
Qed.

(** On [null], [undefined], blank text, text that does not start with a
    number, and negative numbers, the result is 0. *)
Lemma reaisToCents_zero `{Builtins} (value : JSValue) :
  value = JNull \/ value = JUndefined \/
  Str.trim (toStr value) = "" \/
  isNaN (parseFloat (Str.replaceFirst "," "." (Str.removeAll "." (Str.trim (toStr value))))) = true \/
  negative (parseFloat (Str.replaceFirst "," "." (Str.removeAll "." (Str.trim (toStr value))))) = true ->
  reaisToCents value = int 0.
Proof.
  intros [->|[->|[Hb|[Hn|Hn]]]]; try reflexivity; unfold reaisToCents; cbv zeta.
  - rewrite Hb. now destruct value.
  - rewrite Hn. destruct value; try reflexivity; now destruct (_ =? "")%string.
  - rewrite Hn, orb_true_r. destruct value; try reflexivity; now destruct (_ =? "")%string.
Qed.

(** C9 at the text "Infinity": the guard of [reaisToCents] rejects NaN and
    negative numbers only, so the infinite value [parseFloat] reads passes
    it and [Math.round] returns it: the result is not an integer. *)
Theorem reaisToCents_Infinity `{Builtins} :
  reaisToCents (JString "Infinity") = Infinity false /\
  (forall z, reaisToCents (JString "Infinity") <> int z).
Proof. split; [reflexivity|intros z; discriminate]. Qed.

End NumberFacts.

(** ** Session keys *)

Section SessionFacts.
Import JS Session.
Context `{Builtins}.

Lemma setItem_keeps (k k' v : string) (ls : gmap string string) :
  is_Some (ls !! k) -> is_Some (setItem k' v ls !! k).
Proof.
  intros Hs. unfold setItem. destruct (decide (k' = k)) as [->|Hne].
  - rewrite lookup_insert_eq. eauto.
  - now rewrite lookup_insert_ne.
Qed.

Lemma setItem_same (k v : string) (ls : gmap string string) :
  is_Some (setItem k v ls !! k).
Proof. unfold setItem. rewrite lookup_insert_eq. eauto. Qed.

Lemma saveAuthData_keeps_token (data : JSValue) (ls ls' : gmap string string) :
  saveAuthData data ls = Some ls' -> is_Some (ls' !! "token").
Proof.
  unfold saveAuthData. destruct (member data "token"); [|discriminate].
  destruct (negb (truthy (extractToken data))); [discriminate|].
  intros [= <-].
  destruct (truthy (extractTax data)), (truthy (extractName data));
    repeat first [apply setItem_same | apply setItem_keeps].
Qed.

(** C8: logout removes the keys token, org_id, flow_id and user_name and no
    other key: every other key, wa_instance, wa_token, tax_id, remember_email
    and agentConfig among them, keeps its value; and no other operation that
    writes to local storage removes a stored token. *)
Theorem logout_removes_exactly_session_keys (b : Browser) :
  (forall k, In k sessionKeys -> localStorage (logout b) !! k = None) /\
  (forall k, ~ In k sessionKeys ->
     localStorage (logout b) !! k = localStorage b !! k) /\
  (forall k, In k ["wa_instance"; "wa_token"; "tax_id"; "remember_email"; "agentConfig"] ->
     localStorage (logout b) !! k = localStorage b !! k) /\
  (forall op, op <> Logout -> is_Some (localStorage b !! "token") ->
     is_Some (localStorage (exec op b) !! "token")).
Proof.
  assert (Hframe : forall k, ~ In k sessionKeys ->
            localStorage (logout b) !! k = localStorage b !! k).
  { intros k Hk. cbn [logout localStorage]. unfold removeItem.
    rewrite !lookup_delete_ne; [reflexivity|..];
      intros <-; apply Hk; cbn; tauto. }
  split; [|split; [exact Hframe|split]].
  - intros k Hk. cbn [logout localStorage]. unfold removeItem.
    cbn in Hk. destruct Hk as [<-|[<-|[<-|[<-|[]]]]];
      repeat (rewrite lookup_delete_eq || rewrite lookup_delete_ne by discriminate);
      reflexivity.
  - intros k Hk. apply Hframe. intros Hs. cbn in Hk, Hs.
    destruct Hk as [<-|[<-|[<-|[<-|[<-|[]]]]]];
      repeat (destruct Hs as [Hs|Hs]; [discriminate Hs|]); exact Hs.
  - intros op Hop Htok. destruct op as [|data|email|inst tok|config];
      cbn [exec].
    + now destruct Hop.
    + destruct (saveAuthData data (localStorage b)) as [ls'|] eqn:Hsave;
        [|exact Htok].
      cbn [localStorage]. now apply saveAuthData_keeps_token with data (localStorage b).
    + cbn [localStorage]. now apply setItem_keeps.
    + cbn [localStorage]. unfold persistWhatsAppInstance.
      destruct (truthy tok), (truthy inst); repeat apply setItem_keeps; exact Htok.
    + cbn [localStorage]. now apply setItem_keeps.
Qed.

End SessionFacts.

Section SessionExamples.
Import JS Session.

Lemma logout_removes_exactly_session_keys_witness :
  localStorage (logout sampleBrowser) !! "token" = None /\
  localStorage (logout sampleBrowser) !! "wa_token" = localStorage sampleBrowser !! "wa_token" /\
  is_Some (localStorage (@exec sampleHost (RememberEmail "a@b.c") sampleBrowser) !! "token").
Proof.
  split; [|split].
  - apply (proj1 (@logout_removes_exactly_session_keys sampleHost sampleBrowser)).
    cbn. tauto.
  - apply (proj1 (proj2 (proj2 (@logout_removes_exactly_session_keys sampleHost sampleBrowser)))).
    cbn. tauto.
  - apply (proj2 (proj2 (proj2 (@logout_removes_exactly_session_keys sampleHost sampleBrowser)))).
    + discriminate.
    + exists "t0". reflexivity.
Defined.

End SessionExamples.

(** ** The chat widget *)

Section ChatFacts.
Import JS Chatbot.

Lemma sliceLast_length {A : Type} (n : nat) (xs : list A) :
  (length (sliceLast n xs) <= n)%nat.
Proof. unfold sliceLast. rewrite length_drop. lia. Qed.

Lemma sliceLast_suffix {A : Type} (n : nat) (xs : list A) :
  exists dropped, xs = (dropped ++ sliceLast n xs)%list.
Proof.
  exists (take (length xs - n) xs). unfold sliceLast.
  now rewrite take_drop.
Qed.

(** Appending to the retained suffix and cutting again is cutting the whole
    sequence once. *)
Lemma sliceLast_snoc {A : Type} (n : nat) (pre : list A) (e : A) :
  (1 <= n)%nat ->
  (let h := (sliceLast n pre ++ [e])%list in
   if (n <? length h)%nat then sliceLast n h else h)
  = sliceLast n (pre ++ [e]).
Proof.
  intros Hn. cbv zeta. unfold sliceLast.
  rewrite !length_app, length_drop. cbn [length].
  destruct (Nat.lt_ge_cases (length pre) n) as [Hlt|Hge].
  - replace (length pre - n)%nat with 0%nat by lia.
    replace (length pre + 1 - n)%nat with 0%nat by lia.
    cbn [drop]. replace (length pre - 0 + 1)%nat with (length pre + 1)%nat by lia.
    destruct (n <? length pre + 1)%nat eqn:Hc; [|reflexivity].
    apply Nat.ltb_lt in Hc. lia.
  - replace (n <? length pre - (length pre - n) + 1)%nat with true
      by (symmetry; apply Nat.ltb_lt; lia).
    replace (length pre - (length pre - n) + 1 - n)%nat with 1%nat by lia.
    rewrite !drop_app_le by (rewrite ?length_drop; lia).
    rewrite drop_drop. f_equal. f_equal. lia.
Qed.

Lemma pushHistory_history (r : string) (c : JSValue) (now : Z) (w : Widget) :
  history (_pushHistory r c now w) =
  (let h := (history w ++ [mkEntry r c now])%list in
   if (maxHistory w <? length h)%nat then sliceLast (maxHistory w) h else h).
Proof. unfold _pushHistory. cbv zeta. now destruct (_ <? _)%nat. Qed.

Lemma pushHistory_maxHistory (r : string) (c : JSValue) (now : Z) (w : Widget) :
  maxHistory (_pushHistory r c now w) = maxHistory w.
Proof. unfold _pushHistory. cbv zeta. now destruct (_ <? _)%nat. Qed.

Lemma pushHistory_bound (r : string) (c : JSValue) (now : Z) (w : Widget) :
  (length (history (_pushHistory r c now w)) <= maxHistory w)%nat.
Proof.
  rewrite pushHistory_history. cbv zeta.
  destruct (_ <? _)%nat eqn:Hc; [apply sliceLast_length|].
  now apply Nat.ltb_ge in Hc.
Qed.

Lemma pushAll_history (es pre : list Entry) (w : Widget) :
  maxHistory w = 20%nat -> history w = sliceLast 20 pre ->
  maxHistory (pushAll es w) = 20%nat /\
  history (pushAll es w) = sliceLast 20 (pre ++ es).
Proof.
  revert pre w. induction es as [|e es IH]; intros pre w Hmax Hh.
  - rewrite app_nil_r. now split.
  - cbn [pushAll fold_left]. fold (pushAll es (_pushHistory (role e) (content e) (ts e) w)).
    replace (pre ++ e :: es)%list with ((pre ++ [e]) ++ es)%list
      by now rewrite <- app_assoc.
    apply IH.
    + now rewrite pushHistory_maxHistory.
    + rewrite pushHistory_history, Hmax, Hh.
      destruct e as [r c t]. cbn [role content ts].
      apply (sliceLast_snoc 20 pre (mkEntry r c t)). lia.
Qed.

Lemma pushHistory_bounded (r : string) (c : JSValue) (now : Z) (w : Widget) :
  maxHistory w = 20%nat -> historyBounded (_pushHistory r c now w).
Proof.
  intros Hmax. split; [now rewrite pushHistory_maxHistory|].
  rewrite <- Hmax. apply pushHistory_bound.
Qed.

Lemma step_historyBounded (w : Widget) (e : Event) :
  historyBounded w -> historyBounded (step w e).
Proof.
  intros [Hmax Hlen]. destruct e as [s|now|r now|file| | |]; cbn [step].
  - now split.
  - unfold sendMessage. cbv zeta. destruct (isTyping w) eqn:Ht; [now split|].
    destruct (_ && _); [now split|].
    set (w1 := if negb (Str.trim (input w) =? "") then _ else w).
    assert (H1 : historyBounded w1).
    { subst w1. destruct (negb _); [|now split]. now apply pushHistory_bounded. }
    destruct H1 as [Hm1 Hl1].
    unfold showTypingIndicator. cbn [setInput isTyping].
    destruct (isTyping w1); cbn [pendingImageFile setInput];
      destruct (pendingImageFile w1); (split; [exact Hm1|exact Hl1]).
  - unfold settle. destruct (inFlight w) as [|[m h|f h] rest]; [now split| |];
      destruct r as [|[|] st tx [data|]];
      try (apply pushHistory_bounded; exact Hmax);
      apply pushHistory_bounded; cbn [maxHistory]; destruct (truthy _); exact Hmax.
  - unfold attachImage. destruct (_ && _); now split.
  - now split.
  - split; [exact Hmax|cbn; lia].
  - now split.
Qed.

Lemma run_historyBounded (evs : list Event) : historyBounded (run evs).
Proof.
  unfold run. induction evs as [|e evs IH] using rev_ind.
  - split; [reflexivity|cbn; lia].
  - rewrite fold_left_app. cbn [fold_left]. now apply step_historyBounded.
Qed.

(** C3: after any sequence of calls of [_pushHistory] on a new widget the
    history is the last 20 of the pushed [{role, content, ts}] entries, in
    the order they were pushed, so it never holds more than 20; and the bound
    holds in every state the widget reaches, whatever else happens to it. *)
Theorem pushHistory_keeps_last_20 (es : list Entry) :
  history (pushAll es constructor) = sliceLast 20 es /\
  (exists dropped, es = (dropped ++ history (pushAll es constructor))%list) /\
  (length (history (pushAll es constructor)) <= 20)%nat /\
  (forall evs, (length (history (run evs)) <= 20)%nat).
Proof.
  assert (Hh : history (pushAll es constructor) = sliceLast 20 es).
  { apply (pushAll_history es [] constructor); reflexivity. }
  split; [exact Hh|]. rewrite Hh.
  split; [apply sliceLast_suffix|].
  split; [apply sliceLast_length|].
  intros evs. apply run_historyBounded.
Qed.

Lemma pushHistory_frame (r : string) (c : JSValue) (now : Z) (w : Widget) :
  isTyping (_pushHistory r c now w) = isTyping w /\
  inFlight (_pushHistory r c now w) = inFlight w /\
  pendingImageFile (_pushHistory r c now w) = pendingImageFile w.
Proof. unfold _pushHistory. cbv zeta. now destruct (_ <? _)%nat. Qed.

Lemma sendMessage_oneInFlight (now : Z) (w : Widget) :
  oneInFlight w -> oneInFlight (sendMessage now w).
Proof.
  intros Hinv. pose proof Hinv as [Hlen Hidle]. unfold sendMessage. cbv zeta.
  destruct (isTyping w) eqn:Ht; [exact Hinv|].
  destruct (_ && _); [exact Hinv|].
  set (w1 := if negb (Str.trim (input w) =? "") then _ else w).
  assert (H1 : isTyping w1 = false /\ inFlight w1 = []).
  { subst w1. destruct (negb _).
    - destruct (pushHistory_frame "user" (JString (Str.trim (input w))) now
                  (addBubble (TextBubble (JString (Str.trim (input w))) "user") w))
        as (-> & -> & _).
      cbn [addBubble isTyping inFlight]. auto.
    - auto. }
  destruct H1 as [Ht1 Hf1]. clearbody w1.
  destruct w1 as [op ty pend hist maxh inp msgs prev dis fl reloads].
  cbn [isTyping inFlight] in Ht1, Hf1. subst ty fl.
  unfold oneInFlight. destruct pend; cbn; (split; [lia|discriminate]).
Qed.

Lemma settle_oneInFlight (r : FetchResult) (now : Z) (w : Widget) :
  oneInFlight w -> oneInFlight (settle r now w).
Proof.
  intros Hinv. pose proof Hinv as [Hlen Hidle]. unfold settle.
  destruct (inFlight w) as [|req rest] eqn:Hf; [exact Hinv|].
  assert (Hrest : rest = []) by (destruct rest; [reflexivity|cbn in Hlen; lia]).
  subst rest.
  destruct req as [m h|f h]; destruct r as [|[|] st tx [data|]];
    match goal with
    | |- oneInFlight (_pushHistory ?r ?c ?n ?w') =>
        destruct (pushHistory_frame r c n w') as (Hty & Hfl & _);
        unfold oneInFlight; rewrite Hty, Hfl
    end;
    try (destruct (truthy _));
    cbn; split; auto; lia.
Qed.

Lemma step_oneInFlight (w : Widget) (e : Event) :
  oneInFlight w -> oneInFlight (step w e).
Proof.
  intros Hinv. destruct e as [s|now|r now|file| | |]; cbn [step].
  - exact Hinv.
  - now apply sendMessage_oneInFlight.
  - now apply settle_oneInFlight.
  - unfold attachImage. destruct (_ && _); exact Hinv.
  - exact Hinv.
  - exact Hinv.
  - exact Hinv.
Qed.

Lemma run_oneInFlight (evs : list Event) : oneInFlight (run evs).
Proof.
  unfold run. induction evs as [|e evs IH] using rev_ind.
  - split; [cbn; lia|reflexivity].
  - rewrite fold_left_app. cbn [fold_left]. now apply step_oneInFlight.
Qed.

(** C10: [sendMessage] does nothing when a send is in progress or when the
    trimmed input is empty and no image is attached: the widget, its history
    and its requests in flight are what they were; so in every state the
    widget reaches at most one of its requests is in flight. *)
Theorem sendMessage_noop_when_busy_or_empty :
  (forall now w,
     isTyping w = true \/
     (Str.trim (input w) = "" /\ pendingImageFile w = None) ->
     sendMessage now w = w) /\
  (forall evs, (length (inFlight (run evs)) <= 1)%nat).
Proof.
  split.
  - intros now w [Ht|[Hm Hp]]; unfold sendMessage; cbv zeta.
    + now rewrite Ht.
    + rewrite Hm, Hp. cbn. now destruct (isTyping w).
  - intros evs. apply run_oneInFlight.
Qed.

Lemma sendMessage_noop_when_busy_or_empty_witness :
  sendMessage 0 (setInput "   " constructor) = setInput "   " constructor /\
  (length (inFlight (run [Typed "oi"; Send 1; Typed "de novo"; Send 2])) <= 1)%nat.
Proof.
  split.
  - apply (proj1 sendMessage_noop_when_busy_or_empty).
    right. split; reflexivity.
  - apply (proj2 sendMessage_noop_when_busy_or_empty).
Defined.

End ChatFacts.

(** ** The product list *)

Section ProductFacts.
Import JS Number Products.
Context `{Builtins}.
Local Open Scope Z_scope.









End ProductFacts.

Section ProductExamples.
Import JS Number Products.




End ProductExamples.

(** ** The status poll *)

Section PollFacts.
Import JS QR WhatsApp.
Context `{Builtins}.

Lemma renderQr_frame (q : option string) (p : Page) :
  requests (renderQr q p) = requests p /\
  alerts (renderQr q p) = alerts p /\
  timers (renderQr q p) = timers p /\
  waPollInterval (renderQr q p) = waPollInterval p.
Proof.
  unfold renderQr. destruct q as [s|]; [|now cbn].
  destruct (s =? ""); [now cbn|]. now destruct (Str.startsWith s "data:image").
Qed.

Lemma renderQr_None (p : Page) : qr (renderQr None p) = QrHidden.
Proof. reflexivity. Qed.

Lemma clearPoll_frame (p : Page) :
  requests (clearPoll p) = requests p /\ alerts (clearPoll p) = alerts p.
Proof. unfold clearPoll. now destruct (waPollInterval p). Qed.

Lemma qrOfFallback_None (r : FetchResult) :
  qrOfFallback r = None <->
  (forall st tx j, r = Response true st tx (Some j) -> extractQrFrom j = None).
Proof.
  split.
  - intros Hn st tx j ->. exact Hn.
  - intros Hall. destruct r as [|[|] st tx [j|]]; try reflexivity.
    cbn. now apply (Hall st tx j).
Qed.

(** C4: the poll queries the fallback endpoints only when the status
    response held no QR string and the classified state is "waiting-qr";
    it queries [.../qr] first and [.../qrcode] only after the first was
    skipped; a fallback response is skipped exactly when it is not an OK
    response whose body yields a QR string; and when both are skipped the QR
    display is hidden and no alert is raised. *)
Theorem fallback_only_when_waiting (net : Endpoint -> FetchResult) (p : Page) :
  exists sent,
    requests (updateWhatsAppStatus net p) = (requests p ++ sent)%list /\
    (In QrEP sent \/ In QrcodeEP sent ->
     exists st tx data,
       net StatusEP = Response true st tx (Some data) /\
       qrFromStatus data = None /\
       friendlyState (rawStateOf data) = "waiting-qr") /\
    (sent = [] \/ sent = [StatusEP] \/
     (sent = [StatusEP; QrEP] /\ qrOfFallback (net QrEP) <> None) \/
     (sent = [StatusEP; QrEP; QrcodeEP] /\ qrOfFallback (net QrEP) = None)) /\
    (forall r, qrOfFallback r = None <->
       (forall st tx j, r = Response true st tx (Some j) -> extractQrFrom j = None)) /\
    (In QrEP sent ->
     qrOfFallback (net QrEP) = None -> qrOfFallback (net QrcodeEP) = None ->
     qr (updateWhatsAppStatus net p) = QrHidden /\
     alerts (updateWhatsAppStatus net p) = alerts p).
Proof.
  unfold updateWhatsAppStatus.
  destruct (negb (truthy (waCurrentInstance p)) || negb (truthy (waCurrentToken p)))
    eqn:Hguard.
  { exists []. rewrite app_nil_r. split; [reflexivity|].
    split; [intros [[]|[]]|]. split; [now left|].
    split; [apply qrOfFallback_None|]. intros []. }
  assert (Hquiet : forall q : Page,
            requests q = (requests p ++ [StatusEP])%list ->
            exists sent,
              requests q = (requests p ++ sent)%list /\
              (In QrEP sent \/ In QrcodeEP sent ->
               exists st tx data,
                 net StatusEP = Response true st tx (Some data) /\
                 qrFromStatus data = None /\
                 friendlyState (rawStateOf data) = "waiting-qr") /\
              (sent = [] \/ sent = [StatusEP] \/
               (sent = [StatusEP; QrEP] /\ qrOfFallback (net QrEP) <> None) \/
               (sent = [StatusEP; QrEP; QrcodeEP] /\ qrOfFallback (net QrEP) = None)) /\
              (forall r, qrOfFallback r = None <->
                 (forall st tx j, r = Response true st tx (Some j) ->
                                  extractQrFrom j = None)) /\
              (In QrEP sent ->
               qrOfFallback (net QrEP) = None -> qrOfFallback (net QrcodeEP) = None ->
               qr q = QrHidden /\ alerts q = alerts p)).
  { intros q Hq. exists [StatusEP]. split; [exact Hq|].
    split; [intros [[Hd|[]]|[Hd|[]]]; discriminate Hd|].
    split; [right; now left|].
    split; [apply qrOfFallback_None|].
    intros [Hd|[]]; discriminate Hd. }
  destruct (net StatusEP) as [|[|] st tx [data|]] eqn:Hnet;
    try (apply Hquiet; reflexivity).
  destruct (member data "status") eqn:Hmem; [|apply Hquiet; reflexivity].
  cbv zeta.
  destruct (isConnected (rawStateOf data)).
  { apply Hquiet. destruct (renderQr_frame None
      (clearPoll (setStatusText (JString (friendlyState (rawStateOf data)))
                    (send StatusEP p)))) as (-> & _).
    now destruct (clearPoll_frame
      (setStatusText (JString (friendlyState (rawStateOf data))) (send StatusEP p)))
      as (-> & _). }
  destruct (qrFromStatus data) as [s|] eqn:Hqs.
  { apply Hquiet. now destruct (renderQr_frame (Some s)
      (setStatusText (JString (friendlyState (rawStateOf data))) (send StatusEP p)))
      as (-> & _). }
  destruct (friendlyState (rawStateOf data) =? "waiting-qr") eqn:Hst.
  2:{ apply Hquiet. now destruct (renderQr_frame None
        (setStatusText (JString (friendlyState (rawStateOf data))) (send StatusEP p)))
        as (-> & _). }
  apply String.eqb_eq in Hst.
  unfold tryFetchQrFallback. cbn [setStatusText send waCurrentInstance waCurrentToken].
  rewrite Hguard. cbn [tryCandidates].
  destruct (qrOfFallback (net QrEP)) as [s1|] eqn:H1.
  - exists [StatusEP; QrEP].
    match goal with
    | |- context [renderQr ?q ?pg] =>
        destruct (renderQr_frame q pg) as (Hreq & Hal & _)
    end.
    rewrite Hreq. cbn [fold_left send requests setStatusText].
    split; [now rewrite <- app_assoc|].
    split; [intros _; exists st, tx, data; split; [reflexivity|split; [exact Hqs|exact Hst]]|].
    split; [right; right; left; split; [reflexivity|discriminate]|].
    split; [apply qrOfFallback_None|].
    intros _ Habs. discriminate Habs.
  - destruct (tryCandidates net [QrcodeEP]) as [found sent2] eqn:Htry.
    cbn [tryCandidates] in Htry.
    destruct (qrOfFallback (net QrcodeEP)) as [s2|] eqn:H2;
      injection Htry as <- <-.
    + exists [StatusEP; QrEP; QrcodeEP].
      match goal with
      | |- context [renderQr ?q ?pg] =>
          destruct (renderQr_frame q pg) as (Hreq & Hal & _)
      end.
      rewrite Hreq. cbn [fold_left send requests setStatusText].
      split; [now rewrite <- !app_assoc|].
      split; [intros _; exists st, tx, data; split; [reflexivity|split; [exact Hqs|exact Hst]]|].
      split; [right; right; right; split; reflexivity|].
      split; [apply qrOfFallback_None|].
      intros _ _ Habs. discriminate Habs.
    + exists [StatusEP; QrEP; QrcodeEP].
      match goal with
      | |- context [renderQr ?q ?pg] =>
          destruct (renderQr_frame q pg) as (Hreq & Hal & _)
      end.
      rewrite Hreq, Hal. cbn [fold_left send requests alerts setStatusText].
      split; [now rewrite <- !app_assoc|].
      split; [intros _; exists st, tx, data; split; [reflexivity|split; [exact Hqs|exact Hst]]|].
      split; [right; right; right; split; reflexivity|].
      split; [apply qrOfFallback_None|].
      intros _ _ _. split; reflexivity.
Qed.

(** *** The polling interval *)

Lemma clearPoll_owned (p : Page) : pollOwned p -> timers (clearPoll p) = [].
Proof.
  intros Hown. unfold clearPoll, pollOwned in *.
  destruct (waPollInterval p) as [h|] eqn:Hh.
  - cbn [clearInterval timers]. revert Hown.
    induction (timers p) as [|t ts IH]; intros Hown; [reflexivity|].
    cbn [List.filter]. assert (Ht : Some h = Some (fst t)) by (apply Hown; now left).
    injection Ht as ->. rewrite Pos.eqb_refl. cbn [negb].
    apply IH. intros t' Hin. apply Hown. now right.
  - destruct (timers p) as [|t ts]; [reflexivity|].
    specialize (Hown t (or_introl eq_refl)). discriminate Hown.
Qed.

Lemma updateWhatsAppStatus_timers (net : Endpoint -> FetchResult) (p : Page) :
  waPollInterval (updateWhatsAppStatus net p) = waPollInterval p /\
  nextHandle (updateWhatsAppStatus net p) = nextHandle p /\
  timers (updateWhatsAppStatus net p) =
  if truthy (waCurrentInstance p) && truthy (waCurrentToken p) && statusConnected net
  then timers (clearPoll p) else timers p.
Proof.
  unfold updateWhatsAppStatus, statusConnected.
  destruct (truthy (waCurrentInstance p)); [|now auto].
  destruct (truthy (waCurrentToken p)); [|now auto]. cbn [negb orb andb].
  destruct (net StatusEP) as [|[|] st tx [data|]]; try (cbn; now auto).
  destruct (member data "status"); [|cbn; now auto]. cbv zeta.
  destruct (isConnected (rawStateOf data)).
  { unfold renderQr, clearPoll. cbn [setStatusText send waPollInterval].
    destruct (waPollInterval p) eqn:Hw; cbn; rewrite ?Hw; auto. }
  destruct (qrFromStatus data) as [s|].
  { unfold renderQr. destruct (s =? ""); [cbn; now auto|].
    destruct (Str.startsWith s "data:image"); cbn; auto. }
  destruct (friendlyState (rawStateOf data) =? "waiting-qr");
    [|cbn; now auto].
  unfold tryFetchQrFallback.
  destruct (negb _ || negb _); [cbn; now auto|].
  destruct (tryCandidates net [QrEP; QrcodeEP]) as [found sent].
  assert (Hsend : forall q,
            waPollInterval (fold_left (fun p ep => send ep p) sent q) = waPollInterval q /\
            nextHandle (fold_left (fun p ep => send ep p) sent q) = nextHandle q /\
            timers (fold_left (fun p ep => send ep p) sent q) = timers q).
  { induction sent as [|ep sent IH]; intros q; [now auto|].
    cbn [fold_left]. destruct (IH (send ep q)) as (-> & -> & ->). now cbn. }
  match goal with
  | |- context [fold_left _ sent ?q] => destruct (Hsend q) as (Hw & Hn & Ht)
  end.
  unfold renderQr. destruct found as [s|];
    [destruct (s =? ""); [|destruct (Str.startsWith s "data:image")]|];
    cbn [setQr waPollInterval nextHandle timers]; rewrite Hw, Hn, Ht; cbn; auto.
Qed.

Lemma poll_cancelled_when_connected (net : Endpoint -> FetchResult) (p : Page) :
  pollOwned p ->
  truthy (waCurrentInstance p) = true -> truthy (waCurrentToken p) = true ->
  statusConnected net = true ->
  timers (updateWhatsAppStatus net p) = [].
Proof.
  intros Hown Hi Ht Hc.
  destruct (updateWhatsAppStatus_timers net p) as (_ & _ & ->).
  rewrite Hi, Ht, Hc. cbn [andb]. now apply clearPoll_owned.
Qed.

Lemma restore_schedules_poll (net : Endpoint -> FetchResult) (p : Page)
    (inst tok : string) :
  pollOwned p ->
  storage p !! "wa_instance" = Some inst -> storage p !! "wa_token" = Some tok ->
  inst <> "" -> tok <> "" ->
  timers (restoreWhatsAppInstance net p) =
  if statusConnected net then [] else [(nextHandle p, 4000%nat)].
Proof.
  intros Hown Hi Ht Hin Htn. unfold restoreWhatsAppInstance. rewrite Hi, Ht.
  pose proof Hin as Hin'. pose proof Htn as Htn'.
  apply String.eqb_neq in Hin, Htn. rewrite Hin, Htn. cbn [negb andb].
  set (q := startPoll 4000 (clearPoll (setInstance (JString inst) (JString tok) p))).
  assert (Htq : timers q = [(nextHandle p, 4000%nat)]).
  { subst q. cbn [startPoll timers].
    rewrite (clearPoll_owned (setInstance (JString inst) (JString tok) p)) by exact Hown.
    unfold clearPoll. cbn [setInstance waPollInterval].
    now destruct (waPollInterval p). }
  assert (Hoq : pollOwned q).
  { intros t Hint. rewrite Htq in Hint. destruct Hint as [<-|[]].
    subst q. cbn [startPoll waPollInterval fst]. f_equal.
    unfold clearPoll. cbn [setInstance waPollInterval].
    now destruct (waPollInterval p). }
  destruct (updateWhatsAppStatus_timers net q) as (_ & _ & ->).
  assert (Hti : truthy (waCurrentInstance q) = true).
  { subst q. unfold clearPoll. cbn [setInstance waPollInterval].
    destruct (waPollInterval p); cbn; now rewrite Hin. }
  assert (Htt : truthy (waCurrentToken q) = true).
  { subst q. unfold clearPoll. cbn [setInstance waPollInterval].
    destruct (waPollInterval p); cbn; now rewrite Htn. }
  rewrite Hti, Htt. cbn [andb].
  destruct (statusConnected net); [now apply clearPoll_owned|exact Htq].
Qed.

Lemma instanceCreated_schedules_poll (net : Endpoint -> FetchResult) (name : string)
    (data : JSValue) (p : Page) :
  pollOwned p ->
  exists h, timers (instanceCreated net name data p) = [(h, 4000%nat)] /\
            waPollInterval (instanceCreated net name data p) = Some h.
Proof.
  intros Hown. unfold instanceCreated. cbv zeta.
  match goal with
  | |- context [updateWhatsAppStatus net (clearPoll ?q)] => set (q0 := q)
  end.
  assert (Hq0 : pollOwned q0).
  { subst q0. intros t Hin. cbn [setStorage timers waPollInterval] in *.
    match type of Hin with
    | context [renderQr ?x ?y] => destruct (renderQr_frame x y) as (_ & _ & Ht & Hw)
    end.
    rewrite Ht in Hin. rewrite Hw. now apply Hown. }
  exists (nextHandle (updateWhatsAppStatus net (clearPoll q0))).
  cbn [startPoll timers waPollInterval]. split; [|reflexivity].
  assert (Hc : timers (clearPoll q0) = []) by now apply clearPoll_owned.
  destruct (updateWhatsAppStatus_timers net (clearPoll q0)) as (_ & _ & ->).
  destruct (_ && _ && _); [|now rewrite Hc].
  unfold clearPoll at 1. destruct (waPollInterval (clearPoll q0));
    [cbn [clearInterval timers]|]; now rewrite Hc.
Qed.

Lemma pollOwned_nil (p : Page) : timers p = [] -> pollOwned p.
Proof. intros Ht t Hin. rewrite Ht in Hin. destruct Hin. Qed.

Lemma pollOwned_update (net : Endpoint -> FetchResult) (p : Page) :
  pollOwned p -> pollOwned (updateWhatsAppStatus net p).
Proof.
  intros Hown. destruct (updateWhatsAppStatus_timers net p) as (Hw & _ & Ht).
  destruct (_ && _ && _).
  - apply pollOwned_nil. rewrite Ht. now apply clearPoll_owned.
  - intros t Hin. rewrite Ht in Hin. rewrite Hw. now apply Hown.
Qed.

(** The page keeps to one interval: every operation of the panel leaves the
    running interval, if any, the one [waPollInterval] names. *)
Lemma pollOwned_preserved (net : Endpoint -> FetchResult) (name : string)
    (hidden : bool) (p : Page) :
  pollOwned p ->
  pollOwned (updateWhatsAppStatus net p) /\
  pollOwned (createWhatsAppInstance net name p) /\
  pollOwned (restoreWhatsAppInstance net p) /\
  pollOwned (visibilityChange hidden p).
Proof.
  intros Hown. split; [now apply pollOwned_update|]. split; [|split].
  - unfold createWhatsAppInstance. cbv zeta.
    destruct (Str.trim name =? ""); [exact Hown|].
    destruct (net CreateEP) as [|[|] st tx [data|]]; try exact Hown.
    destruct (member data "instanceId"); [|exact Hown].
    destruct (instanceCreated_schedules_poll net (Str.trim name) data (send CreateEP p))
      as (h & Ht & Hw); [exact Hown|].
    intros t Hin. rewrite Ht in Hin. destruct Hin as [<-|[]]. exact Hw.
  - unfold restoreWhatsAppInstance.
    destruct (storage p !! "wa_instance") as [inst|]; [|exact Hown].
    destruct (storage p !! "wa_token") as [tok|]; [|exact Hown].
    destruct (negb (inst =? "") && negb (tok =? "")); [|exact Hown].
    apply pollOwned_update.
    assert (Hc : timers (clearPoll (setInstance (JString inst) (JString tok) p)) = [])
      by (apply clearPoll_owned; exact Hown).
    intros t Hin. cbn [startPoll timers waPollInterval] in *.
    rewrite Hc in Hin. destruct Hin as [<-|[]]. reflexivity.
  - unfold visibilityChange. destruct hidden.
    + destruct (waPollInterval p) as [h|] eqn:Hh; [|exact Hown].
      apply pollOwned_nil. cbn [forgetPoll timers].
      pose proof (clearPoll_owned p Hown) as Hc. unfold clearPoll in Hc.
      now rewrite Hh in Hc.
    + destruct (truthy (waCurrentInstance p) && truthy (waCurrentToken p)); [|exact Hown].
      destruct (waPollInterval p) eqn:Hh; [exact Hown|]. cbn [andb].
      intros t Hin. cbn [startPoll timers waPollInterval] in *.
      unfold pollOwned in Hown. destruct (timers p) as [|t0 ts].
      * destruct Hin as [<-|[]]. reflexivity.
      * specialize (Hown t0 (or_introl eq_refl)). congruence.
Qed.

(** The awaited first status of [createWhatsAppInstance] comes before the
    interval exists: on a backend that reports the new instance connected at
    once the interval is started all the same, and its first tick cancels
    it. *)
Lemma createWhatsAppInstance_polls_when_connected :
  let created := createWhatsAppInstance connectedNet "loja" (load ∅) in
  statusText created = JString "connected" /\
  timers created = [(1%positive, 4000%nat)] /\
  timers (updateWhatsAppStatus connectedNet created) = [].
Proof. cbv zeta. repeat split; reflexivity. Qed.

End PollFacts.

Section PollExamples.
Import JS QR WhatsApp.

Lemma fallback_only_when_waiting_witness :
  qr (@updateWhatsAppStatus sampleHost waitingNet pairingPage) = QrHidden /\
  alerts (@updateWhatsAppStatus sampleHost waitingNet pairingPage) = [].
Proof.
  destruct (@fallback_only_when_waiting sampleHost waitingNet pairingPage)
    as (sent & Hreq & _ & _ & _ & Hboth).
  change (requests (@updateWhatsAppStatus sampleHost waitingNet pairingPage))
    with ([] ++ [StatusEP; QrEP; QrcodeEP])%list in Hreq.
  apply app_inv_head in Hreq. subst sent.
  apply Hboth; [right; now left|reflexivity|reflexivity].
Defined.


End PollExamples.

(** ** The life of the WhatsApp panel *)

Section PanelFacts.
Import JS QR WhatsApp Panel.
Context `{Builtins}.

Lemma sends_frame (sent : list Endpoint) (q : Page) :
  let q' := fold_left (fun p ep => send ep p) sent q in
  waCurrentInstance q' = waCurrentInstance q /\
  waCurrentToken q' = waCurrentToken q /\
  storage q' = storage q /\
  statusText q' = statusText q /\
  qr q' = qr q /\
  alerts q' = alerts q /\
  consoleLines q' = consoleLines q.
Proof.
  revert q. induction sent as [|ep sent IH]; intros q; cbv zeta; [repeat split|].
  cbn [fold_left]. specialize (IH (send ep q)). cbv zeta in IH.
  destruct IH as (-> & -> & -> & -> & -> & -> & ->). repeat split.
Qed.

Lemma renderQr_keeps (q : option string) (p : Page) :
  waCurrentInstance (renderQr q p) = waCurrentInstance p /\
  waCurrentToken (renderQr q p) = waCurrentToken p /\
  storage (renderQr q p) = storage p /\
  statusText (renderQr q p) = statusText p /\
  consoleLines (renderQr q p) = consoleLines p /\
  nextHandle (renderQr q p) = nextHandle p.
Proof.
  unfold renderQr. destruct q as [s|]; [|repeat split].
  destruct (s =? ""); [repeat split|].
  destruct (Str.startsWith s "data:image"); repeat split.
Qed.

(** The poll never touches the instance, the token or the storage. *)
Lemma updateWhatsAppStatus_keeps (net : Endpoint -> FetchResult) (p : Page) :
  waCurrentInstance (updateWhatsAppStatus net p) = waCurrentInstance p /\
  waCurrentToken (updateWhatsAppStatus net p) = waCurrentToken p /\
  storage (updateWhatsAppStatus net p) = storage p /\
  alerts (updateWhatsAppStatus net p) = alerts p.
Proof.
  unfold updateWhatsAppStatus.
  destruct (negb (truthy (waCurrentInstance p)) || negb (truthy (waCurrentToken p)));
    [now repeat split|].
  destruct (net StatusEP) as [|[|] st tx [data|]]; try (now repeat split).
  destruct (member data "status"); [|now repeat split]. cbv zeta.
  destruct (isConnected (rawStateOf data)).
  { unfold renderQr, clearPoll. cbn [setStatusText send waPollInterval].
    destruct (waPollInterval p); now repeat split. }
  destruct (qrFromStatus data) as [s|].
  { match goal with
    | |- context [renderQr ?x ?y] =>
        destruct (renderQr_keeps x y) as (Ha & Hb & Hc & _);
        destruct (renderQr_frame x y) as (_ & Hd & _);
        rewrite Ha, Hb, Hc, Hd
    end. now repeat split. }
  destruct (friendlyState (rawStateOf data) =? "waiting-qr").
  2:{ now repeat split. }
  unfold tryFetchQrFallback.
  destruct (negb _ || negb _); [now repeat split|].
  destruct (tryCandidates net [QrEP; QrcodeEP]) as [found sent].
  match goal with
  | |- context [renderQr ?x ?y] =>
      destruct (renderQr_keeps x y) as (-> & -> & -> & _);
      destruct (renderQr_frame x y) as (_ & -> & _)
  end.
  match goal with
  | |- context [fold_left _ sent ?q] =>
      pose proof (sends_frame sent q) as Hs; cbv zeta in Hs;
      destruct Hs as (Ha' & Hb' & Hc' & _ & _ & Hd' & _);
      rewrite Ha', Hb', Hc', Hd'
  end.
  now repeat split.
Qed.


Lemma assoc_in (k : string) (fs : list (string * JSValue)) :
  assoc k fs = JUndefined \/ In (assoc k fs) (map snd fs).
Proof.
  induction fs as [|[k' v] fs IH]; [now left|]. cbn [assoc map snd].
  destruct (k =? k')%string; [right; now left|].
  destruct IH as [IH|IH]; [now left|right; now right].
Qed.

Lemma extractQrFrom_property_None (data : JSValue) (k : string) :
  extractQrFrom data = None ->
  extractQrFrom (JS.or (get data k) (JObject [])) = None.
Proof.
  intros Hnone. unfold JS.or. destruct (truthy (get data k)) eqn:Htr; [|reflexivity].
  destruct data as [| | | | | |fs]; try discriminate Htr.
  cbn [get] in *. destruct (assoc_in k fs) as [Hu|Hin].
  - rewrite Hu in Htr. discriminate Htr.
  - apply extractQrFrom_None. intros sub Hw.
    apply (proj1 (extractQrFrom_None (JObject fs)) Hnone).
    apply Within_child with (assoc k fs); [exact Hin|exact Hw].
Qed.

(** X3.  The search of the whole status body already covers [data.connect]
    and [data.session]: the two further searches the poll makes there never
    find a QR string the first one missed. *)
Theorem qrFromStatus_is_one_search (data : JSValue) :
  qrFromStatus data = extractQrFrom data.
Proof.
  unfold qrFromStatus, orElse. destruct (extractQrFrom data) eqn:Hd; [reflexivity|].
  rewrite (extractQrFrom_property_None data "connect" Hd).
  apply (extractQrFrom_property_None data "session" Hd).
Qed.

Lemma hidden_clears (p : Page) :
  pollOwned p ->
  timers (visibilityChange true p) = [] /\
  waPollInterval (visibilityChange true p) = None /\
  nextHandle (visibilityChange true p) = nextHandle p /\
  waCurrentInstance (visibilityChange true p) = waCurrentInstance p /\
  waCurrentToken (visibilityChange true p) = waCurrentToken p.
Proof.
  intros Hown. unfold visibilityChange. pose proof (clearPoll_owned p Hown) as Hcl.
  unfold clearPoll in Hcl. destruct (waPollInterval p) as [h|] eqn:Hh.
  - cbn [forgetPoll clearInterval timers waPollInterval nextHandle
         waCurrentInstance waCurrentToken] in *. now rewrite Hcl.
  - now repeat split.
Qed.

(** X4.  Hiding the document suspends the polling: no interval runs and the
    page holds none; showing it again starts exactly one interval of 4000 ms
    when an instance and a token are set, and none otherwise. *)
Theorem hidden_document_suspends_polling (p : Page) :
  pollOwned p ->
  timers (visibilityChange true p) = [] /\
  waPollInterval (visibilityChange true p) = None /\
  timers (visibilityChange false (visibilityChange true p)) =
  if truthy (waCurrentInstance p) && truthy (waCurrentToken p)
  then [(nextHandle p, 4000%nat)] else [].
Proof.
  intros Hown. pose proof (hidden_clears p Hown) as Hc.
  destruct Hc as (Ht & Hw & Hn & Hi & Hk).
  split; [exact Ht|]. split; [exact Hw|].
  unfold visibilityChange at 1. rewrite Hi, Hk, Hw.
  destruct (truthy (waCurrentInstance p) && truthy (waCurrentToken p)).
  - cbn [andb startPoll timers]. now rewrite Ht, Hn.
  - exact Ht.
Qed.

(** X6.  A creation that fails (a blank name, a rejected request, a status
    that is not OK, a body that is not JSON or is [null]) raises exactly one
    alert and leaves the instance, the token, the storage, the status text,
    the QR display and the interval as they were; with a blank name no
    request is sent at all. *)
Theorem failed_creation_keeps_panel (net : Endpoint -> FetchResult) (name : string)
    (p : Page) :
  Str.trim name = "" \/ net CreateEP = NetworkError \/
  (exists st tx body, net CreateEP = Response false st tx body) \/
  (exists st tx, net CreateEP = Response true st tx None) \/
  (exists st tx, net CreateEP = Response true st tx (Some JNull)) ->
  let p' := createWhatsAppInstance net name p in
  (exists a, alerts p' = (alerts p ++ [a])%list) /\
  waCurrentInstance p' = waCurrentInstance p /\
  waCurrentToken p' = waCurrentToken p /\
  storage p' = storage p /\
  statusText p' = statusText p /\
  qr p' = qr p /\
  timers p' = timers p /\
  waPollInterval p' = waPollInterval p /\
  (Str.trim name = "" -> requests p' = requests p) /\
  (Str.trim name <> "" -> requests p' = (requests p ++ [CreateEP])%list).
Proof.
  intros Hfail. cbv zeta. unfold createWhatsAppInstance. cbv zeta.
  destruct (Str.trim name =? "")%string eqn:Hn.
  { apply String.eqb_eq in Hn. cbn [alert alerts waCurrentInstance waCurrentToken
      storage statusText qr timers waPollInterval requests].
    repeat split; eauto. intros Habs. now destruct Habs. }
  apply String.eqb_neq in Hn.
  destruct Hfail as [Hb|[-> |[(st & tx & body & ->)|[(st & tx & ->)|(st & tx & ->)]]]];
    [now destruct Hn|..];
    cbn [member alert logLine send alerts waCurrentInstance waCurrentToken
         storage statusText qr timers waPollInterval requests];
    repeat split; eauto; intros Habs; now destruct Hn.
Qed.

(** X7.  An instance that was created is found again after a reload: when
    the creation response gives the instance and its token as non-empty
    strings, both are written to local storage, and a fresh page over that
    storage restores the same instance and token (and starts its own poll),
    whatever the backend answers then. *)
Theorem created_instance_is_restored (net net' : Endpoint -> FetchResult)
    (name : string) (p : Page) (st : nat) (tx : string) (data : JSValue)
    (inst tok : string) :
  Str.trim name <> "" ->
  net CreateEP = Response true st tx (Some data) ->
  JS.or (get data "instanceId")
    (JS.or (get data "instance") (JS.or (get data "name") (JString (Str.trim name))))
  = JString inst ->
  get data "token" = JString tok -> tok <> "" ->
  let created := createWhatsAppInstance net name p in
  let reloaded := restoreWhatsAppInstance net' (load (storage created)) in
  waCurrentInstance created = JString inst /\
  waCurrentToken created = JString tok /\
  storage created !! "wa_instance" = Some inst /\
  storage created !! "wa_token" = Some tok /\
  waCurrentInstance reloaded = JString inst /\
  waCurrentToken reloaded = JString tok.
Proof.
  intros Hname Hnet Hinst Htok Hne. cbv zeta.
  assert (Hine : inst <> "").
  { intros ->. unfold JS.or in Hinst.
    repeat match type of Hinst with
           | (if truthy ?v then _ else _) = _ =>
               destruct (truthy v) eqn:?; [rewrite Hinst in *; discriminate|]
           end.
    injection Hinst as Hi. congruence. }
  assert (Hcreated :
    waCurrentInstance (createWhatsAppInstance net name p) = JString inst /\
    waCurrentToken (createWhatsAppInstance net name p) = JString tok /\
    storage (createWhatsAppInstance net name p) =
    <["wa_token" := tok]> (<["wa_instance" := inst]> (storage p))).
  { unfold createWhatsAppInstance. cbv zeta.
    apply String.eqb_neq in Hname. rewrite Hname, Hnet.
    destruct (member data "instanceId") eqn:Hm;
      [|destruct data; try discriminate Hm; discriminate Htok].
    unfold instanceCreated. cbv zeta. rewrite Hinst, Htok.
    cbn [startPoll waCurrentInstance waCurrentToken storage].
    match goal with
    | |- context [updateWhatsAppStatus net ?q] =>
        destruct (updateWhatsAppStatus_keeps net q) as (-> & -> & -> & _)
    end.
    unfold clearPoll. cbn [setStorage waPollInterval].
    match goal with
    | |- context [renderQr ?x ?y] =>
        destruct (renderQr_keeps x y) as (Ha & Hb & Hc & _);
        destruct (renderQr_frame x y) as (_ & _ & _ & Hd)
    end.
    rewrite Hd. cbn [setStatusText setInstance send waPollInterval].
    destruct (waPollInterval p);
      cbn [clearInterval setStorage waCurrentInstance waCurrentToken storage];
      rewrite Ha, Hb, Hc;
      cbn [setStatusText setInstance send waCurrentInstance waCurrentToken storage];
      unfold Session.persistWhatsAppInstance, Session.setItem;
      cbn [truthy Number.toStr];
      apply String.eqb_neq in Hine, Hne; rewrite ?Hine, ?Hne; cbn [negb];
      now repeat split. }
  destruct Hcreated as (Hci & Hct & Hcs).
  split; [exact Hci|]. split; [exact Hct|]. rewrite Hcs.
  split; [now rewrite lookup_insert_ne, lookup_insert_eq|].
  split; [now rewrite lookup_insert_eq|].
  unfold restoreWhatsAppInstance. cbn [load storage].
  rewrite lookup_insert_ne, !lookup_insert_eq by discriminate.
  apply String.eqb_neq in Hine, Hne. rewrite Hine, Hne. cbn [negb andb].
  match goal with
  | |- context [updateWhatsAppStatus net' ?q] =>
      destruct (updateWhatsAppStatus_keeps net' q) as (-> & -> & _)
  end.
  unfold clearPoll. now cbn.
Qed.

End PanelFacts.

Section PanelExamples.
Import JS QR WhatsApp Panel.


Lemma hidden_document_suspends_polling_witness :
  timers (visibilityChange true pairingPage) = [] /\
  timers (visibilityChange false (visibilityChange true pairingPage)) =
  [(2%positive, 4000%nat)].
Proof.
  assert (Hpair : pollOwned pairingPage) by (intros t [<-|[]]; reflexivity).
  destruct (hidden_document_suspends_polling pairingPage Hpair) as (Hh & _ & Hs).
  split; [exact Hh|exact Hs].
Defined.

Lemma failed_creation_keeps_panel_witness :
  storage (@createWhatsAppInstance sampleHost downNet "   " pairingPage) = ∅ /\
  requests (@createWhatsAppInstance sampleHost downNet "   " pairingPage) = [] /\
  timers (@createWhatsAppInstance sampleHost downNet "loja" pairingPage) =
  [(1%positive, 4000%nat)] /\
  requests (@createWhatsAppInstance sampleHost downNet "loja" pairingPage) = [CreateEP].
Proof.
  destruct (@failed_creation_keeps_panel sampleHost downNet "   " pairingPage
              (or_introl eq_refl))
    as (_ & _ & _ & Hst & _ & _ & _ & _ & Hreq & _).
  destruct (@failed_creation_keeps_panel sampleHost downNet "loja" pairingPage
              (or_intror (or_introl eq_refl)))
    as (_ & _ & _ & _ & _ & _ & Htm & _ & _ & Hreq').
  split; [exact Hst|]. split; [now apply Hreq|]. split; [exact Htm|].
  apply Hreq'. discriminate.
Defined.

Lemma created_instance_is_restored_witness :
  waCurrentInstance
    (@restoreWhatsAppInstance sampleHost downNet
       (load (storage (@createWhatsAppInstance sampleHost connectedNet "loja" (load ∅)))))
  = JString "loja" /\
  waCurrentToken
    (@restoreWhatsAppInstance sampleHost downNet
       (load (storage (@createWhatsAppInstance sampleHost connectedNet "loja" (load ∅)))))
  = JString "tk-1".
Proof.
  assert (Hname : Str.trim "loja" <> "") by discriminate.
  assert (Htok : "tk-1" <> "") by discriminate.
  destruct (@created_instance_is_restored sampleHost connectedNet downNet "loja" (load ∅)
              200 "" (JObject [("instance", JString "loja"); ("token", JString "tk-1")])
              "loja" "tk-1" Hname eq_refl eq_refl eq_refl Htok)
    as (_ & _ & _ & _ & Hi & Ht).
  split; [exact Hi|exact Ht].
Defined.

End PanelExamples.

(** ** The WhatsApp panel between its awaits *)

Section LiveFacts.
Import JS QR WhatsApp.
Context `{Builtins}.

(** [renderQr] writes to the QR area and, when drawing fails, to the
    console; it touches nothing else. *)
Lemma live_renderQr_frame (lib : Live.Library) (q : option string) (p : Page) :
  timers (Live.renderQr lib q p) = timers p /\
  waPollInterval (Live.renderQr lib q p) = waPollInterval p /\
  nextHandle (Live.renderQr lib q p) = nextHandle p /\
  waCurrentInstance (Live.renderQr lib q p) = waCurrentInstance p /\
  waCurrentToken (Live.renderQr lib q p) = waCurrentToken p /\
  storage (Live.renderQr lib q p) = storage p /\
  statusText (Live.renderQr lib q p) = statusText p /\
  requests (Live.renderQr lib q p) = requests p /\
  alerts (Live.renderQr lib q p) = alerts p.
Proof.
  unfold Live.renderQr, Live.drawQrInto. destruct q as [s|]; [|now repeat split].
  destruct (s =? ""); [now repeat split|].
  destruct (Str.startsWith s "data:image"); [now repeat split|].
  destruct lib as [|encodes]; [now repeat split|].
  destruct (encodes s); now repeat split.
Qed.

Lemma live_renderQr_shown (lib : Live.Library) (s : string) (p : Page) :
  s <> "" ->
  qr (Live.renderQr lib (Some s) p) = Live.shown lib s /\
  consoleLines (Live.renderQr lib (Some s) p) =
  if negb (Str.startsWith s "data:image") && Live.drawFails lib s
  then S (consoleLines p) else consoleLines p.
Proof.
  intros Hs. unfold Live.renderQr, Live.shown, Live.drawQrInto, Live.drawFails.
  apply String.eqb_neq in Hs. rewrite Hs.
  destruct (Str.startsWith s "data:image"); [now split|].
  destruct lib as [|encodes]; [now split|].
  destruct (encodes s); now split.
Qed.

(** Without the library, or for texts it can encode, [renderQr] is the
    [renderQr] of the handlers that run to their end. *)
Lemma live_renderQr_plain (lib : Live.Library) (q : option string) (p : Page) :
  (forall s, q = Some s -> Live.drawFails lib s = false) ->
  Live.renderQr lib q p = renderQr q p.
Proof.
  intros Hdraw. unfold Live.renderQr, renderQr, Live.drawQrInto.
  destruct q as [s|]; [|reflexivity].
  destruct (s =? ""); [reflexivity|].
  destruct (Str.startsWith s "data:image"); [reflexivity|].
  specialize (Hdraw s eq_refl). destruct lib as [|encodes]; [reflexivity|].
  cbn [Live.drawFails] in Hdraw. apply negb_false_iff in Hdraw. now rewrite Hdraw.
Qed.

Lemma finish_page (k : Live.After) (w : Live.World) :
  Live.pending (Live.finish k w) = Live.pending w /\
  timers (Live.page (Live.finish k w)) =
  (timers (Live.page w) ++
   match k with
   | Live.SetInterval => [(nextHandle (Live.page w), 4000%nat)]
   | Live.Nothing => []
   end)%list /\
  waPollInterval (Live.page (Live.finish k w)) =
  match k with
  | Live.SetInterval => Some (nextHandle (Live.page w))
  | Live.Nothing => waPollInterval (Live.page w)
  end /\
  qr (Live.page (Live.finish k w)) = qr (Live.page w) /\
  consoleLines (Live.page (Live.finish k w)) = consoleLines (Live.page w) /\
  statusText (Live.page (Live.finish k w)) = statusText (Live.page w) /\
  requests (Live.page (Live.finish k w)) = requests (Live.page w) /\
  waCurrentInstance (Live.page (Live.finish k w)) = waCurrentInstance (Live.page w) /\
  waCurrentToken (Live.page (Live.finish k w)) = waCurrentToken (Live.page w).
Proof.
  destruct k; cbn [Live.finish Live.onPage Live.page Live.pending startPoll timers
                   waPollInterval qr consoleLines statusText requests
                   waCurrentInstance waCurrentToken];
    rewrite ?app_nil_r; repeat split.
Qed.

(** X2.  When a status answer that is not connected holds a QR string, the
    poll shows it, whatever else was handled while the poll waited: as the
    image when it is a [data:image] address, in the drawer otherwise; when
    the QRCode library is loaded and cannot encode the text, the drawer is
    hidden instead and one console line is written.  The classified state
    is shown, no further request is sent, the poll is over, and no interval
    is touched but the one a creation that awaited the poll then sets. *)
Theorem qr_in_status_is_shown (lib : Live.Library) (w : Live.World) (i : nat)
    (k : Live.After) (st : nat) (tx : string) (data : JSValue) (s : string) :
  Live.pending w !! i = Some (Live.StatusAwaits k) ->
  isConnected (rawStateOf data) = false ->
  qrFromStatus data = Some s ->
  let w' := Live.step lib w (Live.Settle i (Response true st tx (Some data))) in
  qr (Live.page w') = Live.shown lib s /\
  consoleLines (Live.page w') =
    (if negb (Str.startsWith s "data:image") && Live.drawFails lib s
     then S (consoleLines (Live.page w)) else consoleLines (Live.page w)) /\
  statusText (Live.page w') = JString (friendlyState (rawStateOf data)) /\
  requests (Live.page w') = requests (Live.page w) /\
  Live.pending w' = delete i (Live.pending w) /\
  timers (Live.page w') =
    (timers (Live.page w) ++
     match k with
     | Live.SetInterval => [(nextHandle (Live.page w), 4000%nat)]
     | Live.Nothing => []
     end)%list.
Proof.
  intros Hi Hnc Hqr. cbv zeta.
  assert (Hlen : (5 < String.length s)%nat).
  { unfold qrFromStatus, orElse in Hqr.
    destruct (extractQrFrom data) as [s0|] eqn:H0.
    - injection Hqr as <-. now destruct (extractQrFrom_sound _ _ H0) as (? & ? & ? & ? & ? & ?).
    - destruct (extractQrFrom (JS.or (get data "connect") (JObject []))) as [s1|] eqn:H1.
      + injection Hqr as <-. now destruct (extractQrFrom_sound _ _ H1) as (? & ? & ? & ? & ? & ?).
      + now destruct (extractQrFrom_sound _ _ Hqr) as (? & ? & ? & ? & ? & ?). }
  assert (Hne : s <> "") by (intros ->; cbn in Hlen; lia).
  assert (Hmem : exists j, member data "status" = Some j).
  { destruct data; cbn [member]; eauto; discriminate Hqr. }
  destruct Hmem as [j Hmem].
  cbn [Live.step]. rewrite Hi. cbv zeta. unfold Live.statusSettled.
  rewrite Hmem. cbv zeta. rewrite Hnc, Hqr.
  match goal with
  | |- context [Live.finish k ?x] => destruct (finish_page k x) as
      (Hp & Ht & _ & Hq & Hc & Hs & Hr & _)
  end.
  rewrite Hp, Ht, Hq, Hc, Hs, Hr.
  cbn [Live.onPage Live.page Live.pending].
  match goal with
  | |- context [Live.renderQr lib (Some s) ?x] =>
      destruct (live_renderQr_frame lib (Some s) x) as
        (Ht' & _ & Hn' & _ & _ & _ & Hs' & Hr' & _);
      destruct (live_renderQr_shown lib s x Hne) as (Hq' & Hc')
  end.
  rewrite Ht', Hn', Hs', Hr', Hq', Hc'.
  cbn [setStatusText statusText requests timers nextHandle consoleLines].
  repeat split.
Qed.

Ltac live_frames :=
  repeat match goal with
         | |- context [Live.renderQr ?l ?q ?p] =>
             let Ha := fresh in let Hb := fresh in let Hc := fresh in
             let Hd := fresh in let He := fresh in
             destruct (live_renderQr_frame l q p) as (Ha & Hb & Hc & Hd & He & _);
             rewrite ?Ha, ?Hb, ?Hc, ?Hd, ?He; clear Ha Hb Hc Hd He
         end.

Lemma clearPoll_setStatusText (s : JSValue) (p : Page) :
  timers (clearPoll (setStatusText s p)) = timers (clearPoll p) /\
  nextHandle (clearPoll (setStatusText s p)) = nextHandle p /\
  waPollInterval (clearPoll (setStatusText s p)) = waPollInterval p /\
  waCurrentInstance (clearPoll (setStatusText s p)) = waCurrentInstance p /\
  waCurrentToken (clearPoll (setStatusText s p)) = waCurrentToken p.
Proof.
  unfold clearPoll. cbn [setStatusText waPollInterval].
  destruct (waPollInterval p) eqn:Hw; cbn; rewrite ?Hw; repeat split.
Qed.

Lemma polled_refl (p : Page) : Live.polled p p.
Proof. unfold Live.polled. repeat split. now left. Qed.

Lemma statusSettled_progress (lib : Live.Library) (r : FetchResult) (k : Live.After)
    (w : Live.World) :
  exists q, Live.polled (Live.page w) q /\
    (Live.statusSettled lib r k w = Live.finish k (Live.mkWorld q (Live.pending w)) \/
     Live.statusSettled lib r k w =
     Live.mkWorld q (Live.pending w ++ [Live.QrAwaits k])%list).
Proof.
  assert (Hlog : exists q, Live.polled (Live.page w) q /\
    (Live.finish k (Live.onPage logLine w) = Live.finish k (Live.mkWorld q (Live.pending w))
     \/ Live.finish k (Live.onPage logLine w) =
        Live.mkWorld q (Live.pending w ++ [Live.QrAwaits k])%list)).
  { exists (logLine (Live.page w)). split; [|now left].
    unfold Live.polled. cbn. repeat split. now left. }
  unfold Live.statusSettled.
  destruct r as [|[|] st tx [data|]]; try exact Hlog.
  destruct (member data "status"); [|exact Hlog]. cbv zeta.
  destruct (isConnected (rawStateOf data)).
  { eexists. split; [|left; reflexivity].
    unfold Live.polled. cbn [Live.onPage Live.page]. live_frames.
    destruct (clearPoll_setStatusText (JString (friendlyState (rawStateOf data)))
                (Live.page w)) as (Ha & Hb & Hc & Hd & He).
    rewrite Ha, Hb, Hc, Hd, He. repeat split. now right. }
  destruct (qrFromStatus data) as [s|].
  { eexists. split; [|left; reflexivity].
    unfold Live.polled. cbn [Live.onPage Live.page]. live_frames.
    cbn. repeat split. now left. }
  destruct (friendlyState (rawStateOf data) =? "waiting-qr").
  - unfold Live.fallbackStarted. cbn [Live.onPage Live.page setStatusText
      waCurrentInstance waCurrentToken].
    destruct (negb (truthy (waCurrentInstance (Live.page w)))
              || negb (truthy (waCurrentToken (Live.page w)))).
    + eexists. split; [|left; reflexivity].
      unfold Live.polled. cbn [Live.onPage Live.page]. live_frames.
      cbn. repeat split. now left.
    + eexists. split; [|right; reflexivity].
      unfold Live.polled. cbn. repeat split. now left.
  - eexists. split; [|left; reflexivity].
    unfold Live.polled. cbn [Live.onPage Live.page]. live_frames.
    cbn. repeat split. now left.
Qed.

Lemma qrSettled_progress (lib : Live.Library) (r : FetchResult) (k : Live.After)
    (w : Live.World) :
  exists q, Live.polled (Live.page w) q /\
    (Live.qrSettled lib r k w = Live.finish k (Live.mkWorld q (Live.pending w)) \/
     Live.qrSettled lib r k w =
     Live.mkWorld q (Live.pending w ++ [Live.QrcodeAwaits k])%list).
Proof.
  unfold Live.qrSettled. destruct (qrOfFallback r) as [s|].
  - eexists. split; [|left; reflexivity].
    unfold Live.polled. cbn [Live.onPage Live.page]. live_frames.
    repeat split. now left.
  - eexists. split; [|right; reflexivity].
    unfold Live.polled. cbn. repeat split. now left.
Qed.

Lemma qrcodeSettled_progress (lib : Live.Library) (r : FetchResult) (k : Live.After)
    (w : Live.World) :
  exists q, Live.polled (Live.page w) q /\
    Live.qrcodeSettled lib r k w = Live.finish k (Live.mkWorld q (Live.pending w)).
Proof.
  unfold Live.qrcodeSettled. eexists. split; [|reflexivity].
  unfold Live.polled. cbn [Live.onPage Live.page]. live_frames.
  repeat split. now left.
Qed.

Lemma updateWhatsAppStatus_progress (k : Live.After) (w : Live.World) :
  Live.updateWhatsAppStatus k w = Live.finish k w \/
  Live.updateWhatsAppStatus k w =
  Live.mkWorld (send StatusEP (Live.page w)) (Live.pending w ++ [Live.StatusAwaits k])%list.
Proof.
  unfold Live.updateWhatsAppStatus. destruct (negb _ || negb _); [now left|now right].
Qed.


Lemma delete_filter_count {A : Type} (f : A -> bool) (l : list A) (i : nat) (t : A) :
  l !! i = Some t ->
  length (List.filter f l) =
  (length (List.filter f (delete i l)) + (if f t then 1 else 0))%nat.
Proof.
  revert i. induction l as [|x l IH]; intros [|i] Hl; cbn in Hl; try discriminate.
  - injection Hl as ->. cbn. destruct (f t); cbn; lia.
  - cbn. destruct (f x); cbn; rewrite (IH i Hl); reflexivity.
Qed.

Lemma delete_existsb {A : Type} (g : A -> bool) (l : list A) (i : nat) :
  existsb g (delete i l) = true -> existsb g l = true.
Proof.
  revert i. induction l as [|x l IH]; intros [|i]; cbn; try discriminate.
  - intros ->. apply orb_true_r.
  - destruct (g x); [reflexivity|]. cbn. apply IH.
Qed.

Lemma awaits_is_creation (t : Live.Task) :
  Live.awaitsInterval t = true -> Live.ofCreation t = true.
Proof. now destruct t as [n|[|]|[|]|[|]]. Qed.

Lemma no_creation_no_awaits (l : list Live.Task) :
  length (List.filter Live.ofCreation l) = 0%nat ->
  existsb Live.awaitsInterval l = false.
Proof.
  induction l as [|t l IH]; [reflexivity|]. cbn.
  destruct (Live.ofCreation t) eqn:Hc; [discriminate|].
  intros Hl. rewrite (IH Hl), orb_false_r.
  destruct (Live.awaitsInterval t) eqn:Ha; [|reflexivity].
  apply awaits_is_creation in Ha. congruence.
Qed.

Lemma not_creating_count (l : list Live.Task) :
  existsb Live.ofCreation l = false ->
  length (List.filter Live.ofCreation l) = 0%nat.
Proof.
  induction l as [|t l IH]; [reflexivity|]. cbn.
  destruct (Live.ofCreation t); [discriminate|]. exact IH.
Qed.

Lemma live_oneInterval_owned (p : Page) : Live.oneInterval p -> pollOwned p.
Proof.
  intros [Ht|(h & Ht & Hw)] t Hin; rewrite Ht in Hin; [destruct Hin|].
  destruct Hin as [<-|[]]. exact Hw.
Qed.

Lemma clearPoll_empty (p : Page) : timers p = [] -> timers (clearPoll p) = [].
Proof.
  intros Ht. unfold clearPoll. destruct (waPollInterval p); [|exact Ht].
  cbn [clearInterval timers]. now rewrite Ht.
Qed.

Lemma polled_one (p q : Page) :
  Live.polled p q -> Live.oneInterval p -> Live.oneInterval q.
Proof.
  intros (_ & Hw & _ & _ & [Ht|Ht]) Hone.
  - destruct Hone as [He|(h & He & Hh)]; [left; congruence|].
    right. exists h. split; congruence.
  - left. rewrite Ht. apply clearPoll_owned. now apply live_oneInterval_owned.
Qed.

Lemma polled_empty (p q : Page) :
  Live.polled p q -> timers p = [] -> timers q = [].
Proof.
  intros (_ & _ & _ & _ & [Ht|Ht]) He; rewrite Ht; [exact He|now apply clearPoll_empty].
Qed.

Lemma set_interval_one (q : Page) (l : list Live.Task) :
  timers q = [] ->
  Live.oneInterval (Live.page (Live.finish Live.SetInterval (Live.mkWorld q l))).
Proof.
  intros Ht. right. exists (nextHandle q).
  cbn [Live.finish Live.onPage Live.page startPoll timers waPollInterval].
  now rewrite Ht.
Qed.

(** Every step of a status call keeps the panel calm. *)
Lemma poll_step_calm (k : Live.After) (t : Live.Task) (w w' : Live.World) (i : nat)
    (q : Page) (next : Live.Task) :
  Live.calm w ->
  Live.pending w !! i = Some t ->
  Live.awaitsInterval t = (match k with Live.SetInterval => true | _ => false end) ->
  Live.ofCreation t = Live.awaitsInterval t ->
  Live.awaitsInterval next = Live.awaitsInterval t ->
  Live.ofCreation next = Live.awaitsInterval t ->
  Live.polled (Live.page w) q ->
  w' = Live.finish k (Live.mkWorld q (delete i (Live.pending w))) \/
  w' = Live.mkWorld q (delete i (Live.pending w) ++ [next])%list ->
  Live.calm w'.
Proof.
  intros (Hone & Hcount & Hidle) Hi Hk Hoc Hnext Hnoc Hpol Hw'.
  pose proof (delete_filter_count Live.ofCreation _ _ _ Hi) as Hdel.
  pose proof (polled_one _ _ Hpol Hone) as Hqone.
  destruct k.
  - (* the call was awaited by nobody *)
    rewrite Hk in Hoc, Hnext, Hnoc. rewrite Hoc in Hdel.
    assert (Hq : existsb Live.awaitsInterval (delete i (Live.pending w)) = true ->
                 timers q = []).
    { intros He. apply (polled_empty _ _ Hpol). apply Hidle.
      now apply (delete_existsb _ _ i). }
    destruct Hw' as [-> | ->]; cbn [Live.finish Live.page Live.pending]; unfold Live.calm;
      cbn [Live.page Live.pending].
    + split; [exact Hqone|]. split; [lia|exact Hq].
    + split; [exact Hqone|]. rewrite List.filter_app, length_app, existsb_app.
      cbn [List.filter existsb]. rewrite Hnoc, Hnext. cbn [length orb].
      rewrite orb_false_r. split; [lia|exact Hq].
  - (* the call is awaited by a creation *)
    rewrite Hk in Hoc, Hnext, Hnoc. rewrite Hoc in Hdel.
    assert (Hempty : timers q = []).
    { apply (polled_empty _ _ Hpol). apply Hidle.
      apply existsb_exists. exists t. split; [|exact Hk].
      apply list_elem_of_In. now apply (list_elem_of_lookup_2 _ i). }
    assert (Hzero : length (List.filter Live.ofCreation (delete i (Live.pending w))) = 0%nat)
      by lia.
    destruct Hw' as [-> | ->]; unfold Live.calm.
    + split; [now apply set_interval_one|].
      cbn [Live.finish Live.onPage Live.page Live.pending].
      split; [lia|]. intros He. rewrite (no_creation_no_awaits _ Hzero) in He.
      discriminate He.
    + cbn [Live.page Live.pending]. split; [now left|].
      rewrite List.filter_app, length_app. cbn [List.filter]. rewrite Hnoc. cbn [length].
      split; [lia|]. intros _. exact Hempty.
Qed.

Lemma instanceAssigned_cleared (lib : Live.Library) (name : string) (data : JSValue)
    (p : Page) :
  pollOwned p -> timers (Live.instanceAssigned lib name data p) = [].
Proof.
  intros Hown. unfold Live.instanceAssigned. cbv zeta. apply clearPoll_owned.
  intros t Hin. cbn [setStorage timers waPollInterval] in *.
  match type of Hin with
  | context [Live.renderQr ?l ?q ?x] =>
      destruct (live_renderQr_frame l q x) as (Ht & Hw & _)
  end.
  rewrite Ht in Hin. rewrite Hw. cbn [setStatusText setInstance timers waPollInterval] in *.
  now apply Hown.
Qed.

Lemma calm_pending_grows (w : Live.World) (q : Page) (t : Live.Task) :
  Live.calm w ->
  timers q = timers (Live.page w) -> waPollInterval q = waPollInterval (Live.page w) ->
  Live.ofCreation t = false ->
  Live.calm (Live.mkWorld q (Live.pending w ++ [t])%list).
Proof.
  intros (Hone & Hcount & Hidle) Ht Hw Hc. unfold Live.calm. cbn [Live.page Live.pending].
  rewrite List.filter_app, length_app, existsb_app. cbn [List.filter existsb].
  rewrite Hc. cbn [length]. split; [|split; [lia|]].
  - destruct Hone as [He|(h & He & Hh)]; [left; congruence|].
    right. exists h. split; congruence.
  - destruct (Live.awaitsInterval t) eqn:Ha;
      [apply awaits_is_creation in Ha; congruence|].
    rewrite !orb_false_r. intros He. rewrite Ht. now apply Hidle.
Qed.

Lemma calm_same (w : Live.World) (q : Page) :
  Live.calm w ->
  timers q = timers (Live.page w) -> waPollInterval q = waPollInterval (Live.page w) ->
  Live.calm (Live.mkWorld q (Live.pending w)).
Proof.
  intros (Hone & Hcount & Hidle) Ht Hw. unfold Live.calm. cbn [Live.page Live.pending].
  split; [|split; [exact Hcount|]].
  - destruct Hone as [He|(h & He & Hh)]; [left; congruence|].
    right. exists h. split; congruence.
  - intros He. rewrite Ht. now apply Hidle.
Qed.

Lemma calm_settled (w : Live.World) (i : nat) (t : Live.Task) :
  Live.calm w -> Live.pending w !! i = Some t ->
  Live.calm (Live.mkWorld (Live.page w) (delete i (Live.pending w))).
Proof.
  intros (Hone & Hcount & Hidle) Hi. unfold Live.calm. cbn [Live.page Live.pending].
  pose proof (delete_filter_count Live.ofCreation _ _ _ Hi) as Hdel.
  split; [exact Hone|]. split; [lia|].
  intros He. apply Hidle. now apply (delete_existsb _ _ i).
Qed.

Lemma calm_poll_started (w : Live.World) :
  Live.calm w -> Live.calm (Live.updateWhatsAppStatus Live.Nothing w).
Proof.
  intros Hcalm. destruct (updateWhatsAppStatus_progress Live.Nothing w) as [-> | ->].
  - exact Hcalm.
  - now apply calm_pending_grows.
Qed.

Lemma step_calm (lib : Live.Library) (w : Live.World) (e : Live.Event) :
  Live.calm w ->
  (Live.creating w = true -> Live.disturbs e = false) ->
  Live.calm (Live.step lib w e).
Proof.
  intros Hcalm Hquiet.
  assert (Hidle : Live.disturbs e = true ->
            length (List.filter Live.ofCreation (Live.pending w)) = 0%nat).
  { intros Hd. apply not_creating_count. fold (Live.creating w).
    destruct (Live.creating w); [|reflexivity].
    rewrite (Hquiet eq_refl) in Hd. discriminate Hd. }
  pose proof Hcalm as (Hone & Hcount & Hwait).
  pose proof (live_oneInterval_owned _ Hone) as Hown.
  destruct e as [name| |h| |hidden| |i r]; cbn [Live.step].
  - (* a click on the create button *)
    specialize (Hidle eq_refl). unfold Live.createWhatsAppInstance. cbv zeta.
    destruct (Str.trim name =? ""); [now apply calm_same|].
    unfold Live.calm, Live.await. cbn [Live.onPage Live.page Live.pending].
    rewrite List.filter_app, length_app, existsb_app. cbn [List.filter existsb length].
    rewrite Hidle, (no_creation_no_awaits _ Hidle). cbn.
    split; [exact Hone|]. split; [lia|discriminate].
  - (* the restore *)
    specialize (Hidle eq_refl). unfold Live.restoreWhatsAppInstance.
    destruct (storage (Live.page w) !! "wa_instance") as [inst|]; [|exact Hcalm].
    destruct (storage (Live.page w) !! "wa_token") as [tok|]; [|exact Hcalm].
    destruct (negb (inst =? "") && negb (tok =? "")); [|exact Hcalm].
    cbv zeta.
    assert (Hclr : timers (clearPoll (setInstance (JString inst) (JString tok)
                                        (Live.page w))) = [])
      by (apply clearPoll_owned; exact Hown).
    match goal with
    | |- context [Live.updateWhatsAppStatus Live.Nothing ?x] =>
        destruct (updateWhatsAppStatus_progress Live.Nothing x) as [-> | ->]
    end;
      unfold Live.calm, Live.oneInterval;
      cbn [Live.finish Live.onPage Live.page Live.pending startPoll send timers
           waPollInterval nextHandle];
      rewrite Hclr.
    + split; [right; eexists; split; reflexivity|]. split; [lia|].
      intros He. rewrite (no_creation_no_awaits _ Hidle) in He. discriminate He.
    + rewrite List.filter_app, length_app, existsb_app. cbn [List.filter existsb length].
      rewrite Hidle, (no_creation_no_awaits _ Hidle). cbn.
      split; [right; eexists; split; reflexivity|]. split; [lia|discriminate].
  - (* a tick *)
    destruct (Live.running h (Live.page w)); [|exact Hcalm].
    now apply calm_poll_started.
  - (* a poll from elsewhere *)
    now apply calm_poll_started.
  - (* the document hidden or shown *)
    specialize (Hidle eq_refl).
    unfold Live.calm. cbn [Live.onPage Live.page Live.pending].
    split; [|split; [exact Hcount|]].
    + unfold visibilityChange. destruct hidden.
      * destruct (waPollInterval (Live.page w)) as [h0|] eqn:Hh; [|exact Hone].
        left. cbn [forgetPoll timers].
        pose proof (clearPoll_owned _ Hown) as Hc. unfold clearPoll in Hc.
        now rewrite Hh in Hc.
      * destruct (truthy (waCurrentInstance (Live.page w))
                  && truthy (waCurrentToken (Live.page w))); [|exact Hone].
        destruct (waPollInterval (Live.page w)) eqn:Hh; [exact Hone|]. cbn [andb].
        right. exists (nextHandle (Live.page w)).
        cbn [startPoll timers waPollInterval].
        destruct Hone as [He|(h0 & _ & Hh0)]; [now rewrite He|congruence].
    + intros He. rewrite (no_creation_no_awaits _ Hidle) in He. discriminate He.
  - (* the page unloaded *)
    unfold Live.calm. cbn [Live.onPage Live.page Live.pending].
    pose proof (clearPoll_owned _ Hown) as Hc.
    split; [now left|]. split; [exact Hcount|]. intros _. exact Hc.
  - (* a request settles *)
    destruct (Live.pending w !! i) as [t|] eqn:Hi; [|exact Hcalm]. cbv zeta.
    pose proof (calm_settled w i t Hcalm Hi) as Hrest.
    pose proof (delete_filter_count Live.ofCreation _ _ _ Hi) as Hdel.
    destruct t as [name|k|k|k].
    + (* the answer of the creation *)
      cbn [Live.ofCreation] in Hdel.
      assert (Hzero : length (List.filter Live.ofCreation (delete i (Live.pending w)))
                      = 0%nat) by lia.
      assert (Hfail : forall a,
        Live.calm (Live.onPage (fun p => alert a (logLine p))
                     (Live.mkWorld (Live.page w) (delete i (Live.pending w))))).
      { intros a. now apply (calm_same _ _ Hrest). }
      unfold Live.createSettled.
      destruct r as [|[|] st tx [data|]]; try apply Hfail.
      destruct (member data "instanceId"); [|apply Hfail].
      pose proof (instanceAssigned_cleared lib name data (Live.page w) Hown) as Hclr.
      match goal with
      | |- context [Live.updateWhatsAppStatus Live.SetInterval ?x] =>
          destruct (updateWhatsAppStatus_progress Live.SetInterval x) as [-> | ->]
      end; unfold Live.calm, Live.oneInterval;
        cbn [Live.finish Live.onPage Live.page Live.pending startPoll send timers
             waPollInterval nextHandle];
        rewrite Hclr.
      * split; [right; eexists; split; reflexivity|]. split; [lia|].
        intros He. rewrite (no_creation_no_awaits _ Hzero) in He. discriminate He.
      * rewrite List.filter_app, length_app. cbn [List.filter Live.ofCreation length].
        split; [now left|]. split; [lia|reflexivity].
    + destruct (statusSettled_progress lib r k
                  (Live.mkWorld (Live.page w) (delete i (Live.pending w))))
        as (q & Hpol & Hw').
      cbn [Live.page Live.pending] in Hpol, Hw'.
      apply (poll_step_calm k (Live.StatusAwaits k) w _ i q (Live.QrAwaits k));
        trivial; now destruct k.
    + destruct (qrSettled_progress lib r k
                  (Live.mkWorld (Live.page w) (delete i (Live.pending w))))
        as (q & Hpol & Hw').
      cbn [Live.page Live.pending] in Hpol, Hw'.
      apply (poll_step_calm k (Live.QrAwaits k) w _ i q (Live.QrcodeAwaits k));
        trivial; now destruct k.
    + destruct (qrcodeSettled_progress lib r k
                  (Live.mkWorld (Live.page w) (delete i (Live.pending w))))
        as (q & Hpol & Hw').
      cbn [Live.page Live.pending] in Hpol, Hw'.
      apply (poll_step_calm k (Live.QrcodeAwaits k) w _ i q (Live.QrcodeAwaits k));
        trivial; try (now destruct k); now left.
Qed.

Lemma run_calm (lib : Live.Library) (es : list Live.Event) :
  forall w, Live.calm w -> Live.undisturbed lib w es ->
            Live.calm (fold_left (Live.step lib) es w).
Proof.
  induction es as [|e es IH]; intros w Hcalm Hund; [exact Hcalm|].
  cbn [fold_left]. destruct Hund as (Hquiet & Hrest).
  apply IH; [now apply step_calm|exact Hrest].
Qed.

(** X5.  From a page load on, whatever is handled (clicks on the create
    button, the restore, interval ticks and other status calls, the
    document hidden or shown, the page unloaded) and in whatever order the
    requests settle, with any answers and with any number of status calls
    waiting at once: as long as no click, restore or visibility change is
    handled while a creation is under way, at most one status-poll interval
    runs, the one the page holds, with a period of 4000 ms. *)
Theorem panel_runs_at_most_one_interval (lib : Live.Library) (ls : gmap string string)
    (es : list Live.Event) :
  Live.undisturbed lib (Live.fresh ls) es ->
  Live.oneInterval (Live.page (Live.run lib ls es)).
Proof.
  intros Hund. unfold Live.run.
  apply (run_calm lib es (Live.fresh ls)); [|exact Hund].
  unfold Live.calm, Live.fresh. cbn. split; [now left|]. split; [lia|discriminate].
Qed.








Lemma settle_last (lib : Live.Library) (q : Page) (l : list Live.Task) (t : Live.Task)
    (r : FetchResult) :
  Live.step lib (Live.mkWorld q (l ++ [t])%list) (Live.Settle (length l) r) =
  match t with
  | Live.CreateAwaits name => Live.createSettled lib r name (Live.mkWorld q l)
  | Live.StatusAwaits k => Live.statusSettled lib r k (Live.mkWorld q l)
  | Live.QrAwaits k => Live.qrSettled lib r k (Live.mkWorld q l)
  | Live.QrcodeAwaits k => Live.qrcodeSettled lib r k (Live.mkWorld q l)
  end.
Proof.
  cbn [Live.step Live.pending Live.page].
  rewrite (list_lookup_middle l [] t (length l) eq_refl). cbv zeta.
  now rewrite (delete_middle l [] t), app_nil_r.
Qed.











(** *** The handlers that run to their end

    A handler of [Live] whose requests settle one after the other with no
    other event in between, and without the QRCode library, is the function
    of [WhatsApp] of the same name. *)

Lemma live_renderQr_NoLibrary (q : option string) (p : Page) :
  Live.renderQr Live.NoLibrary q p = renderQr q p.
Proof. now apply live_renderQr_plain. Qed.

Lemma settle_idle (lib : Live.Library) (k : Live.After) (q : Page) (l : list Live.Task)
    (r : FetchResult) :
  Live.step lib (Live.finish k (Live.mkWorld q l)) (Live.Settle (length l) r) =
  Live.finish k (Live.mkWorld q l).
Proof.
  cbn [Live.step].
  replace (Live.pending (Live.finish k (Live.mkWorld q l))) with l by now destruct k.
  now rewrite lookup_ge_None_2 by lia.
Qed.

Lemma status_call_alone (net : Endpoint -> FetchResult) (k : Live.After) (q : Page)
    (l : list Live.Task) :
  fold_left (Live.step Live.NoLibrary)
    [Live.Settle (length l) (net StatusEP); Live.Settle (length l) (net QrEP);
     Live.Settle (length l) (net QrcodeEP)]
    (Live.updateWhatsAppStatus k (Live.mkWorld q l))
  = Live.finish k (Live.mkWorld (updateWhatsAppStatus net q) l).
Proof.
  cbn [fold_left]. unfold Live.updateWhatsAppStatus, updateWhatsAppStatus.
  cbn [Live.page Live.pending].
  destruct (negb (truthy (waCurrentInstance q)) || negb (truthy (waCurrentToken q)))
    eqn:Hguard.
  { now rewrite !settle_idle. }
  unfold Live.await, Live.onPage. cbn [Live.page Live.pending]. rewrite settle_last.
  cbv zeta. unfold Live.statusSettled.
  destruct (net StatusEP) as [|[|] st tx [data|]];
    unfold Live.onPage; cbn [Live.page Live.pending]; try (now rewrite !settle_idle).
  destruct (member data "status");
    unfold Live.onPage; cbn [Live.page Live.pending]; [|now rewrite !settle_idle].
  cbv zeta. destruct (isConnected (rawStateOf data)).
  { rewrite live_renderQr_NoLibrary. now rewrite !settle_idle. }
  destruct (qrFromStatus data) as [s|].
  { rewrite live_renderQr_NoLibrary. now rewrite !settle_idle. }
  destruct (friendlyState (rawStateOf data) =? "waiting-qr");
    [|rewrite live_renderQr_NoLibrary; now rewrite !settle_idle].
  unfold Live.fallbackStarted, tryFetchQrFallback.
  cbn [Live.page Live.pending setStatusText send waCurrentInstance waCurrentToken].
  rewrite Hguard. unfold Live.await, Live.onPage. cbn [Live.page Live.pending].
  rewrite settle_last. unfold Live.qrSettled. cbn [tryCandidates].
  destruct (qrOfFallback (net QrEP)) as [s|].
  { unfold Live.onPage; cbn [Live.page Live.pending fold_left].
    rewrite live_renderQr_NoLibrary. now rewrite settle_idle. }
  unfold Live.await, Live.onPage. cbn [Live.page Live.pending].
  rewrite settle_last. unfold Live.qrcodeSettled.
  unfold Live.onPage; cbn [Live.page Live.pending]. rewrite live_renderQr_NoLibrary.
  now destruct (qrOfFallback (net QrcodeEP)).
Qed.

Lemma settle_nothing (lib : Live.Library) (q : Page) (l : list Live.Task)
    (r : FetchResult) :
  Live.step lib (Live.mkWorld q l) (Live.Settle (length l) r) = Live.mkWorld q l.
Proof. exact (settle_idle lib Live.Nothing q l r). Qed.

(** A creation by itself is [WhatsApp.createWhatsAppInstance]. *)
Lemma creation_alone_runs_to_its_end (net : Endpoint -> FetchResult) (name : string)
    (w : Live.World) :
  fold_left (Live.step Live.NoLibrary) (Live.creationAlone net name w) w =
  Live.mkWorld (createWhatsAppInstance net name (Live.page w)) (Live.pending w).
Proof.
  destruct w as [q l]. unfold Live.creationAlone. cbv zeta.
  cbn [Live.page Live.pending].
  change (fold_left (Live.step Live.NoLibrary)
            (Live.Click name :: Live.Settle (length l) (net CreateEP)
             :: [Live.Settle (length l) (net StatusEP);
                 Live.Settle (length l) (net QrEP);
                 Live.Settle (length l) (net QrcodeEP)])
            (Live.mkWorld q l))
    with (fold_left (Live.step Live.NoLibrary)
            [Live.Settle (length l) (net StatusEP); Live.Settle (length l) (net QrEP);
             Live.Settle (length l) (net QrcodeEP)]
            (Live.step Live.NoLibrary
               (Live.createWhatsAppInstance name (Live.mkWorld q l))
               (Live.Settle (length l) (net CreateEP)))).
  assert (Hidle : forall q',
    fold_left (Live.step Live.NoLibrary)
      [Live.Settle (length l) (net StatusEP); Live.Settle (length l) (net QrEP);
       Live.Settle (length l) (net QrcodeEP)] (Live.mkWorld q' l) = Live.mkWorld q' l).
  { intros q'. cbn [fold_left]. now rewrite !settle_nothing. }
  unfold Live.createWhatsAppInstance, createWhatsAppInstance. cbv zeta.
  destruct (Str.trim name =? "").
  { unfold Live.onPage. cbn [Live.page Live.pending].
    rewrite settle_nothing. apply Hidle. }
  unfold Live.await, Live.onPage. cbn [Live.page Live.pending].
  rewrite settle_last. unfold Live.createSettled.
  destruct (net CreateEP) as [|[|] st tx [data|]];
    unfold Live.onPage; cbn [Live.page Live.pending]; try apply Hidle.
  destruct (member data "instanceId");
    unfold Live.onPage; cbn [Live.page Live.pending]; [|apply Hidle].
  rewrite status_call_alone. unfold Live.instanceAssigned, instanceCreated. cbv zeta.
  rewrite live_renderQr_NoLibrary. reflexivity.
Qed.

(** A status call by itself is [WhatsApp.updateWhatsAppStatus]. *)
Lemma poll_alone_runs_to_its_end (net : Endpoint -> FetchResult) (w : Live.World) :
  fold_left (Live.step Live.NoLibrary)
    [Live.OtherPoll; Live.Settle (length (Live.pending w)) (net StatusEP);
     Live.Settle (length (Live.pending w)) (net QrEP);
     Live.Settle (length (Live.pending w)) (net QrcodeEP)] w
  = Live.mkWorld (updateWhatsAppStatus net (Live.page w)) (Live.pending w).
Proof.
  destruct w as [q l]. cbn [Live.page Live.pending].
  exact (status_call_alone net Live.Nothing q l).
Qed.

(** A restore followed by the settling of its status call is
    [WhatsApp.restoreWhatsAppInstance]. *)
Lemma restore_alone_runs_to_its_end (net : Endpoint -> FetchResult) (w : Live.World) :
  fold_left (Live.step Live.NoLibrary)
    [Live.Restore; Live.Settle (length (Live.pending w)) (net StatusEP);
     Live.Settle (length (Live.pending w)) (net QrEP);
     Live.Settle (length (Live.pending w)) (net QrcodeEP)] w
  = Live.mkWorld (restoreWhatsAppInstance net (Live.page w)) (Live.pending w).
Proof.
  destruct w as [q l]. cbn [Live.page Live.pending].
  change (fold_left (Live.step Live.NoLibrary)
            (Live.Restore :: [Live.Settle (length l) (net StatusEP);
                              Live.Settle (length l) (net QrEP);
                              Live.Settle (length l) (net QrcodeEP)])
            (Live.mkWorld q l))
    with (fold_left (Live.step Live.NoLibrary)
            [Live.Settle (length l) (net StatusEP); Live.Settle (length l) (net QrEP);
             Live.Settle (length l) (net QrcodeEP)]
            (Live.restoreWhatsAppInstance (Live.mkWorld q l))).
  assert (Hidle :
    fold_left (Live.step Live.NoLibrary)
      [Live.Settle (length l) (net StatusEP); Live.Settle (length l) (net QrEP);
       Live.Settle (length l) (net QrcodeEP)] (Live.mkWorld q l) = Live.mkWorld q l).
  { cbn [fold_left]. now rewrite !settle_nothing. }
  unfold Live.restoreWhatsAppInstance, restoreWhatsAppInstance. cbn [Live.page].
  destruct (storage q !! "wa_instance") as [inst|]; [|exact Hidle].
  destruct (storage q !! "wa_token") as [tok|]; [|exact Hidle].
  destruct (negb (inst =? "") && negb (tok =? "")); [|exact Hidle]. cbv zeta.
  etransitivity;
    [|exact (status_call_alone net Live.Nothing
               (startPoll 4000 (clearPoll (setInstance (JString inst) (JString tok) q)))
               l)].
  f_equal. unfold Live.updateWhatsAppStatus, Live.onPage, Live.await, Live.finish.
  cbn [Live.page Live.pending startPoll waCurrentInstance waCurrentToken].
  now destruct (negb _ || negb _).
Qed.

End LiveFacts.

Section LiveExamples.
Import JS QR WhatsApp.

(** With the QRCode library loaded and a text it cannot encode, the drawer
    is hidden and the error is written to the console. *)
Lemma qr_in_status_is_shown_witness :
  let data := JObject [("status", JString "qr");
                       ("connect", JObject [("qrcode", JString "2@abcdef")])] in
  let w := Live.mkWorld pairingPage [Live.StatusAwaits Live.Nothing] in
  let w' := @Live.step sampleHost Live.brokenLibrary w
              (Live.Settle 0 (Response true 200 "" (Some data))) in
  qr (Live.page w') = QrHidden /\
  consoleLines (Live.page w') = S (consoleLines pairingPage) /\
  timers (Live.page w') = timers pairingPage.
Proof.
  cbv zeta.
  destruct (@qr_in_status_is_shown sampleHost Live.brokenLibrary
              (Live.mkWorld pairingPage [Live.StatusAwaits Live.Nothing]) 0 Live.Nothing
              200 ""
              (JObject [("status", JString "qr");
                        ("connect", JObject [("qrcode", JString "2@abcdef")])])
              "2@abcdef" eq_refl eq_refl eq_refl)
    as (Hq & Hc & _ & _ & _ & Ht).
  split; [exact Hq|]. split; [exact Hc|].
  rewrite Ht. apply app_nil_r.
Defined.

Lemma panel_runs_at_most_one_interval_witness :
  Live.oneInterval
    (Live.page (@Live.run sampleHost Live.NoLibrary ∅
                  (Live.creationAlone Live.createdNet "loja" (Live.fresh ∅) ++
                   [Live.Visibility true; Live.Visibility false; Live.Tick 2;
                    Live.Settle 0 NetworkError; Live.Unload])%list)).
Proof.
  apply (@panel_runs_at_most_one_interval sampleHost).
  vm_compute. repeat split; intros Hc; try reflexivity; discriminate Hc.
Defined.



(** Where a creation is disturbed, two intervals run and only the second is
    held: the document shown while the creation awaits its status call sets
    an interval that the creation does not clear before it sets its own;
    and so does each of two creations that overlap. *)
Lemma disturbed_creation_leaves_two_intervals :
  timers (Live.page (@Live.run sampleHost Live.NoLibrary ∅ Live.shownWhileCreating))
  = [(1%positive, 4000%nat); (2%positive, 4000%nat)] /\
  waPollInterval (Live.page (@Live.run sampleHost Live.NoLibrary ∅ Live.shownWhileCreating))
  = Some 2%positive /\
  timers (Live.page (@Live.run sampleHost Live.NoLibrary ∅ Live.clickedTwice))
  = [(1%positive, 4000%nat); (2%positive, 4000%nat)] /\
  waPollInterval (Live.page (@Live.run sampleHost Live.NoLibrary ∅ Live.clickedTwice))
  = Some 2%positive.
Proof. repeat split; vm_compute; reflexivity. Qed.

End LiveExamples.

(** ** Lists of event names and the webhook form *)

Section ListFacts.
Import JS Util.

Lemma noSeparator_app (a b : string) :
  noSeparator (a ++ b) = noSeparator a && noSeparator b.
Proof.
  induction a as [|c a IH]; [reflexivity|]. rewrite append_cons. cbn [noSeparator].
  now rewrite IH, andb_assoc.
Qed.

Lemma splitFrom_noSeparator (s piece : string) (inSep : bool) :
  noSeparator piece = true ->
  Forall (fun x => noSeparator x = true) (splitFrom s piece inSep).
Proof.
  revert piece inSep. induction s as [|c s IH]; intros piece inSep Hp; cbn [splitFrom].
  - now constructor.
  - destruct (isSeparator c) eqn:Hc.
    + destruct inSep; [now apply IH|]. constructor; [exact Hp|now apply IH].
    + apply IH. rewrite noSeparator_app, Hp. cbn [noSeparator]. now rewrite Hc.
Qed.

Lemma trimStart_noSeparator (s : string) :
  noSeparator s = true -> noSeparator (Str.trimStart s) = true.
Proof.
  induction s as [|c s IH]; [reflexivity|]. cbn [Str.trimStart noSeparator].
  intros Hs. apply andb_true_iff in Hs as [Hc Hr].
  destruct (Str.isWhiteSpace c); [now apply IH|]. cbn [noSeparator]. now rewrite Hc, Hr.
Qed.

Lemma trimEnd_noSeparator (s : string) :
  noSeparator s = true -> noSeparator (Str.trimEnd s) = true.
Proof.
  induction s as [|c s IH]; [reflexivity|]. cbn [Str.trimEnd noSeparator].
  intros Hs. apply andb_true_iff in Hs as [Hc Hr]. specialize (IH Hr).
  destruct (Str.trimEnd s) as [|d t].
  - destruct (Str.isWhiteSpace c); [reflexivity|]. cbn [noSeparator]. now rewrite Hc.
  - cbn [noSeparator] in *. now rewrite Hc, IH.
Qed.

Lemma parts_clean (s x : string) :
  In x (List.filter (fun x => negb (x =? "")) (map Str.trim (splitSeparators s))) ->
  x <> "" /\ noSeparator x = true.
Proof.
  intros Hin. apply filter_In in Hin as [Hin Hne]. split.
  - apply negb_true_iff in Hne. now apply String.eqb_neq.
  - apply in_map_iff in Hin as (y & <- & Hy).
    pose proof (splitFrom_noSeparator s "" false eq_refl) as Hall.
    rewrite List.Forall_forall in Hall.
    apply trimEnd_noSeparator, trimStart_noSeparator, Hall, Hy.
Qed.

Lemma parseList_clean (str : JSValue) (def : list string) (x : string) :
  In x (parseList str def) -> In x def \/ (x <> "" /\ noSeparator x = true).
Proof.
  intros Hin. destruct str as [| | | |s| |]; try (now left).
  cbn [parseList] in Hin. destruct (s =? ""); [now left|]. cbv zeta in Hin.
  destruct (List.filter _ _) as [|y ys] eqn:Hparts; [now left|].
  right. apply (parts_clean s). now rewrite Hparts.
Qed.

Lemma parseList_nonempty (str : JSValue) (def : list string) :
  def <> [] -> parseList str def <> [].
Proof.
  intros Hdef. destruct str as [| | | |s| |]; try exact Hdef.
  cbn [parseList]. destruct (s =? ""); [exact Hdef|]. cbv zeta.
  destruct (List.filter _ _); [exact Hdef|discriminate].
Qed.

(** X9.  Every name [parseList] returns is one of the defaults or a
    non-empty text without comma, semicolon or space; the result is the list
    of defaults when the input is not a string or is empty, and it is never
    empty unless the defaults are. *)
Theorem parseList_names_are_clean (str : JSValue) (def : list string) :
  (forall x, In x (parseList str def) ->
             In x def \/ (x <> "" /\ noSeparator x = true)) /\
  ((forall s, str <> JString s) \/ str = JString "" -> parseList str def = def) /\
  (def <> [] -> parseList str def <> []).
Proof.
  split; [|split].
  - intros x. apply parseList_clean.
  - intros [Hns| ->]; [|reflexivity]. destruct str; try reflexivity.
    now destruct (Hns s).
  - apply parseList_nonempty.
Qed.

Lemma append_nil_r (t : string) : t ++ "" = t.
Proof. induction t as [|c t IH]; [reflexivity|]. now rewrite append_cons, IH. Qed.

Lemma splitFrom_token (t rest piece : string) (inSep : bool) :
  noSeparator t = true -> t <> "" ->
  splitFrom (t ++ rest) piece inSep = splitFrom rest (piece ++ t) false.
Proof.
  revert piece inSep. induction t as [|c t IH]; intros piece inSep Ht Hne;
    [now destruct Hne|].
  rewrite append_cons. cbn [splitFrom noSeparator] in *.
  apply andb_true_iff in Ht as [Hc Hr]. apply negb_true_iff in Hc. rewrite Hc.
  destruct t as [|d t'].
  - now cbn.
  - rewrite IH by (try exact Hr; discriminate).
    f_equal. now rewrite append_assoc.
Qed.

Lemma splitFrom_join (ts : list string) (inSep : bool) :
  ts <> [] ->
  Forall (fun t => t <> "" /\ noSeparator t = true) ts ->
  splitFrom (joinComma ts) "" inSep = ts.
Proof.
  revert inSep. induction ts as [|t ts IH]; intros inSep Hne Hall; [now destruct Hne|].
  inversion Hall as [|? ? [Ht Hs] Hrest]; subst.
  destruct ts as [|t' ts'].
  - cbn [joinComma]. rewrite <- (append_nil_r t) at 1.
    rewrite splitFrom_token by assumption. reflexivity.
  - change (joinComma (t :: t' :: ts')) with (t ++ "," ++ joinComma (t' :: ts')).
    rewrite splitFrom_token by assumption.
    change ("," ++ joinComma (t' :: ts')) with (String "," (joinComma (t' :: ts'))).
    cbn [splitFrom isSeparator]. cbn [append]. f_equal.
    apply IH; [discriminate|exact Hrest].
Qed.

(** X10.  Names written with commas between them are read back as they
    were: for a non-empty list of non-empty names without comma, semicolon
    or space and without white space at their ends, [parseList] of the
    joined text is the list, whatever the defaults. *)
Theorem parseList_reads_back_joined_names (ts def : list string) :
  ts <> [] ->
  Forall (fun t => t <> "" /\ noSeparator t = true) ts ->
  Forall (fun t => Str.trim t = t) ts ->
  parseList (JString (joinComma ts)) def = ts.
Proof.
  intros Hne Hall Htrim. cbn [parseList].
  assert (Hjoin : joinComma ts <> "").
  { destruct ts as [|t ts]; [now destruct Hne|].
    inversion Hall as [|? ? [Ht _] _]; subst.
    destruct t as [|c t]; [now destruct Ht|]. destruct ts; discriminate. }
  apply String.eqb_neq in Hjoin. rewrite Hjoin. cbv zeta.
  unfold splitSeparators. rewrite (splitFrom_join ts false Hne Hall).
  assert (Hmap : map Str.trim ts = ts).
  { clear -Htrim. induction Htrim as [|t ts Ht _ IH]; [reflexivity|].
    cbn [map]. now rewrite Ht, IH. }
  rewrite Hmap.
  assert (Hfil : List.filter (fun x => negb (x =? "")) ts = ts).
  { clear -Hall. induction Hall as [|t ts [Ht _] _ IH]; [reflexivity|].
    cbn [List.filter]. apply String.eqb_neq in Ht. rewrite Ht. cbn [negb].
    now rewrite IH. }
  rewrite Hfil. destruct ts; [now destruct Hne|reflexivity].
Qed.

End ListFacts.

Section WebhookFacts.
Import JS Util WhatsApp Webhook.
Context `{Builtins}.




End WebhookFacts.

Section WebhookExamples.
Import JS Util WhatsApp Webhook.

Lemma parseList_names_are_clean_witness :
  parseList JNull ["messages"; "connection"] = ["messages"; "connection"] /\
  parseList (JString " ,; ") ["messages"] <> [].
Proof.
  destruct (parseList_names_are_clean JNull ["messages"; "connection"]) as (_ & Hdef & _).
  destruct (parseList_names_are_clean (JString " ,; ") ["messages"]) as (_ & _ & Hne).
  split.
  - apply Hdef. left. intros s. discriminate.
  - apply Hne. discriminate.
Defined.

Lemma parseList_reads_back_joined_names_witness :
  parseList (JString "messages,connection") ["presence"] = ["messages"; "connection"].
Proof.
  apply (parseList_reads_back_joined_names ["messages"; "connection"] ["presence"]).
  - discriminate.
  - repeat constructor; discriminate.
  - repeat constructor.
Defined.


End WebhookExamples.

(** ** Request headers and the login page *)

Section AuthFacts.
Import JS Number Session Auth.
Context `{Builtins}.

Lemma saveAuthData_written (data : JSValue) (ls ls' : gmap string string) :
  saveAuthData data ls = Some ls' ->
  truthy (extractToken data) = true /\
  ls' !! "token" = Some (toStr (extractToken data)) /\
  ls' !! "org_id" = Some (toStr (extractOrg data)) /\
  ls' !! "flow_id" = Some (toStr (extractFlow data)).
Proof.
  unfold saveAuthData. destruct (member data "token"); [|discriminate].
  destruct (truthy (extractToken data)) eqn:Ht; [|discriminate].
  cbn [negb]. intros [= <-]. split; [reflexivity|]. unfold setItem.
  destruct (truthy (extractTax data)), (truthy (extractName data));
    repeat split;
    repeat first [rewrite lookup_insert_eq; reflexivity
                 | rewrite lookup_insert_ne by discriminate].
Qed.

Lemma hasToken_saves (data : JSValue) (ls : gmap string string) :
  hasToken data = true -> exists ls', saveAuthData data ls = Some ls'.
Proof.
  unfold hasToken, saveAuthData. destruct (member data "token"); [|discriminate].
  intros ->. cbn [negb]. eauto.
Qed.

Lemma saveAuthData_hasToken (data : JSValue) (ls ls' : gmap string string) :
  saveAuthData data ls = Some ls' -> hasToken data = true.
Proof.
  unfold hasToken, saveAuthData. destruct (member data "token"); [|discriminate].
  now destruct (truthy (extractToken data)).
Qed.

(** X12.  After a logout the dashboard's requests carry no [Authorization]
    header, and fall back to organisation ["1"] and flow ["1"], whatever was
    stored before. *)
Theorem headers_after_logout (b : Browser) :
  requestHeaders (localStorage (logout b)) !! "Authorization" = None /\
  requestHeaders (localStorage (logout b)) !! "X-Org-ID" = Some "1" /\
  requestHeaders (localStorage (logout b)) !! "X-Flow-ID" = Some "1" /\
  requestHeaders (localStorage (logout b)) !! "Content-Type" = Some "application/json".
Proof.
  unfold logout, removeItem, requestHeaders. cbn [localStorage].
  rewrite lookup_delete_ne by discriminate.
  rewrite lookup_delete_ne by discriminate.
  rewrite lookup_delete_ne by discriminate.
  rewrite lookup_delete_eq.
  rewrite (lookup_delete_ne _ "user_name" "org_id") by discriminate.
  rewrite (lookup_delete_ne _ "flow_id" "org_id") by discriminate.
  rewrite lookup_delete_eq.
  rewrite (lookup_delete_ne _ "user_name" "flow_id") by discriminate.
  rewrite lookup_delete_eq.
  repeat split;
    repeat first [rewrite lookup_insert_eq; reflexivity
                 | rewrite lookup_insert_ne by discriminate
                 | apply lookup_empty].
Qed.

(** X13.  After the answer of a login is saved, the dashboard's requests
    carry the token of that answer as [Bearer] authorisation, and the
    organisation and the flow of that answer (["1"] where their text is
    empty). *)
Theorem headers_after_saveAuthData (data : JSValue) (ls ls' : gmap string string)
    (t : string) :
  saveAuthData data ls = Some ls' ->
  extractToken data = JString t ->
  requestHeaders ls' !! "Authorization" = Some ("Bearer " ++ t) /\
  requestHeaders ls' !! "X-Org-ID" =
  Some (if toStr (extractOrg data) =? "" then "1" else toStr (extractOrg data)) /\
  requestHeaders ls' !! "X-Flow-ID" =
  Some (if toStr (extractFlow data) =? "" then "1" else toStr (extractFlow data)).
Proof.
  intros Hsave Htok. destruct (saveAuthData_written _ _ _ Hsave) as (Htr & Ht & Ho & Hf).
  rewrite Htok in Ht, Htr. cbn [toStr] in Ht.
  assert (Hne : (t =? "") = false) by (destruct t; [discriminate Htr|reflexivity]).
  unfold requestHeaders. rewrite Ht, Ho, Hf, Hne.
  repeat split;
    repeat first [rewrite lookup_insert_eq; reflexivity
                 | rewrite lookup_insert_ne by discriminate].
Qed.


Lemma tryAuthEndpoints_requests (base prefix : string) (net : nat -> FetchResult)
    (payload : JSValue) (paths : list string) :
  forall n0 : nat,
    (length (snd (tryAuthEndpoints base prefix net payload n0 paths)) <= length paths)%nat /\
    Forall (fun r => body r = payload)
      (snd (tryAuthEndpoints base prefix net payload n0 paths)).
Proof.
  induction paths as [|p rest IH]; intros n0; cbn [tryAuthEndpoints].
  - split; [cbn; lia|apply List.Forall_nil].
  - specialize (IH (S n0)).
    destruct (tryAuthEndpoints base prefix net payload (S n0) rest) as [f r].
    cbn [snd] in IH. destruct IH as (Hl & Hb).
    destruct (fetchJson (net n0)) as [d|e]; [destruct (hasToken d)|]; cbn [snd length];
      (split; [lia|]); repeat apply List.Forall_cons; trivial; apply List.Forall_nil.
Qed.

(** X14.  [tryAuthEndpoints] asks the addresses in the order given and stops
    at the first answer that is OK and carries a token, whose data it
    returns; every answer before that one was a failure or had no token.
    When no answer carries a token every address has been asked and the
    function throws. *)
Theorem tryAuthEndpoints_returns_first_token (base prefix : string)
    (net : nat -> FetchResult) (payload : JSValue) (paths : list string) (n0 : nat) :
  let asked := map (fun p => mkRequest (endpointUrl base prefix p) payload) in
  match tryAuthEndpoints base prefix net payload n0 paths with
  | (Some data, reqs) =>
      exists n, (n < length paths)%nat /\
        reqs = asked (firstn (S n) paths) /\
        fetchJson (net (n0 + n)%nat) = Returns data /\ hasToken data = true /\
        forall i, (i < n)%nat -> answersToken (net (n0 + i)%nat) = false
  | (None, reqs) =>
      reqs = asked paths /\
      forall i, (i < length paths)%nat -> answersToken (net (n0 + i)%nat) = false
  end.
Proof.
  cbv zeta. revert n0.
  induction paths as [|p rest IH]; intros n0; cbn [tryAuthEndpoints].
  - split; [reflexivity|]. cbn. intros i Hi. lia.
  - specialize (IH (S n0)).
    assert (Hskip : answersToken (net n0) = false ->
      match (let '(found, reqs) := tryAuthEndpoints base prefix net payload (S n0) rest in
             (found, mkRequest (endpointUrl base prefix p) payload :: reqs)) with
      | (Some data, reqs) =>
          exists n, (n < length (p :: rest))%nat /\
            reqs = map (fun p => mkRequest (endpointUrl base prefix p) payload)
                     (firstn (S n) (p :: rest)) /\
            fetchJson (net (n0 + n)%nat) = Returns data /\ hasToken data = true /\
            forall i, (i < n)%nat -> answersToken (net (n0 + i)%nat) = false
      | (None, reqs) =>
          reqs = map (fun p => mkRequest (endpointUrl base prefix p) payload) (p :: rest) /\
          forall i, (i < length (p :: rest))%nat -> answersToken (net (n0 + i)%nat) = false
      end).
    { intros Hno.
      destruct (tryAuthEndpoints base prefix net payload (S n0) rest) as [[data|] reqs].
      - destruct IH as (n & Hn & Hreq & Hf & Ht & Hbefore).
        exists (S n). split; [cbn [length]; lia|].
        split; [now rewrite Hreq|].
        replace (n0 + S n)%nat with (S n0 + n)%nat by lia.
        split; [exact Hf|]. split; [exact Ht|].
        intros [|i] Hi; [now rewrite Nat.add_0_r|].
        replace (n0 + S i)%nat with (S n0 + i)%nat by lia. apply Hbefore. lia.
      - destruct IH as (Hreq & Hall). split; [now rewrite Hreq|].
        intros [|i] Hi; [now rewrite Nat.add_0_r|].
        replace (n0 + S i)%nat with (S n0 + i)%nat by lia. apply Hall.
        cbn [length] in Hi. lia. }
    destruct (fetchJson (net n0)) as [d|e] eqn:Hf.
    + destruct (hasToken d) eqn:Hd.
      * exists 0%nat. split; [cbn [length]; lia|]. split; [reflexivity|].
        rewrite Nat.add_0_r. split; [exact Hf|]. split; [exact Hd|]. intros i Hi. lia.
      * apply Hskip. unfold answersToken. now rewrite Hf.
    + apply Hskip. unfold answersToken. now rewrite Hf.
Qed.


(** X16.  A login sends no request unless both the e-mail (trimmed) and the
    password are given; it sends at most seven (the six candidate routes and
    the original one), each with the trimmed e-mail and the password as they
    were typed. *)
Theorem login_requests_carry_credentials (base prefix : string)
    (net : nat -> FetchResult) (emailField password : string) (p : LoginPage) :
  exists reqs,
    sent (handleLogin base prefix net emailField password p) = (sent p ++ reqs)%list /\
    (length reqs <= 7)%nat /\
    Forall (fun r => body r = loginPayload (Str.trim emailField) password) reqs /\
    (Str.trim emailField = "" \/ password = "" -> reqs = []).
Proof.
  unfold handleLogin. cbv zeta.
  destruct (Str.trim emailField =? "") eqn:He.
  { exists []. cbn. rewrite app_nil_r. repeat split; [lia|apply List.Forall_nil]. }
  destruct (password =? "") eqn:Hp.
  { exists []. cbn. rewrite app_nil_r. repeat split; [lia|apply List.Forall_nil]. }
  cbn [orb]. apply String.eqb_neq in He, Hp.
  pose proof (tryAuthEndpoints_requests base prefix net
                (loginPayload (Str.trim emailField) password) (loginPaths prefix)
                (length (sent (clearError p)))) as (Hlen & Hbody).
  destruct (tryAuthEndpoints base prefix net (loginPayload (Str.trim emailField) password)
              (length (sent (clearError p))) (loginPaths prefix)) as [found reqs].
  cbn [snd loginPaths length] in Hlen, Hbody.
  assert (Hone : exists reqs',
    sent (navigate "index.html"
            (setStore (setItem "remember_email" (Str.trim emailField) ∅)
               (addRequests reqs (clearError p)))) = (sent p ++ reqs')%list /\
    (length reqs' <= 7)%nat /\
    Forall (fun r => body r = loginPayload (Str.trim emailField) password) reqs' /\
    (Str.trim emailField = "" \/ password = "" -> reqs' = [])).
  { exists reqs. cbn. repeat split; [lia|exact Hbody|]. intros [?|?]; contradiction. }
  assert (Htwo : forall q,
    sent q = ((sent p ++ reqs) ++
              [mkRequest (base ++ prefix ++ "/auth/login")
                 (loginPayload (Str.trim emailField) password)])%list ->
    exists reqs',
      sent q = (sent p ++ reqs')%list /\ (length reqs' <= 7)%nat /\
      Forall (fun r => body r = loginPayload (Str.trim emailField) password) reqs' /\
      (Str.trim emailField = "" \/ password = "" -> reqs' = [])).
  { intros q Hq.
    exists (reqs ++ [mkRequest (base ++ prefix ++ "/auth/login")
                       (loginPayload (Str.trim emailField) password)])%list.
    rewrite Hq, <- app_assoc. split; [reflexivity|].
    split; [rewrite length_app; cbn [length]; lia|].
    split; [|intros [?|?]; contradiction].
    apply Forall_app. split; [exact Hbody|].
    apply List.Forall_cons; [reflexivity|apply List.Forall_nil]. }
  destruct (match found with
            | Some data => saveAuthData data (store (addRequests reqs (clearError p)))
            | None => None
            end) as [ls|].
  - destruct Hone as (reqs' & Hs & Hrest). exists reqs'. split; [exact Hs|exact Hrest].
  - apply Htwo.
    destruct (fetchJson (net (length (sent (addRequests reqs (clearError p))))))
      as [data|[m|]];
      [destruct (saveAuthData data _); [|destruct (saveFailure data)]|..]; reflexivity.
Qed.

Lemma digitsOnly_allDigits (s : string) : allDigits (digitsOnly s) = true.
Proof.
  induction s as [|c r IH]; [reflexivity|]. cbn [digitsOnly].
  destruct (digitVal c) eqn:Hc; [|exact IH]. cbn [allDigits]. now rewrite Hc.
Qed.

Lemma digitsOnly_digits (s : string) : allDigits s = true -> digitsOnly s = s.
Proof.
  induction s as [|c r IH]; [reflexivity|]. cbn [allDigits digitsOnly].
  destruct (digitVal c); [|discriminate]. intros Hr. now rewrite IH.
Qed.

(** X17.  A registration sends no request unless the name, the e-mail and
    the password are given and the tax number, with everything but its
    digits removed, has 11 or 14 digits; it sends at most seven requests, and
    each carries the trimmed name and e-mail, the password, and those digits
    as [tax_id]. *)
Theorem register_requests_carry_valid_tax (base prefix : string)
    (net : nat -> FetchResult) (nameField emailField password taxField : string)
    (p : LoginPage) :
  let tax := digitsOnly (Str.trim taxField) in
  exists reqs,
    sent (handleRegister base prefix net nameField emailField password taxField p)
    = (sent p ++ reqs)%list /\
    (length reqs <= 7)%nat /\
    Forall (fun r => body r =
              registerPayload (Str.trim nameField) (Str.trim emailField) password tax) reqs /\
    (reqs <> [] ->
     Str.trim nameField <> "" /\ Str.trim emailField <> "" /\ password <> "" /\
     allDigits tax = true /\
     (String.length tax = 11%nat \/ String.length tax = 14%nat)).
Proof.
  cbv zeta. unfold handleRegister. cbv zeta.
  set (tax := digitsOnly (Str.trim taxField)).
  set (payload := registerPayload (Str.trim nameField) (Str.trim emailField) password tax).
  assert (Hnone : forall q, sent q = sent p ->
    exists reqs, sent q = (sent p ++ reqs)%list /\ (length reqs <= 7)%nat /\
      Forall (fun r => body r = payload) reqs /\
      (reqs <> [] ->
       Str.trim nameField <> "" /\ Str.trim emailField <> "" /\ password <> "" /\
       allDigits tax = true /\
       (String.length tax = 11%nat \/ String.length tax = 14%nat))).
  { intros q Hq. exists []. rewrite app_nil_r.
    repeat split; try congruence; try (cbn; lia); try apply List.Forall_nil. }
  destruct (Str.trim nameField =? "") eqn:Hn; [now apply Hnone|].
  destruct (Str.trim emailField =? "") eqn:He; [now apply Hnone|].
  destruct (password =? "") eqn:Hp; [now apply Hnone|].
  destruct (tax =? "") eqn:Ht; [now apply Hnone|].
  cbn [orb].
  destruct (negb (String.length tax =? 11)%nat && negb (String.length tax =? 14)%nat)
    eqn:Hlen; [now apply Hnone|].
  apply String.eqb_neq in Hn, He, Hp.
  assert (Hvalid : Str.trim nameField <> "" /\ Str.trim emailField <> "" /\
                   password <> "" /\ allDigits tax = true /\
                   (String.length tax = 11%nat \/ String.length tax = 14%nat)).
  { repeat split; trivial; [apply digitsOnly_allDigits|].
    destruct (String.length tax =? 11)%nat eqn:H11.
    - left. now apply Nat.eqb_eq.
    - right. destruct (String.length tax =? 14)%nat eqn:H14; [|discriminate Hlen].
      now apply Nat.eqb_eq. }
  pose proof (tryAuthEndpoints_requests base prefix net payload (registerPaths prefix)
                (length (sent (clearError p)))) as (Hl & Hbody).
  destruct (tryAuthEndpoints base prefix net payload
              (length (sent (clearError p))) (registerPaths prefix)) as [found reqs].
  cbn [snd registerPaths length] in Hl, Hbody.
  assert (Htwo : forall q,
    sent q = ((sent p ++ reqs) ++
              [mkRequest (base ++ prefix ++ "/auth/register") payload])%list ->
    exists reqs', sent q = (sent p ++ reqs')%list /\ (length reqs' <= 7)%nat /\
      Forall (fun r => body r = payload) reqs' /\
      (reqs' <> [] ->
       Str.trim nameField <> "" /\ Str.trim emailField <> "" /\ password <> "" /\
       allDigits tax = true /\
       (String.length tax = 11%nat \/ String.length tax = 14%nat))).
  { intros q Hq.
    exists (reqs ++ [mkRequest (base ++ prefix ++ "/auth/register") payload])%list.
    rewrite Hq, <- app_assoc. split; [reflexivity|].
    split; [rewrite length_app; cbn [length]; lia|].
    split; [|intros _; exact Hvalid].
    apply Forall_app. split; [exact Hbody|].
    apply List.Forall_cons; [reflexivity|apply List.Forall_nil]. }
  destruct (match found with
            | Some data => saveAuthData data (store (addRequests reqs (clearError p)))
            | None => None
            end) as [ls|].
  - exists reqs. split; [reflexivity|]. split; [lia|]. split; [exact Hbody|].
    intros _. exact Hvalid.
  - apply Htwo.
    destruct (fetchJson (net (length (sent (addRequests reqs (clearError p))))))
      as [data|[m|]]; [|reflexivity..].
    destruct (member data "token"); [|reflexivity].
    destruct (truthy (extractToken data)); [|reflexivity].
    destruct (saveAuthData data _); [|destruct (saveFailure data)]; reflexivity.
Qed.


(** X19.  Removing the non-digits leaves digits only, keeps a text of digits
    as it is, and so does nothing when done twice. *)
Theorem digitsOnly_keeps_digits (s : string) :
  allDigits (digitsOnly s) = true /\
  (allDigits s = true -> digitsOnly s = s) /\
  digitsOnly (digitsOnly s) = digitsOnly s.
Proof.
  split; [apply digitsOnly_allDigits|]. split; [apply digitsOnly_digits|].
  apply digitsOnly_digits, digitsOnly_allDigits.
Qed.

End AuthFacts.

(** ** Prices as text, and the edit dialog *)

Section PriceFacts.
Import JS Number Products Edit.
Context `{Builtins}.
Local Open Scope Z_scope.

Lemma replaceFirst_digits (x y : ascii) (a : string) :
  allDigits a = true -> digitVal x = None -> Str.replaceFirst x y a = a.
Proof.
  intros Ha Hx. induction a as [|c r IH]; [reflexivity|].
  cbn [allDigits] in Ha. cbn [Str.replaceFirst].
  destruct (digitVal c) eqn:Hc; [|discriminate].
  destruct (Ascii.eqb c x) eqn:Hcx.
  - apply Ascii.eqb_eq in Hcx. congruence.
  - now rewrite IH.
Qed.

Lemma roundHalfUp_nonneg (m e : Z) : 0 <= m -> 0 <= roundHalfUp m e.
Proof.
  intros Hm. unfold roundHalfUp. destruct (0 <=? e) eqn:He.
  - apply Z.leb_le in He. apply Z.mul_nonneg_nonneg; [exact Hm|]. now apply Z.pow_nonneg.
  - apply Z.leb_gt in He.
    assert (0 < 10 ^ (- e)) by (apply Z.pow_pos_nonneg; lia).
    apply Z.div_pos; lia.
Qed.

(** X20.  A whole number of cents written by [centsToReais] is read back by
    [reaisToCents] as the same number. *)
Theorem price_text_round_trip (c : Z) :
  0 <= c < 10 ^ 15 ->
  reaisToCents (JString (centsToReais (JNum (int c)))) = int c.
Proof. apply reaisToCents_centsToReais. Qed.

Lemma reaisToCents_range (value : JSValue) :
  reaisToCents value = Infinity false \/
  exists z, 0 <= z /\ reaisToCents value = int z.
Proof.
  assert (Hzero : exists z, 0 <= z /\ int 0 = int z) by (exists 0; split; [lia|reflexivity]).
  assert (Hnum : forall num,
    (if isNaN num || negative num then int 0 else Math_round (times100 num))
    = Infinity false \/
    exists z, 0 <= z /\
      (if isNaN num || negative num then int 0 else Math_round (times100 num)) = int z).
  { intros [|neg|d]; cbn [isNaN negative orb]; [now right| |].
    - destruct neg; [now right|now left].
    - destruct (mant d <? 0) eqn:Hm; [now right|]. apply Z.ltb_ge in Hm.
      right. cbn [times100 Math_round mant expo].
      eexists. split; [|reflexivity]. now apply roundHalfUp_nonneg. }
  unfold reaisToCents.
  destruct value; try (now right); cbv zeta;
    destruct (_ =? _)%string; try (now right); apply Hnum.
Qed.

(** X21.  Whatever it is given, [reaisToCents] returns a whole number that
    is not negative, or the positive infinity: never NaN, never a negative
    number, never a fraction. *)
Theorem reaisToCents_never_negative (value : JSValue) :
  reaisToCents value = Infinity false \/
  exists z, 0 <= z /\ reaisToCents value = int z.
Proof. apply reaisToCents_range. Qed.

Lemma parseFloat_digits_two (n d1 d0 : Z) :
  0 <= n -> 0 <= d1 <= 9 -> 0 <= d0 <= 9 ->
  parseFloat (digits n ++ String (digitChar d1) (String (digitChar d0) ""))
  = Fin (mkDec (n * 100 + d1 * 10 + d0) 0).
Proof.
  intros Hn H1 H0.
  set (rest := String (digitChar d1) (String (digitChar d0) "")).
  destruct (digits_first n Hn) as (d & r & Hd & Hr).
  destruct (digit_not_special d Hd) as (Hws & _ & _ & Hminus & Hplus & Hinf).
  unfold parseFloat. cbv zeta.
  assert (Htrim : Str.trimStart (digits n ++ rest) = digits n ++ rest).
  { rewrite Hr, append_cons. cbn [Str.trimStart]. now rewrite Hws. }
  assert (Hsign : stripSign (digits n ++ rest) = (false, digits n ++ rest)).
  { rewrite Hr, append_cons. cbn [stripSign]. now rewrite Hminus, Hplus. }
  assert (Hnoinf : String.prefix "Infinity" (digits n ++ rest) = false).
  { rewrite Hr, append_cons. apply Hinf. }
  rewrite Htrim, Hsign, Hnoinf, (scanDigits_digits n Hn).
  subst rest. cbn [scanDigits]. rewrite !digitVal_digitChar by assumption.
  replace (S (S (0 + String.length (digits n))) + 0 =? 0)%nat with false
    by (symmetry; apply Nat.eqb_neq; lia).
  cbn [scanExponent]. f_equal. f_equal; lia.
Qed.

Lemma reaisToCents_toFixed2 (c : Z) :
  0 <= c < 10 ^ 23 ->
  reaisToCents (JString (Str.trim (toFixed2 (div100 (int c))))) = int (100 * c).
Proof.
  intros Hc. rewrite toFixed2_cents by lia. unfold twoDecimals.
  replace (c <? 0) with false by (symmetry; apply Z.ltb_ge; lia).
  rewrite Z.abs_eq by lia. cbn [append].
  set (D := digits (c / 100)).
  set (d1 := c mod 100 / 10). set (d0 := c mod 10).
  assert (Hq : 0 <= c / 100) by (apply Z.div_pos; lia).
  assert (Hd1 : 0 <= d1 <= 9) by (subst d1; Z.div_mod_to_equations; lia).
  assert (Hd0 : 0 <= d0 <= 9) by (subst d0; Z.div_mod_to_equations; lia).
  assert (HD : allDigits D = true) by (apply digits_allDigits; exact Hq).
  destruct (digits_first (c / 100) Hq) as (d & r & Hd & Hr). fold D in Hr.
  destruct (digit_not_special d Hd) as (Hws & _).
  destruct (digit_not_special d0 Hd0) as (Hws0 & Hdot0 & _).
  destruct (digit_not_special d1 Hd1) as (_ & Hdot1 & _).
  assert (Htrim : Str.trim (D ++ String "." (String (digitChar d1) (String (digitChar d0) "")))
                  = D ++ String "." (String (digitChar d1) (String (digitChar d0) ""))).
  { unfold Str.trim.
    replace (Str.trimStart (D ++ String "." (String (digitChar d1) (String (digitChar d0) ""))))
      with (D ++ String "." (String (digitChar d1) (String (digitChar d0) "")))
      by (rewrite Hr, append_cons; cbn [Str.trimStart]; now rewrite Hws).
    change (D ++ String "." (String (digitChar d1) (String (digitChar d0) "")))
      with (D ++ (String "." (String (digitChar d1) "") ++ String (digitChar d0) "")).
    rewrite <- append_assoc. now apply trimEnd_keeps. }
  change ("" ++ D ++ "." ++ String (digitChar d1) (String (digitChar d0) ""))%string
    with (D ++ String "." (String (digitChar d1) (String (digitChar d0) "")))%string.
  rewrite Htrim. unfold reaisToCents. cbn [toStr]. cbv zeta. rewrite Htrim.
  replace (D ++ String "." (String (digitChar d1) (String (digitChar d0) "")) =? "")%string
    with false by (rewrite Hr; reflexivity).
  rewrite removeAll_app, (removeAll_digits D HD).
  cbn [Str.removeAll]. change (Ascii.eqb "." ".") with true. cbv iota.
  rewrite Hdot1, Hdot0.
  assert (Hall : allDigits (D ++ String (digitChar d1) (String (digitChar d0) "")) = true).
  { rewrite allDigits_app, HD. cbn [allDigits andb].
    now rewrite !digitVal_digitChar by assumption. }
  rewrite (replaceFirst_digits "," "." _ Hall eq_refl).
  subst D. rewrite (parseFloat_digits_two (c / 100) d1 d0 Hq Hd1 Hd0).
  cbn [isNaN negative mant expo orb times100 Math_round].
  replace (c / 100 * 100 + d1 * 10 + d0) with c
    by (subst d1 d0; Z.div_mod_to_equations; lia).
  replace (c <? 0) with false by (symmetry; apply Z.ltb_ge; lia).
  unfold roundHalfUp. change (0 + 2) with 2. change (0 <=? 2) with true.
  cbv iota. unfold int. f_equal. f_equal. lia.
Qed.

(** X22.  The edit dialog does not give back the price it was opened with:
    [openEditProduct] writes the price with a decimal point, and
    [saveEditProduct] reads the point as a thousands separator.  For a
    listed product of [c] cents, saving the dialog with the price field
    untouched sends [100 * c] cents. *)
Theorem untouched_edit_multiplies_price (base : string) (item : JSValue) (p : Product)
    (c : Z) (nameField categoryField : string) :
  0 <= c < 10 ^ 13 ->
  get item "price_cents" = JNum (int c) ->
  toProduct base item = Some p ->
  Str.trim nameField <> "" ->
  exists u,
    saveEditProduct nameField (editPriceText p) categoryField = Some u /\
    price_cents u = JNum (int (100 * c)).
Proof.
  intros Hc Hget Hp Hname.
  assert (Hprice : price p = div100 (int c) \/ (c = 0 /\ price p = int 0)).
  { clear Hc Hname. unfold toProduct in Hp.
    destruct (member item "price_cents") as [cents|] eqn:Hm; [|discriminate Hp].
    assert (cents = JNum (int c)).
    { destruct item; cbn [member] in Hm; try discriminate Hm; congruence. }
    subst cents. injection Hp as <-. cbn [price]. unfold priceOf.
    destruct (truthy (JNum (int c))) eqn:Ht; [now left|].
    right. split; [|reflexivity].
    cbn [truthy isZero int mant] in Ht. apply negb_false_iff, Z.eqb_eq in Ht. exact Ht. }
  assert (H23 : 10 ^ 13 < 10 ^ 23) by reflexivity.
  unfold saveEditProduct, editPriceText. cbv zeta.
  apply String.eqb_neq in Hname. rewrite Hname.
  eexists. split; [reflexivity|]. cbn [price_cents].
  destruct Hprice as [-> | (-> & ->)].
  - rewrite reaisToCents_toFixed2 by lia. reflexivity.
  - vm_compute. reflexivity.
Qed.

(** X23.  The edit dialog sends no request when the trimmed name is empty.
    When it sends one, the title is the trimmed name, the slug is empty, the
    category is the trimmed category, and [price_cents] is a whole number
    that is not negative, or [null]: the [null] branch of
    [updateProductOnBackend] is never taken, but [JSON.stringify] writes
    [null] for a price that [reaisToCents] read as infinite, as it does for
    the text "Infinity", and only then.  A blank price field is saved as 0
    cents. *)
Theorem edit_price_is_number_or_null (nameField priceField categoryField : string) :
  (Str.trim nameField = "" ->
   saveEditProduct nameField priceField categoryField = None) /\
  (forall u, saveEditProduct nameField priceField categoryField = Some u ->
     title u = Str.trim nameField /\ slug u = "" /\
     category u = Str.trim categoryField /\
     (price_cents u = JNull \/ exists z, 0 <= z /\ price_cents u = JNum (int z)) /\
     (price_cents u = JNull <->
      reaisToCents (JString (Str.trim priceField)) = Infinity false) /\
     (Str.trim priceField = "" -> price_cents u = JNum (int 0)) /\
     (Str.trim priceField = "Infinity" -> price_cents u = JNull)).
Proof.
  unfold saveEditProduct. cbv zeta.
  remember (reaisToCents (JString (Str.trim priceField))) as cents eqn:Hcents.
  split.
  - now intros ->.
  - intros u. destruct (Str.trim nameField =? "")%string; [discriminate|].
    intros [= <-]. cbn [title slug category price_cents].
    split; [reflexivity|]. split; [reflexivity|]. split; [reflexivity|].
    assert (Hrange : cents = Infinity false \/ exists z, 0 <= z /\ cents = int z)
      by (rewrite Hcents; apply reaisToCents_range).
    split; [|split; [|split]].
    + destruct Hrange as [-> | (z & Hz & ->)]; [now left|].
      right. exists z. now split.
    + destruct Hrange as [-> | (z & Hz & ->)]; [now split|].
      split; discriminate.
    + intros Hb. rewrite Hcents, Hb. reflexivity.
    + intros Hb. rewrite Hcents, Hb. reflexivity.
Qed.

End PriceFacts.

(** ** What the chat widget sends and how a request ends *)

Section ChatRequests.
Import JS Chatbot.

Lemma sliceLast_idem {A : Type} (n : nat) (xs : list A) :
  sliceLast n (sliceLast n xs) = sliceLast n xs.
Proof.
  unfold sliceLast at 1. pose proof (sliceLast_length n xs) as Hl.
  replace (length (sliceLast n xs) - n)%nat with 0%nat by lia. reflexivity.
Qed.

Lemma sliceLast_last {A : Type} (n : nat) (xs : list A) (e : A) :
  (1 <= n)%nat ->
  sliceLast n (xs ++ [e]) = (drop (length xs + 1 - n) xs ++ [e])%list.
Proof.
  intros Hn. unfold sliceLast. rewrite length_app. cbn [length].
  now rewrite drop_app_le by lia.
Qed.

Lemma pushHistory_last (r : string) (c : JSValue) (now : Z) (w : Widget) :
  (1 <= maxHistory w)%nat ->
  history (_pushHistory r c now w) =
  (drop (length (history w) + 1 - maxHistory w) (history w) ++ [mkEntry r c now])%list /\
  maxHistory (_pushHistory r c now w) = maxHistory w.
Proof.
  intros Hn. unfold _pushHistory. cbv zeta.
  destruct (maxHistory w <? length (history w ++ [mkEntry r c now]))%nat eqn:Hcut;
    cbn [setHistory history maxHistory]; (split; [|reflexivity]).
  - now apply sliceLast_last.
  - apply Nat.ltb_ge in Hcut. rewrite length_app in Hcut. cbn [length] in Hcut.
    replace (length (history w) + 1 - maxHistory w)%nat with 0%nat by lia. reflexivity.
Qed.

Lemma pushHistory_page (r : string) (c : JSValue) (now : Z) (w : Widget) :
  input (_pushHistory r c now w) = input w /\
  messages (_pushHistory r c now w) = messages w /\
  sendDisabled (_pushHistory r c now w) = sendDisabled w /\
  previewShown (_pushHistory r c now w) = previewShown w.
Proof. unfold _pushHistory. cbv zeta. now destruct (_ <? _)%nat. Qed.

(** X24.  A text message sent from an idle widget leaves as one chat
    request that carries the trimmed input, and a history of at most
    [maxHistory] entries whose last entry is that same message, after the
    most recent entries of the history before it.  The input box is emptied,
    the message is shown as the user's, and the typing flag is set. *)
Theorem chat_request_carries_the_message (now : Z) (w : Widget) :
  isTyping w = false -> pendingImageFile w = None ->
  Str.trim (input w) <> "" -> (1 <= maxHistory w)%nat ->
  let message := Str.trim (input w) in
  let w' := sendMessage now w in
  exists older recent,
    history w = (older ++ recent)%list /\
    (length recent < maxHistory w)%nat /\
    inFlight w' =
      (inFlight w ++
       [ChatRequest message
          (map (fun e => (role e, content e)) recent ++ [("user", JString message)])])%list /\
    history w' = (recent ++ [mkEntry "user" (JString message) now])%list /\
    input w' = "" /\ isTyping w' = true /\
    messages w' = (messages w ++ [TextBubble (JString message) "user"])%list.
Proof.
  intros Hty Hpend Hmsg Hmx. cbv zeta.
  set (message := Str.trim (input w)) in *.
  set (k := (length (history w) + 1 - maxHistory w)%nat).
  exists (take k (history w)), (drop k (history w)).
  split; [now rewrite take_drop|].
  split; [rewrite length_drop; subst k; lia|].
  unfold sendMessage. cbv zeta. fold message. rewrite Hty, Hpend.
  apply String.eqb_neq in Hmsg. rewrite Hmsg. cbn [andb negb].
  set (w0 := addBubble (TextBubble (JString message) "user") w).
  assert (Hmx0 : (1 <= maxHistory w0)%nat) by exact Hmx.
  destruct (pushHistory_last "user" (JString message) now w0 Hmx0) as (Hh & Hm).
  destruct (pushHistory_frame "user" (JString message) now w0) as (Ht1 & Hf1 & Hp1).
  destruct (pushHistory_page "user" (JString message) now w0) as (_ & Hmsgs & _).
  set (w1 := _pushHistory "user" (JString message) now w0) in *.
  change (history w0) with (history w) in Hh. change (maxHistory w0) with (maxHistory w) in Hh, Hm.
  fold k in Hh.
  change (isTyping w0) with (isTyping w) in Ht1. rewrite Hty in Ht1.
  change (inFlight w0) with (inFlight w) in Hf1.
  change (pendingImageFile w0) with (pendingImageFile w) in Hp1. rewrite Hpend in Hp1.
  change (messages w0) with (messages w ++ [TextBubble (JString message) "user"])%list in Hmsgs.
  clearbody w1. destruct w1 as [op ty pd h mx inp msgs prev dis fl rel].
  cbn [history maxHistory isTyping inFlight pendingImageFile messages] in *.
  subst ty pd h mx fl msgs.
  cbn [setInput showTypingIndicator isTyping pendingImageFile fetch setInFlight
       inFlight history input messages normalizedHistory maxHistory].
  repeat split.
  f_equal. f_equal. f_equal.
  assert (Hlen : (length (drop k (history w) ++ [mkEntry "user" (JString message) now])%list
                  <= maxHistory w)%nat).
  { rewrite length_app, length_drop. cbn [length]. subst k. lia. }
  unfold normalizedHistory. cbn [history maxHistory]. unfold sliceLast.
  replace (length (drop k (history w) ++ [mkEntry "user" (JString message) now])%list
           - maxHistory w)%nat with 0%nat by lia.
  rewrite drop_0, map_app. reflexivity.
Qed.


(** X26.  On a widget with [1 <= maxHistory] (it is built with 20), an
    image picked while the widget is idle and the input is blank is sent by
    the next send as one vision request, with the most recent [maxHistory]
    entries; the attachment is then forgotten and its preview hidden, and
    the history is not written.  A file that is not an image is never
    attached. *)
Theorem attached_image_is_sent_once (now : Z) (file : File) (w : Widget) :
  isTyping w = false -> Str.trim (input w) = "" ->
  ((1 <= maxHistory w)%nat ->
   fileType file <> "" /\ Str.startsWith (fileType file) "image/" = true ->
   let w' := sendMessage now (attachImage file w) in
   inFlight w' =
     (inFlight w ++ [VisionRequest file (sliceLast (maxHistory w) (history w))])%list /\
   pendingImageFile w' = None /\ previewShown w' = false /\
   isTyping w' = true /\ history w' = history w) /\
  (fileType file = "" \/ Str.startsWith (fileType file) "image/" = false ->
   pendingImageFile (attachImage file w) = pendingImageFile w /\
   inFlight (attachImage file w) = inFlight w).
Proof.
  intros Hty Hblank. split.
  - intros _ (Hne & Himg). cbv zeta. unfold attachImage.
    apply String.eqb_neq in Hne. rewrite Hne, Himg. cbn [negb andb].
    destruct w as [op ty pd hs mx inp msgs prev dis fl rel].
    cbn [isTyping input] in Hty, Hblank. subst ty.
    unfold sendMessage. cbv zeta.
    cbn [addBubble setPendingImage isTyping input pendingImageFile].
    rewrite Hblank.
    cbn [String.eqb andb negb setInput showTypingIndicator isTyping pendingImageFile
         setPendingImage fetch setInFlight inFlight previewShown history maxHistory].
    repeat split.
  - intros Hbad. unfold attachImage.
    replace (negb (fileType file =? "") && Str.startsWith (fileType file) "image/")
      with false; [now cbn|].
    destruct Hbad as [-> | ->]; [reflexivity|now rewrite andb_false_r].
Qed.

End ChatRequests.

Section ChatRequestExamples.
Import JS Chatbot.

Lemma chat_request_carries_the_message_witness :
  inFlight (sendMessage 5 (setInput " oi " constructor)) =
  [ChatRequest "oi" [("user", JString "oi")]].
Proof.
  assert (Hmsg : Str.trim (input (setInput " oi " constructor)) <> "") by discriminate.
  assert (Hmx : (1 <= maxHistory (setInput " oi " constructor))%nat) by (cbn; lia).
  destruct (chat_request_carries_the_message 5 (setInput " oi " constructor)
              eq_refl eq_refl Hmsg Hmx)
    as (older & recent & Hh & _ & Hreq & _).
  destruct older; [|discriminate Hh]. destruct recent; [|discriminate Hh].
  exact Hreq.
Defined.


Lemma attached_image_is_sent_once_witness :
  inFlight (sendMessage 5 (attachImage (mkFile "foto.png" "image/png") constructor)) =
  [VisionRequest (mkFile "foto.png" "image/png") []] /\
  pendingImageFile (attachImage (mkFile "notas.txt" "text/plain") constructor) = None.
Proof.
  destruct (attached_image_is_sent_once 5 (mkFile "foto.png" "image/png") constructor
              eq_refl eq_refl) as (Hsend & _).
  destruct (attached_image_is_sent_once 5 (mkFile "notas.txt" "text/plain") constructor
              eq_refl eq_refl) as (_ & Hkeep).
  split.
  - apply Hsend; [vm_compute; lia|]. split; [discriminate|reflexivity].
  - apply Hkeep. now right.
Defined.

End ChatRequestExamples.

(** ** The product list as a whole, and the tabs *)

Section ProductListFacts.
Import JS Number Products.
Context `{Builtins}.


End ProductListFacts.

Section TabFacts.
Import JS Tabs.
Local Open Scope Z_scope.

Lemma indexOf_known (t : string) : In t tabs -> 0 <= indexOf (JString t) <= 2.
Proof.
  intros [<-|[<-|[<-|[]]]]; cbn; lia.
Qed.

Lemma nextTab_forward (f : Form) :
  0 <= currentTab f < 2 -> currentTab (nextTab f) = currentTab f + 1.
Proof.
  intros Hc. assert (Hcase : currentTab f = 0 \/ currentTab f = 1) by lia.
  unfold nextTab, navigateToTab. destruct Hcase as [Hv | Hv]; rewrite Hv; reflexivity.
Qed.

Lemma previousTab_back (f : Form) :
  0 < currentTab f <= 2 -> currentTab (previousTab f) = currentTab f - 1.
Proof.
  intros Hc. assert (Hcase : currentTab f = 1 \/ currentTab f = 2) by lia.
  unfold previousTab, navigateToTab. destruct Hcase as [Hv | Hv]; rewrite Hv; reflexivity.
Qed.

Lemma nextTab_last (f : Form) : 2 <= currentTab f -> nextTab f = f.
Proof.
  intros Hc. unfold nextTab.
  replace (currentTab f <? Z.of_nat (length tabs) - 1) with false; [reflexivity|].
  symmetry. apply Z.ltb_ge. exact Hc.
Qed.

Lemma previousTab_first (f : Form) : currentTab f <= 0 -> previousTab f = f.
Proof.
  intros Hc. unfold previousTab.
  replace (0 <? currentTab f) with false; [reflexivity|].
  symmetry. apply Z.ltb_ge. exact Hc.
Qed.

Lemma step_in_range (f : Form) (e : Event) :
  known e -> 0 <= currentTab f <= 2 -> 0 <= currentTab (step f e) <= 2.
Proof.
  intros Hk Hc. destruct e as [| |tabId]; cbn [step].
  - destruct (Z.eq_dec (currentTab f) 2) as [H2|H2].
    + rewrite nextTab_last by lia. exact Hc.
    + rewrite nextTab_forward by lia. lia.
  - destruct (Z.eq_dec (currentTab f) 0) as [H0|H0].
    + rewrite previousTab_first by lia. exact Hc.
    + rewrite previousTab_back by lia. lia.
  - destruct Hk as (t & -> & Hin). cbn [navigateToTab currentTab].
    now apply indexOf_known.
Qed.

(** X28.  The buttons walk the three tabs without leaving them: from the
    first tab, after any presses of "next" and "previous" and any
    navigation to a tab that exists, the current tab is one of the three;
    "next" on the last tab and "previous" on the first do nothing; on the
    others "next" moves one tab forward and "previous" one tab back, so
    each undoes the other.  Navigating to a name that is no tab leaves the
    index at -1, from where "next" goes to the first tab. *)
Theorem tabs_stay_in_range (es : list Event) (pd nh : bool) :
  (Forall known es -> 0 <= currentTab (fold_left step es (initial pd nh)) <= 2) /\
  (forall f, currentTab f = 2 -> nextTab f = f) /\
  (forall f, currentTab f = 0 -> previousTab f = f) /\
  (forall f, 0 <= currentTab f < 2 ->
     currentTab (nextTab f) = currentTab f + 1 /\
     currentTab (previousTab (nextTab f)) = currentTab f) /\
  (forall f, 0 < currentTab f <= 2 ->
     currentTab (previousTab f) = currentTab f - 1 /\
     currentTab (nextTab (previousTab f)) = currentTab f) /\
  (forall f tabId, (forall t, In t tabs -> tabId <> JString t) ->
     currentTab (navigateToTab tabId f) = -1 /\
     currentTab (nextTab (navigateToTab tabId f)) = 0 /\
     previousTab (navigateToTab tabId f) = navigateToTab tabId f).
Proof.
  split; [|split; [|split; [|split; [|split]]]].
  - intros Hk. induction es as [|e es IH] using rev_ind; [cbn; lia|].
    apply Forall_app in Hk. destruct Hk as (Hes & He).
    rewrite fold_left_app. cbn [fold_left]. apply step_in_range.
    + now inversion He.
    + now apply IH.
  - intros f Hc. apply nextTab_last. lia.
  - intros f Hc. apply previousTab_first. lia.
  - intros f Hc. pose proof (nextTab_forward f Hc) as Hn. split; [exact Hn|].
    rewrite previousTab_back by lia. lia.
  - intros f Hc. pose proof (previousTab_back f Hc) as Hp. split; [exact Hp|].
    rewrite nextTab_forward by lia. lia.
  - intros f tabId Hno.
    assert (Hidx : indexOf tabId = -1).
    { destruct tabId; try reflexivity. cbn [indexOf indexFrom tabs].
      destruct ("perfil" =? s)%string eqn:H1;
        [apply String.eqb_eq in H1; subst s; exfalso; apply (Hno "perfil"); cbn; auto|].
      destruct ("comportamento" =? s)%string eqn:H2;
        [apply String.eqb_eq in H2; subst s; exfalso; apply (Hno "comportamento"); cbn; auto|].
      destruct ("conversa-ativacao" =? s)%string eqn:H3;
        [apply String.eqb_eq in H3; subst s; exfalso;
         apply (Hno "conversa-ativacao"); cbn; auto|].
      reflexivity. }
    unfold previousTab, nextTab, navigateToTab. cbn [currentTab]. rewrite Hidx.
    repeat split.
Qed.

End TabFacts.

(** ** The test message *)

Section TestMessageFacts.
Import JS WhatsApp TestMessage.
Context `{Builtins}.

(** X29.  A test message always ends with exactly one alert.  A request is
    sent only when an instance and a token are set and both the number and
    the message, trimmed, are not empty, and it carries the current token
    with that number and that text.  The instance, the token and the
    storage are never changed, and a status poll follows in one case only:
    an answer 503 whose text says "disconnected". *)
Theorem test_message_raises_one_alert (net : Endpoint -> FetchResult) (r : FetchResult)
    (numberField : string) (messageField : option string) (p : Page) :
  let p' := fst (sendWhatsAppTest net r numberField messageField p) in
  let sent := snd (sendWhatsAppTest net r numberField messageField p) in
  (exists a, alerts p' = (alerts p ++ [a])%list) /\
  waCurrentInstance p' = waCurrentInstance p /\
  waCurrentToken p' = waCurrentToken p /\
  storage p' = storage p /\
  (forall b, sent = Some b ->
     truthy (waCurrentInstance p) = true /\ truthy (waCurrentToken p) = true /\
     token b = waCurrentToken p /\
     to b = Str.trim numberField /\ to b <> "" /\
     text b <> "" /\ exists m, messageField = Some m /\ text b = Str.trim m) /\
  (requests p' <> requests p ->
   exists t body, r = Response false 503 t body /\ saysDisconnected t = true).
Proof.
  cbv zeta. unfold sendWhatsAppTest. cbv zeta.
  destruct (truthy (waCurrentInstance p)) eqn:Hi;
    [|cbn; repeat split; eauto; try discriminate; congruence].
  destruct (truthy (waCurrentToken p)) eqn:Ht;
    [|cbn; repeat split; eauto; try discriminate; congruence].
  cbn [negb orb].
  destruct (Str.trim numberField =? "") eqn:Hto;
    [cbn; repeat split; eauto; try discriminate; congruence|].
  destruct messageField as [m|];
    [|cbn; repeat split; eauto; try discriminate; congruence].
  destruct (Str.trim m =? "") eqn:Htx;
    [cbn; repeat split; eauto; try discriminate; congruence|].
  cbn [orb]. apply String.eqb_neq in Hto, Htx.
  assert (Hbody : forall b,
    Some (mkBody (waCurrentToken p) (Str.trim numberField) (Str.trim m)) = Some b ->
    True /\ True /\ token b = waCurrentToken p /\
    to b = Str.trim numberField /\ to b <> "" /\
    text b <> "" /\ exists m0, Some m = Some m0 /\ text b = Str.trim m0).
  { intros b [= <-]. cbn [token to text]. repeat split; eauto. }
  destruct r as [|[|] st tx body]; cbn [fst snd].
  - cbn [alert logLine alerts waCurrentInstance waCurrentToken storage requests].
    repeat split; eauto; try apply Hbody; trivial; congruence.
  - cbn [alert logLine alerts waCurrentInstance waCurrentToken storage requests].
    repeat split; eauto; try apply Hbody; trivial; congruence.
  - destruct ((st =? 503)%nat && saysDisconnected tx) eqn:Hd; cbn [fst snd].
    + apply andb_true_iff in Hd. destruct Hd as (Hst & Hsay).
      apply Nat.eqb_eq in Hst. subst st.
      match goal with
      | |- context [updateWhatsAppStatus net ?q] =>
          destruct (updateWhatsAppStatus_keeps net q) as (-> & -> & -> & ->)
      end.
      cbn [alert alerts waCurrentInstance waCurrentToken storage].
      repeat split; eauto; apply Hbody; trivial.
    + cbn [alert logLine alerts waCurrentInstance waCurrentToken storage requests].
      repeat split; eauto; try apply Hbody; trivial; congruence.
Qed.

End TestMessageFacts.

(** ** Examples *)

Section AuthExamples.
Import JS Number Session Auth.

Lemma headers_after_saveAuthData_witness :
  exists ls,
    @saveAuthData sampleHost tokenAnswer ∅ = Some ls /\
    requestHeaders ls !! "Authorization" = Some "Bearer jwt-1" /\
    requestHeaders ls !! "X-Org-ID" = Some "7".
Proof.
  destruct (@hasToken_saves sampleHost tokenAnswer ∅ eq_refl) as (ls & Hs).
  exists ls. split; [exact Hs|].
  destruct (@headers_after_saveAuthData sampleHost tokenAnswer ∅ ls "jwt-1" Hs eq_refl)
    as (Ha & Ho & _).
  split; [exact Ha|exact Ho].
Defined.

End AuthExamples.

Section PriceExamples.
Import JS Number Products Edit.

Lemma price_text_round_trip_witness :
  @reaisToCents sampleHost (JString (@centsToReais sampleHost (JNum (int 1234)))) = int 1234.
Proof.
  apply (@price_text_round_trip sampleHost 1234).
  split; [discriminate|reflexivity].
Defined.

Lemma untouched_edit_multiplies_price_witness :
  match @toProduct sampleHost "" pricedItem with
  | Some p =>
      exists u,
        @saveEditProduct sampleHost "Caneca" (@editPriceText sampleHost p) "" = Some u /\
        price_cents u = JNum (int 125000)
  | None => False
  end.
Proof.
  destruct (@toProduct sampleHost "" pricedItem) as [p|] eqn:Hp;
    [|vm_compute in Hp; discriminate Hp].
  assert (Hc : (0 <= 1250 < 10 ^ 13)%Z) by (split; [discriminate|reflexivity]).
  assert (Hname : Str.trim "Caneca" <> "") by discriminate.
  exact (@untouched_edit_multiplies_price sampleHost "" pricedItem p 1250 "Caneca" ""
           Hc eq_refl Hp Hname).
Defined.

Lemma edit_price_is_number_or_null_witness :
  @saveEditProduct sampleHost "   " "12,50" "" = None /\
  price_cents (mkUpdate "Caneca" "" "" JNull) = JNull.
Proof.
  split.
  - apply (proj1 (@edit_price_is_number_or_null sampleHost "   " "12,50" "")). reflexivity.
  - apply (proj2 (@edit_price_is_number_or_null sampleHost "Caneca" " Infinity " "")
             (mkUpdate "Caneca" "" "" JNull)); reflexivity.
Defined.

End PriceExamples.

(** ** The API base shim *)

Section ShimFacts.
Import ApiShim.

Lemma stripSlashes_fix (s : string) :
  (forall r, s <> String "/" r) -> stripSlashes s = s.
Proof.
  destruct s as [|c r]; [reflexivity|]. intros Hno. cbn [stripSlashes].
  destruct (Ascii.eqb c "/") eqn:Hc; [|reflexivity].
  apply Ascii.eqb_eq in Hc. subst c. now destruct (Hno r).
Qed.

Lemma stripSlashes_head (s : string) : forall r, stripSlashes s <> String "/" r.
Proof.
  induction s as [|c t IH]; intros r; cbn [stripSlashes]; [discriminate|].
  destruct (Ascii.eqb c "/") eqn:Hc; [apply IH|].
  intros [= -> _]. discriminate Hc.
Qed.

Lemma afterApi_no_slash (s r : string) :
  afterApi s = Some r -> forall t, s <> String "/" t.
Proof.
  destruct s as [|a [|p [|i [|sl u]]]]; cbn [afterApi]; try discriminate.
  unfold isApi. intros Hs t [= -> _]. discriminate Hs.
Qed.

Lemma strong_string_ind (P : string -> Prop) :
  (forall s, (forall t, (String.length t < String.length s)%nat -> P t) -> P s) ->
  forall s, P s.
Proof.
  intros Hstep s. remember (String.length s) as n eqn:Hn.
  revert s Hn. induction n as [n IH] using lt_wf_ind. intros s ->.
  apply Hstep. intros t Ht. now apply (IH (String.length t) Ht).
Qed.

Lemma afterApis_done (s : string) : afterApi (afterApis s) = None.
Proof.
  induction s as [s IH] using strong_string_ind.
  destruct s as [|a [|p [|i [|sl r]]]]; try reflexivity.
  cbn [afterApis]. destruct (isApi a p i sl) eqn:Hapi.
  - apply IH. cbn [String.length]. lia.
  - cbn [afterApi]. now rewrite Hapi.
Qed.

Lemma afterApis_fix (s : string) : afterApi s = None -> afterApis s = s.
Proof.
  destruct s as [|a [|p [|i [|sl r]]]]; try reflexivity.
  cbn [afterApi afterApis]. now destruct (isApi a p i sl).
Qed.

Lemma afterApis_suffix (s : string) : exists pre, s = pre ++ afterApis s.
Proof.
  induction s as [s IH] using strong_string_ind.
  destruct s as [|a [|p [|i [|sl r]]]]; try (now exists "").
  cbn [afterApis]. destruct (isApi a p i sl); [|now exists ""].
  destruct (IH r) as (pre & Hpre); [cbn [String.length]; lia|].
  exists (String a (String p (String i (String sl pre)))).
  change (String a (String p (String i (String sl pre))) ++ afterApis r)
    with (String a (String p (String i (String sl (pre ++ afterApis r))))).
  now rewrite <- Hpre.
Qed.

Lemma afterApi_suffix (s r : string) :
  afterApi s = Some r -> exists pre, s = pre ++ r.
Proof.
  destruct s as [|a [|p [|i [|sl u]]]]; cbn [afterApi]; try discriminate.
  destruct (isApi a p i sl); [|discriminate]. intros [= <-].
  now exists (String a (String p (String i (String sl "")))).
Qed.

Lemma normalizeApiPath_api (s r : string) :
  afterApi s = Some r -> normalizeApiPath s = "api/" ++ afterApis r.
Proof.
  intros Hs. unfold normalizeApiPath.
  rewrite (stripSlashes_fix s (afterApi_no_slash s r Hs)). now rewrite Hs.
Qed.

Lemma api_path_once (base c : string) :
  startsApiPath c = true ->
  exists rest pre,
    base ++ "/" ++ normalizeApiPath (stripSlashes c) = base ++ "/api/" ++ rest /\
    afterApi rest = None /\ c = pre ++ rest.
Proof.
  unfold startsApiPath. destruct (afterApi c) as [r|] eqn:Hc.
  - intros _. rewrite (stripSlashes_fix c (afterApi_no_slash c r Hc)).
    rewrite (normalizeApiPath_api c r Hc).
    destruct (afterApi_suffix c r Hc) as (p1 & Hp1).
    destruct (afterApis_suffix r) as (p2 & Hp2).
    exists (afterApis r), (p1 ++ p2). split; [reflexivity|].
    split; [apply afterApis_done|].
    rewrite append_assoc, <- Hp2. exact Hp1.
  - destruct c as [|x c1]; [discriminate|].
    destruct (Ascii.eqb x "/") eqn:Hx; [|discriminate].
    apply Ascii.eqb_eq in Hx. subst x.
    destruct (afterApi c1) as [r|] eqn:Hc1; [|discriminate]. intros _.
    cbn [stripSlashes]. change (Ascii.eqb "/" "/") with true. cbv iota.
    rewrite (stripSlashes_fix c1 (afterApi_no_slash c1 r Hc1)).
    rewrite (normalizeApiPath_api c1 r Hc1).
    destruct (afterApi_suffix c1 r Hc1) as (p1 & Hp1).
    destruct (afterApis_suffix r) as (p2 & Hp2).
    exists (afterApis r), (String "/" (p1 ++ p2)). split; [reflexivity|].
    split; [apply afterApis_done|].
    change (String "/" (p1 ++ p2) ++ afterApis r)
      with (String "/" ((p1 ++ p2) ++ afterApis r)).
    f_equal. rewrite append_assoc, <- Hp2. exact Hp1.
Qed.

(** X30.  The shim sends every API path to the backend with exactly one
    [api/] in front.  An absolute address is left alone.  A path that
    starts with [api/] or [/api/] (letters in either case), however many
    times [api/] is repeated, becomes the base, [/api/], and the rest of
    the path, which no longer starts with [api/].  Normalising a path twice
    is normalising it once, and the [XMLHttpRequest] wrapper rewrites an
    address without white space around it as the [fetch] wrapper does. *)
Theorem shim_puts_one_api_prefix (base url : string) :
  (isAbsolute url = true -> rewrite base url = url) /\
  (isAbsolute url = false -> isRailwayHost url = false ->
   startsApiPath (Str.trim url) = true ->
   exists rest pre,
     rewrite base url = base ++ "/api/" ++ rest /\
     afterApi rest = None /\ Str.trim url = pre ++ rest) /\
  normalizeApiPath (normalizeApiPath url) = normalizeApiPath url /\
  (Str.trim url = url -> rewriteOpen base url = rewrite base url).
Proof.
  split; [|split; [|split]].
  - intros Habs. unfold rewrite. now rewrite Habs.
  - intros Habs Hrail Hapi. unfold rewrite. rewrite Habs, Hrail. cbv zeta.
    rewrite Hapi. now apply api_path_once.
  - destruct (afterApi (stripSlashes url)) as [r|] eqn:Hs.
    + assert (Hn : normalizeApiPath url = "api/" ++ afterApis r)
        by (unfold normalizeApiPath; now rewrite Hs).
      assert (Hq : afterApi ("api/" ++ afterApis r) = Some (afterApis r)) by reflexivity.
      rewrite Hn, (normalizeApiPath_api _ _ Hq).
      now rewrite (afterApis_fix _ (afterApis_done r)).
    + assert (Hn : normalizeApiPath url = stripSlashes url)
        by (unfold normalizeApiPath; now rewrite Hs).
      rewrite Hn. unfold normalizeApiPath.
      rewrite (stripSlashes_fix _ (stripSlashes_head url)). now rewrite Hs.
  - intros Htrim. unfold rewriteOpen, rewrite. cbv zeta. now rewrite Htrim.
Qed.

End ShimFacts.

Section ShimExamples.
Import ApiShim.

Lemma shim_puts_one_api_prefix_witness :
  rewrite "https://b" "https://b/api/x" = "https://b/api/x" /\
  rewrite "https://b" " /API/api/products " = "https://b/api/products" /\
  rewriteOpen "https://b" "api/api/products" = "https://b/api/products".
Proof.
  destruct (shim_puts_one_api_prefix "https://b" "https://b/api/x") as (Habs & _).
  destruct (shim_puts_one_api_prefix "https://b" " /API/api/products ")
    as (_ & Hapi & _).
  destruct (shim_puts_one_api_prefix "https://b" "api/api/products")
    as (_ & _ & _ & Hopen).
  split; [now apply Habs|]. split.
  - destruct (Hapi eq_refl eq_refl eq_refl) as (rest & pre & Hr & _). reflexivity.
  - now rewrite (Hopen eq_refl).
Defined.

End ShimExamples.
